(** * layer-wsgi: the reactive handlers of [reactive/wsgi.py] and the helpers
      of [reactive/lib/helpers.py], embedded and verified.

    A Python [str] is a Rocq [string] whose characters are the code points
    below 256; a [dict] whose iteration order matters is an association list
    in insertion order; relation records and the file system are finite maps;
    the handlers run in a state-and-exception monad over the reactive flags,
    the text files, the rest of the machine and the trace of effects. *)

From Stdlib Require Import ZArith Lia Ascii.
From stdpp Require Import base strings gmap list pretty.

(** ** Python values and exceptions *)

Inductive PyVal : Type :=
  | VNone
  | VStr (s : string)
  | VInt (z : Z).

#[global] Instance PyVal_eq_dec : EqDecision PyVal.
Proof. solve_decision. Defined.

(** [bool(v)]: [None], the empty string and zero are falsy. *)
Definition truthy (v : PyVal) : bool :=
  match v with
  | VNone => false
  | VStr s => negb (String.eqb s "")
  | VInt z => negb (Z.eqb z 0)
  end.

(** What ["{}".format(v)] prints. *)
Definition py_str (v : PyVal) : string :=
  match v with
  | VNone => "None"
  | VStr s => s
  | VInt z => pretty z
  end.

(** [a or b] *)
Definition py_or (a b : PyVal) : PyVal := if truthy a then a else b.

Inductive Exception : Type :=
  | ValueError
  | TypeError
  | AttributeError
  | KeyError
  | FileNotFoundError (path : string)
  | CalledProcessError (cmd : list PyVal)
  | OSError (msg : string).

Inductive Result (A : Type) : Type :=
  | Ok (a : A)
  | Raise (e : Exception).
Arguments Ok {A} a.
Arguments Raise {A} e.

(** The error monad of the functions that can only raise. *)
#[global] Instance Result_ret : MRet Result := λ A a, Ok a.
#[global] Instance Result_bind : MBind Result :=
  λ A B f m, match m with Ok a => f a | Raise e => Raise e end.
#[global] Instance Result_fmap : FMap Result :=
  λ A B f m, match m with Ok a => Ok (f a) | Raise e => Raise e end.

(** ** The [str] methods the code calls *)

Module Str.

Definition newline : ascii := ascii_of_nat 10.
Definition carriage_return : ascii := ascii_of_nat 13.
Definition equals : ascii := "="%char.

(** [str.isspace] on one character: code points 9-13, 28-32, 133 and 160. *)
Definition isspace (c : ascii) : bool :=
  let n := nat_of_ascii c in
  ((9 <=? n)%nat && (n <=? 13)%nat) || ((28 <=? n)%nat && (n <=? 32)%nat)
  || (n =? 133)%nat || (n =? 160)%nat.

Fixpoint lstrip (s : string) : string :=
  match s with
  | String c s' => if isspace c then lstrip s' else s
  | EmptyString => EmptyString
  end.

Fixpoint rstrip (s : string) : string :=
  match s with
  | String c s' =>
      match rstrip s' with
      | EmptyString => if isspace c then EmptyString else String c EmptyString
      | r => String c r
      end
  | EmptyString => EmptyString
  end.

(** [s.strip()] *)
Definition strip (s : string) : string := lstrip (rstrip s).

(** [s.split()]: the maximal runs of characters that are not whitespace. *)
Fixpoint split (s : string) : list string :=
  match s with
  | EmptyString => []
  | String c s' =>
      if isspace c then split s'
      else match s' with
           | EmptyString => [String c EmptyString]
           | String c' _ =>
               if isspace c' then String c EmptyString :: split s'
               else match split s' with
                    | t :: ts => String c t :: ts
                    | [] => [String c EmptyString]
                    end
           end
  end.

(** [s.split(sep)] for a one-character separator: one piece more than
    there are separators. *)
Fixpoint split_on (sep : ascii) (s : string) : list string :=
  match s with
  | EmptyString => [EmptyString]
  | String c s' =>
      if Ascii.eqb c sep then EmptyString :: split_on sep s'
      else match split_on sep s' with
           | p :: ps => String c p :: ps
           | [] => [String c EmptyString]
           end
  end.

(** [s.split(sep, 1)]: cut at the first separator only. *)
Fixpoint split_once (sep : ascii) (s : string) : list string :=
  match s with
  | EmptyString => [EmptyString]
  | String c s' =>
      if Ascii.eqb c sep then [EmptyString; s']
      else match split_once sep s' with
           | p :: ps => String c p :: ps
           | [] => [String c EmptyString]
           end
  end.

(** [s.startswith(p)] *)
Fixpoint startswith (p s : string) : bool :=
  match p, s with
  | EmptyString, _ => true
  | String a p', String b s' => Ascii.eqb a b && startswith p' s'
  | String _ _, EmptyString => false
  end.

(** Every character satisfies [p]. *)
Fixpoint all_chars (p : ascii → bool) (s : string) : bool :=
  match s with
  | EmptyString => true
  | String c s' => p c && all_chars p s'
  end.

(** The characters of an identifier: letters, digits and the underscore. *)
Definition is_ident_char (c : ascii) : bool :=
  let n := nat_of_ascii c in
  ((97 <=? n)%nat && (n <=? 122)%nat) || ((65 <=? n)%nat && (n <=? 90)%nat)
  || ((48 <=? n)%nat && (n <=? 57)%nat) || (n =? 95)%nat.

(** Number of occurrences of a character. *)
Fixpoint count (c : ascii) (s : string) : nat :=
  match s with
  | EmptyString => 0
  | String a s' => (if Ascii.eqb a c then 1 else 0) + count c s'
  end.

(** Text mode with universal newlines: on reading, [\r\n] and a lone [\r]
    become [\n]. *)
Fixpoint universal_newlines (s : string) : string :=
  match s with
  | EmptyString => EmptyString
  | String c s' =>
      if Ascii.eqb c carriage_return then
        match s' with
        | String c' s'' =>
            if Ascii.eqb c' newline then String newline (universal_newlines s'')
            else String newline (universal_newlines s')
        | EmptyString => String newline EmptyString
        end
      else String c (universal_newlines s')
  end.

(** [file.readlines()]: every line keeps its newline; the last line may
    have none. *)
Fixpoint readlines (s : string) : list string :=
  match s with
  | EmptyString => []
  | String c s' =>
      if Ascii.eqb c newline then String c EmptyString :: readlines s'
      else match readlines s' with
           | l :: ls => String c l :: ls
           | [] => [String c EmptyString]
           end
  end.

(** [file.writelines(lines)]: the lines one after the other, nothing added. *)
Definition writelines (lines : list string) : string :=
  foldr String.append EmptyString lines.

Definition lf : string := String newline EmptyString.

End Str.

(** [a, b = parts] *)
Definition unpack2 {A : Type} (parts : list A) : Result (A * A) :=
  match parts with
  | [a; b] => Ok (a, b)
  | _ => Raise ValueError
  end.

(** ** Dictionaries in insertion order *)

Definition dict : Type := list (string * string).

Fixpoint dict_get (k : string) (d : dict) : option string :=
  match d with
  | [] => None
  | (k', v) :: d' => if String.eqb k' k then Some v else dict_get k d'
  end.

Definition dict_in (k : string) (d : dict) : bool :=
  match dict_get k d with Some _ => true | None => false end.

(** [d[k] = v]: an existing key keeps its place, a new key goes last. *)
Fixpoint dict_set (k v : string) (d : dict) : dict :=
  match d with
  | [] => [(k, v)]
  | (k', v') :: d' =>
      if String.eqb k' k then (k, v) :: d' else (k', v') :: dict_set k v d'
  end.

(** ** reactive/lib/helpers.py: the functions without effects *)

(** [build_url_host(domain, port=None, username=None, password=None)];
    ["{0}:{1}".format(a, b)] is [py_str a ++ ":" ++ py_str b]. *)
Definition build_url_host (domain port username password : PyVal) : PyVal :=
  let host := domain in
  let host :=
    if truthy port then VStr (py_str domain +:+ ":" +:+ py_str port) else host in
  if truthy username then
    let credentials := username in
    let credentials :=
      if truthy password
      then VStr (py_str username +:+ ":" +:+ py_str password)
      else credentials in
    VStr (py_str credentials +:+ "@" +:+ py_str host)
  else host.

(** [v.split()] on a configuration value: only a [str] has the method. *)
Definition split_value (v : PyVal) : Result (list string) :=
  match v with
  | VStr s => Ok (Str.split s)
  | _ => Raise AttributeError
  end.

(** An argument that has to be a [str]. *)
Definition as_str (v : PyVal) : Result string :=
  match v with
  | VStr s => Ok s
  | _ => Raise TypeError
  end.

(** [variables_from_string(variables_string)]: the loop over
    [variables_string.split()], the dictionary built so far as accumulator. *)
Fixpoint variables_from_declarations (declarations : list string)
    (variables : dict) : Result dict :=
  match declarations with
  | [] => Ok variables
  | declaration :: rest =>
      '(variable_name, value) ← unpack2 (Str.split_on Str.equals declaration);
      variables_from_declarations rest (dict_set variable_name value variables)
  end.

Definition variables_from_string (variables_string : PyVal) : Result dict :=
  declarations ← split_value variables_string;
  variables_from_declarations declarations [].

(** *** The regular expression of the environment file *)

Module Re.

Inductive Atom : Type :=
  | Range (lo hi : ascii)
  | Chr (c : ascii).

Inductive Quant : Type := Once | ZeroOrMore | OneOrMore.

(** A pattern is a sequence of quantified character sets. *)
Definition Pattern : Type := list (list Atom * Quant).

Definition atom_matches (c : ascii) (a : Atom) : bool :=
  match a with
  | Range lo hi =>
      (nat_of_ascii lo <=? nat_of_ascii c)%nat
      && (nat_of_ascii c <=? nat_of_ascii hi)%nat
  | Chr x => Ascii.eqb x c
  end.

Definition in_set (set : list Atom) (c : ascii) : bool :=
  existsb (atom_matches c) set.

(** One character of the set, then [k] on the rest. *)
Definition step (set : list Atom) (k : string → bool) (s : string) : bool :=
  match s with
  | String c s' => in_set set c && k s'
  | EmptyString => false
  end.

(** Any number of characters of the set, then [k] on the rest, with
    backtracking. *)
Fixpoint repeat (set : list Atom) (k : string → bool) (s : string) : bool :=
  k s ||
  match s with
  | String c s' => in_set set c && repeat set k s'
  | EmptyString => false
  end.

(** [re.match(pattern, s)] as a truth value: some prefix of [s] matches. *)
Fixpoint matches (p : Pattern) : string → bool :=
  match p with
  | [] => λ _, true
  | (set, q) :: rest =>
      match q with
      | Once => step set (matches rest)
      | ZeroOrMore => repeat set (matches rest)
      | OneOrMore => step set (repeat set (matches rest))
      end
  end.

(** [r"^[a-zA-Z_]+[a-zA-Z0-9_]*="] *)
Definition bash_variable : Pattern :=
  [ ([Range "a" "z"; Range "A" "Z"; Chr "_"], OneOrMore);
    ([Range "a" "z"; Range "A" "Z"; Range "0" "9"; Chr "_"], ZeroOrMore);
    ([Chr "="], Once) ]%char.

End Re.

(** [key, value = env_line.strip().split('=', 1)] *)
Definition split_assignment (env_line : string) : Result (string * string) :=
  unpack2 (Str.split_once Str.equals (Str.strip env_line)).

(** The loop of [get_env] over the lines read. *)
Fixpoint get_env_lines (lines : list string) (env_vars : dict) : Result dict :=
  match lines with
  | [] => Ok env_vars
  | env_line :: rest =>
      if Re.matches Re.bash_variable env_line then
        '(key, value) ← split_assignment env_line;
        get_env_lines rest (dict_set key value env_vars)
      else get_env_lines rest env_vars
  end.

(** ["{key}={value}\n".format(key=key, value=value)] *)
Definition format_line (key value : string) : string :=
  key +:+ "=" +:+ value +:+ Str.lf.

(** The key of a line in [set_env_values]: [None] unless the line is a
    variable. *)
Definition line_key (env_line : string) : Result (option string) :=
  if Re.matches Re.bash_variable env_line then
    '(key, _) ← split_assignment env_line; Ok (Some key)
  else Ok None.

(** [d[k]] *)
Definition dict_item (k : string) (d : dict) : Result string :=
  match dict_get k d with
  | Some v => Ok v
  | None => Raise KeyError
  end.

(** The first loop of [set_env_values]: [env_lines] and [found] grow at
    their ends. [None] is never a key of [incoming_variables]. *)
Fixpoint set_env_scan (lines : list string) (incoming_variables : dict)
    (env_lines found : list string) : Result (list string * list string) :=
  match lines with
  | [] => Ok (env_lines, found)
  | env_line :: rest =>
      key ← line_key env_line;
      match key with
      | Some key =>
          if dict_in key incoming_variables then
            value ← dict_item key incoming_variables;
            let new_line := format_line key value in
            set_env_scan rest incoming_variables
              (env_lines ++ [new_line]) (found ++ [key])
          else
            set_env_scan rest incoming_variables (env_lines ++ [env_line]) found
      | None =>
          set_env_scan rest incoming_variables (env_lines ++ [env_line]) found
      end
  end.

(** The second loop of [set_env_values], over [incoming_variables.items()]. *)
Fixpoint set_env_append (items : dict) (found env_lines : list string)
    : list string :=
  match items with
  | [] => env_lines
  | (key, value) :: rest =>
      if bool_decide (key ∈ found) then set_env_append rest found env_lines
      else set_env_append rest found (env_lines ++ [format_line key value])
  end.

Definition set_env_lines (lines : list string) (incoming_variables : dict)
    : Result (list string) :=
  '(env_lines, found) ← set_env_scan lines incoming_variables [] [];
  Ok (set_env_append incoming_variables found env_lines).

(** The loop of [delete_env_value]. *)
Fixpoint delete_env_lines (lines : list string) (target_key : string)
    (env_lines : list string) : list string :=
  match lines with
  | [] => env_lines
  | env_line :: rest =>
      if negb (Str.startswith (target_key +:+ "=") env_line)
      then delete_env_lines rest target_key (env_lines ++ [env_line])
      else delete_env_lines rest target_key env_lines
  end.

(** *** [demote]: the credentials of the child process *)

Record passwd : Type := {
  pw_name : string;
  pw_uid : Z;
  pw_gid : Z;
}.

Record Credentials : Type := {
  uid : Z;
  gid : Z;
}.

(** [os.setgid] and [os.setuid]: the superuser may take any id, another
    process only the one it has. *)
Definition os_setgid (g : Z) (p : Credentials) : Result Credentials :=
  if Z.eqb (uid p) 0 || Z.eqb g (gid p)
  then Ok {| uid := uid p; gid := g |}
  else Raise (OSError "Operation not permitted").

Definition os_setuid (u : Z) (p : Credentials) : Result Credentials :=
  if Z.eqb (uid p) 0 || Z.eqb u (uid p)
  then Ok {| uid := u; gid := gid p |}
  else Raise (OSError "Operation not permitted").

(** [demote(user)] returns the closure [demotion], run in the child before
    the command. *)
Definition demote (user : passwd) : Credentials → Result Credentials :=
  let demotion (p : Credentials) : Result Credentials :=
    p ← os_setgid (pw_uid user) p;
    os_setuid (pw_gid user) p in
  demotion.

(** ** urllib.parse.urlunparse, as the standard library defines it *)

Definition uses_netloc : list string :=
  [""; "ftp"; "http"; "gopher"; "nntp"; "telnet"; "imap"; "wais"; "file";
   "mms"; "https"; "shttp"; "snews"; "prospero"; "rtsp"; "rtspu"; "rsync";
   "svn"; "svn+ssh"; "sftp"; "nfs"; "git"; "git+ssh"; "ws"; "wss"].

Definition is_str (v : PyVal) : bool :=
  match v with VStr _ => true | _ => false end.

(** [_coerce_args] when the first component is a [str]: a component that is
    truthy and not a [str] is refused. *)
Definition coerce_args (args : list PyVal) : Result unit :=
  if forallb (λ arg, negb (truthy arg) || is_str arg) args
  then Ok () else Raise TypeError.

(** [a + b] where [a] is a [str]. *)
Definition str_add (a : string) (b : PyVal) : Result string :=
  match b with
  | VStr s => Ok (a +:+ s)
  | _ => Raise TypeError
  end.

(** [url[:n] != prefix], for a prefix of [n] characters. *)
Definition slice_differs (url : PyVal) (prefix : string) : Result bool :=
  match url with
  | VStr s => Ok (negb (Str.startswith prefix s))
  | _ => Raise TypeError
  end.

Definition urlunsplit (scheme : string) (netloc url query fragment : PyVal)
    : Result string :=
  coerce_args [netloc; url; query; fragment];;
  with_netloc ←
    (if truthy netloc then Ok true
     else if negb (String.eqb scheme "") && bool_decide (scheme ∈ uses_netloc)
          then slice_differs url "//"
          else Ok false);
  url ←
    (if with_netloc : bool then
       url ← (if truthy url then
                differs ← slice_differs url "/";
                if differs : bool then VStr <$> str_add "/" url else Ok url
              else Ok url);
       VStr <$> str_add ("//" +:+ py_str (py_or netloc (VStr ""))) url
     else Ok url);
  url ←
    (if negb (String.eqb scheme "") then VStr <$> str_add (scheme +:+ ":") url
     else Ok url);
  url ←
    (if truthy query then
       u ← as_str url; VStr <$> str_add (u +:+ "?") query
     else Ok url);
  url ←
    (if truthy fragment then
       u ← as_str url; VStr <$> str_add (u +:+ "#") fragment
     else Ok url);
  as_str url.

Definition urlunparse (scheme : string)
    (netloc url params query fragment : PyVal) : Result string :=
  coerce_args [netloc; url; params; query; fragment];;
  let url :=
    if truthy params then VStr (py_str url +:+ ";" +:+ py_str params)
    else url in
  urlunsplit scheme netloc url query fragment.

(** ** The machine the charm runs on *)

(** [subprocess.check_call(cmd, cwd=..., env=..., preexec_fn=...)] *)
Record Call : Type := {
  cmd : list PyVal;
  cwd : option PyVal;
  env : option dict;
  preexec_fn : option (Credentials → Result Credentials);
}.

(** The context handed to the template renderer. *)
Record RenderContext : Type := {
  ctx_application_root : PyVal;
  ctx_env_file : string;
  ctx_wsgi_module : PyVal;
  ctx_user : PyVal;
  ctx_group : PyVal;
  ctx_port : PyVal;
  ctx_env : dict;
}.

(** What the charm does to the machine... *)
Inductive Action : Type :=
  | AptInstall (packages : list string)
  | Subprocess (c : Call)
  | OpenPort (port : PyVal)
  | Render (source target : string) (perms : Z) (context : RenderContext)
  | ServiceReload (service_name : string)
  | ServiceStart (service_name : string)
  | Sleep (seconds : nat)
  | HttpConfigure (port : PyVal).

(** ... and everything that can be seen of a handler from outside. *)
Inductive Event : Type :=
  | Act (a : Action)
  | Log (msg : string)
  | StatusSet (workload_state msg : string)
  | SetState (flag : string)
  | RemoveState (flag : string)
  | WriteFile (path content : string)
  | ServiceRunning (service_name : string) (answer : bool)
  | ConnectEx (address : string) (port : PyVal) (errno : Z).

(** The collaborators outside the repository, over the state [Ext] of the
    rest of the machine: what the charm is configured with, what it can
    observe, and how the machine moves under an action. Logging and status
    messages do not move it. *)
Record Host (Ext : Type) : Type := {
  config : string → PyVal;
  wsgi_yaml : option (gmap string PyVal);
  relations_of_type : string → list (gmap string PyVal);
  isfile : string → Ext → bool;
  getpwnam : string → Ext → option passwd;
  exits_zero : Call → Ext → bool;
  is_active : string → Ext → bool;
  connect_ex : string → PyVal → Ext → Z;
  after : Action → Ext → Ext;
}.
Arguments config {Ext} _ _.
Arguments wsgi_yaml {Ext} _.
Arguments relations_of_type {Ext} _ _.
Arguments isfile {Ext} _ _ _.
Arguments getpwnam {Ext} _ _ _.
Arguments exits_zero {Ext} _ _ _.
Arguments is_active {Ext} _ _ _.
Arguments connect_ex {Ext} _ _ _ _.
Arguments after {Ext} _ _ _.

Record World (Ext : Type) : Type := {
  states : gset string;
  files : gmap string string;
  machine : Ext;
  trace : list Event;
}.
Arguments states {Ext} _.
Arguments files {Ext} _.
Arguments machine {Ext} _.
Arguments trace {Ext} _.

(** The flags of the reactive framework. *)
Definition system_ready : string := "wsgi.system.ready".
Definition configured : string := "wsgi.configured".
Definition source_available : string := "wsgi.source.available".
Definition ready : string := "wsgi.ready".
Definition available : string := "wsgi.available".

Section Charm.

Context {Ext : Type} (H : Host Ext).

(** *** The monad of the handlers *)

Definition M (A : Type) : Type := World Ext → Result A * World Ext.

#[local] Instance M_ret : MRet M := λ A a w, (Ok a, w).
#[local] Instance M_bind : MBind M :=
  λ A B f m w,
    match m w with
    | (Ok a, w') => f a w'
    | (Raise e, w') => (Raise e, w')
    end.

Definition raise {A : Type} (e : Exception) : M A := λ w, (Raise e, w).

Definition lift {A : Type} (r : Result A) : M A := λ w, (r, w).

Definition emit (ev : Event) : M unit :=
  λ w, (Ok (),
        {| states := states w; files := files w; machine := machine w;
           trace := trace w ++ [ev] |}).

Definition act (a : Action) : M unit :=
  λ w, (Ok (),
        {| states := states w; files := files w;
           machine := after H a (machine w);
           trace := trace w ++ [Act a] |}).

Definition observe {A : Type} (f : Ext → A) : M A :=
  λ w, (Ok (f (machine w)), w).

(** *** charmhelpers and charms.reactive *)

Definition log (msg : string) : M unit := emit (Log msg).

Definition status_set (workload_state msg : string) : M unit :=
  emit (StatusSet workload_state msg).

Definition set_state (flag : string) : M unit :=
  λ w, (Ok (),
        {| states := states w ∪ {[flag]}; files := files w;
           machine := machine w; trace := trace w ++ [SetState flag] |}).

Definition remove_state (flag : string) : M unit :=
  λ w, (Ok (),
        {| states := states w ∖ {[flag]}; files := files w;
           machine := machine w; trace := trace w ++ [RemoveState flag] |}).

Definition all_states (flags : list string) : M bool :=
  λ w, (Ok (forallb (λ flag, bool_decide (flag ∈ states w)) flags), w).

(** [apt_install(packages)]: not fatal by default, it returns whatever
    apt does. *)
Definition apt_install (packages : list string) : M unit :=
  act (AptInstall packages).

Definition open_port (port : PyVal) : M unit := act (OpenPort port).

Definition render (source target : string) (perms : Z)
    (context : RenderContext) : M unit :=
  act (Render source target perms context).

Definition service_running (service_name : string) : M bool :=
  answer ← observe (is_active H service_name);
  emit (ServiceRunning service_name answer);;
  mret answer.

Definition service_reload (service_name : string) : M unit :=
  act (ServiceReload service_name).

Definition service_start (service_name : string) : M unit :=
  act (ServiceStart service_name).

Definition sleep (seconds : nat) : M unit := act (Sleep seconds).

(** [subprocess.check_call]: the command runs, and a status other than
    zero raises. *)
Definition check_call (c : Call) : M unit :=
  ok ← observe (exits_zero H c);
  act (Subprocess c);;
  if ok : bool then mret () else raise (CalledProcessError (cmd c)).

(** [open(filepath)] and [readlines()], [open(filepath, 'w')] and
    [writelines(lines)]. *)
Definition open_readlines (filepath : string) : M (list string) :=
  λ w, match files w !! filepath with
       | Some content =>
           (Ok (Str.readlines (Str.universal_newlines content)), w)
       | None => (Raise (FileNotFoundError filepath), w)
       end.

Definition open_writelines (filepath : string) (lines : list string)
    : M unit :=
  λ w, let content := Str.writelines lines in
       (Ok (),
        {| states := states w; files := <[filepath := content]> (files w);
           machine := machine w;
           trace := trace w ++ [WriteFile filepath content] |}).

(** *** reactive/lib/helpers.py: the functions with effects *)

(** [is_port_open(port)]: [connect_ex] answers zero. *)
Definition is_port_open (port : PyVal) : M bool :=
  errno ← observe (connect_ex H "127.0.0.1" port);
  emit (ConnectEx "127.0.0.1" port errno);;
  mret (Z.eqb errno 0).

(** [get_user(username)]: [pwd.getpwnam] raises [KeyError] for a name it
    does not know, and only that is caught. *)
Definition get_user (username : PyVal) : M passwd :=
  name ← lift (as_str username);
  found ← observe (getpwnam H name);
  match found with
  | Some user => mret user
  | None =>
      check_call {| cmd := [VStr "useradd"; username]; cwd := None;
                    env := None; preexec_fn := None |};;
      found ← observe (getpwnam H name);
      match found with
      | Some user => mret user
      | None => raise KeyError
      end
  end.

Definition get_env (filepath : string) : M dict :=
  lines ← open_readlines filepath;
  lift (get_env_lines lines []).

Definition set_env_values (filepath : string) (incoming_variables : dict)
    : M (list string) :=
  lines ← open_readlines filepath;
  env_lines ← lift (set_env_lines lines incoming_variables);
  open_writelines filepath env_lines;;
  mret env_lines.

Definition delete_env_value (filepath target_key : string)
    : M (list string) :=
  lines ← open_readlines filepath;
  let env_lines := delete_env_lines lines target_key [] in
  open_writelines filepath env_lines;;
  mret env_lines.

(** *** reactive/wsgi.py *)

(** [layer_config]: the defaults, updated from wsgi.yaml if it exists. *)
Definition layer_config : gmap string PyVal :=
  default ∅ (wsgi_yaml H)
  ∪ <["application_root" := VStr "/srv"]> (<["username" := VStr "wsgi"]> ∅).

(** [layer_config[key]] and [relation.get(key)] *)
Definition layer_config_item (key : string) : M PyVal :=
  match layer_config !! key with
  | Some v => mret v
  | None => raise KeyError
  end.

Definition dict_get_or (d : gmap string PyVal) (key : string)
    (otherwise : PyVal) : PyVal :=
  default otherwise (d !! key).

Definition env_file : string := "/etc/environment".

(** [@hook('install', 'upgrade-charm')] *)
Definition system_dependencies : M unit :=
  status_set "maintenance" "[wsgi] Setting up dependencies";;
  log "[wsgi] Installing system dependencies";;
  apt_install ["python3-pip"; "python-setuptools"; "circus"; "gunicorn3"];;
  username ← layer_config_item "username";
  log ("[wsgi] Ensuring the user " +:+ py_str username +:+ " exists");;
  username ← layer_config_item "username";
  get_user username;;
  set_state system_ready.

(** [@hook('config-changed')] *)
Definition configure_dependencies : M unit :=
  status_set "maintenance" "[wsgi] Installing configured dependencies";;
  let extra_dependencies := py_or (config H "apt_dependencies") (VStr "") in
  packages ← lift (split_value extra_dependencies);
  apt_install packages;;
  log ("[wsgi] Setting environment variables in " +:+ env_file);;
  variables ← lift (variables_from_string (config H "environment_variables"));
  set_env_values env_file variables;;
  set_state configured.

(** [dict(LC_ALL='C.UTF-8', **get_env(env_file))]: a keyword given twice
    is a [TypeError]. *)
Definition with_LC_ALL (variables : dict) : Result dict :=
  if dict_in "LC_ALL" variables then Raise TypeError
  else Ok (("LC_ALL", "C.UTF-8") :: variables).

(** Lines 105-129: install application dependencies. *)
Definition install_application_dependencies : M unit :=
  status_set "maintenance" "[wsgi] Installing application dependencies";;
  let cache_dir := config H "pip_cache_dir" in
  has_requirements ← observe (isfile H "requirements.txt");
  if has_requirements : bool then
    if truthy cache_dir then
      log ("[wsgi] Installing pip dependencies from " +:+ py_str cache_dir);;
      application_root ← layer_config_item "application_root";
      variables ← get_env env_file;
      environment ← lift (with_LC_ALL variables);
      check_call
        {| cmd := [VStr "pip3"; VStr "install"; VStr "--no-index";
                   VStr "--find-links"; cache_dir;
                   VStr "--requirement"; VStr "requirements.txt"];
           cwd := Some application_root; env := Some environment;
           preexec_fn := None |}
    else
      log "[wsgi] Installing pip dependencies from PyPi";;
      application_root ← layer_config_item "application_root";
      variables ← get_env env_file;
      environment ← lift (with_LC_ALL variables);
      check_call
        {| cmd := [VStr "pip3"; VStr "install";
                   VStr "--requirement"; VStr "requirements.txt"];
           cwd := Some application_root; env := Some environment;
           preexec_fn := None |}
  else mret ().

(** Lines 137-144: the relation and the scheme chosen, or [None]. *)
Definition choose_db_relation
    (postgres_relations mongo_relations : list (gmap string PyVal))
    : option (gmap string PyVal * string) :=
  match postgres_relations with
  | db_relation :: _ => Some (db_relation, "postgresql")
  | [] =>
      match mongo_relations with
      | db_relation :: _ => Some (db_relation, "mongodb")
      | [] => None
      end
  end.

(** Lines 147-174: a database is attached. *)
Definition database_attached_branch (db_relation : gmap string PyVal)
    (db_scheme : string) : M unit :=
  let db_host :=
    py_or (dict_get_or db_relation "host" VNone)
          (dict_get_or db_relation "hostname" VNone) in
  let db_port := dict_get_or db_relation "port" VNone in
  log ("[wsgi] Using database at " +:+ py_str db_host +:+ ":"
       +:+ py_str db_port);;
  database_url ←
    lift (urlunparse db_scheme
            (build_url_host db_host db_port
               (dict_get_or db_relation "user" VNone)
               (dict_get_or db_relation "password" VNone))
            (dict_get_or db_relation "database" (VStr ""))
            VNone VNone VNone);
  set_env_values env_file [("DATABASE_URL", database_url)];;
  let provision_command := dict_get_or layer_config "provision_command" VNone in
  if truthy provision_command then
    status_set "maintenance" "[wsgi] Provisioning database";;
    command ← lift (split_value provision_command);
    application_root ← layer_config_item "application_root";
    variables ← get_env env_file;
    username ← layer_config_item "username";
    user ← get_user username;
    check_call
      {| cmd := VStr <$> command; cwd := Some application_root;
         env := Some variables; preexec_fn := Some (demote user) |}
  else mret ().

(** Lines 176-177: no database is attached. *)
Definition no_database_branch : M unit :=
  log "[wsgi] No database attached";;
  delete_env_value env_file "DATABASE_URL";;
  mret ().

(** Lines 133-177: check for a database connection. A relation record
    without any key is falsy. *)
Definition check_for_database_connection : M unit :=
  log "[wsgi] Checking for database connection";;
  let postgres_relations := relations_of_type H "postgres" in
  let mongo_relations := relations_of_type H "mongo" in
  match choose_db_relation postgres_relations mongo_relations with
  | Some (db_relation, db_scheme) =>
      if bool_decide (db_relation = ∅) then no_database_branch
      else database_attached_branch db_relation db_scheme
  | None => no_database_branch
  end.

(** Lines 179-182: open the port. *)
Definition open_the_port : M unit :=
  status_set "maintenance"
    ("[wsgi] Opening port " +:+ py_str (config H "port"));;
  log ("[wsgi] Opening port " +:+ py_str (config H "port"));;
  open_port (config H "port").

Definition service_name : string := "gunicorn3.service".

(** Lines 184-210: write the unit and reload or start the service. *)
Definition configure_daemon : M unit :=
  let service_file := "/etc/systemd/system/" +:+ service_name in
  log ("[wsgi] Writing systemd config to " +:+ service_file);;
  status_set "maintenance" "[wsgi] Preparing daemon";;
  application_root ← layer_config_item "application_root";
  user ← layer_config_item "username";
  group ← layer_config_item "username";
  variables ← get_env env_file;
  render (service_name +:+ ".j2") service_file 420
    {| ctx_application_root := application_root;
       ctx_env_file := env_file;
       ctx_wsgi_module := config H "wsgi_module";
       ctx_user := user;
       ctx_group := group;
       ctx_port := config H "port";
       ctx_env := variables |};;
  check_call {| cmd := [VStr "systemctl"; VStr "daemon-reload"];
                cwd := None; env := None; preexec_fn := None |};;
  running ← service_running service_name;
  if running : bool then
    log ("[wsgi] Reloading " +:+ service_name);;
    service_reload service_name
  else
    log ("[wsgi] Starting " +:+ service_name);;
    service_start service_name.

(** Line 218: [service_running(service_name) and is_port_open(config('port'))] *)
Definition service_is_responding : M bool :=
  running ← service_running service_name;
  if running : bool then is_port_open (config H "port") else mret false.

(** Lines 213-221: the loop over [range(0, 10)]; the result is
    [service_responding]. *)
Fixpoint wait_for_service (attempts : list nat) : M bool :=
  match attempts with
  | [] => mret false
  | attempt :: rest =>
      log ("[wsgi] Waiting for service on port " +:+ py_str (config H "port")
           +:+ " (attempt " +:+ pretty attempt +:+ ")");;
      responding ← service_is_responding;
      if responding : bool then mret true
      else sleep 6;; wait_for_service rest
  end.

Definition max_attempts : nat := 10.

(** Lines 212-230: wait for the service, then publish or raise. *)
Definition check_service_started : M unit :=
  service_responding ← wait_for_service (seq 0 max_attempts);
  if service_responding : bool then
    log ("[wsgi] Service responded on port " +:+ py_str (config H "port"));;
    status_set "active"
      ("[wsgi] Service started on port " +:+ py_str (config H "port"));;
    set_state available
  else raise (OSError "Service not responding").

(** [@when_all('wsgi.configured', 'wsgi.system.ready', 'wsgi.source.available')] *)
Definition start_application_service : M unit :=
  remove_state source_available;;
  remove_state available;;
  install_application_dependencies;;
  set_state ready;;
  check_for_database_connection;;
  open_the_port;;
  configure_daemon;;
  check_service_started.

(** [@hook('{mongo,postgres}-relation-{joined,changed,broken,departed}')] *)
Definition database_attached : M unit :=
  all_set ← all_states [configured; source_available; system_ready];
  if all_set : bool then start_application_service else mret ().

(** [@when_all('website.available')] *)
Definition send_port : M unit :=
  act (HttpConfigure (config H "port")).

End Charm.

(** ** Vocabulary of the statements *)

(** The key [set_env_values] and [get_env] read off a line, if any. *)
Definition key_of (env_line : string) : option string :=
  match line_key env_line with
  | Ok key => key
  | Raise _ => None
  end.

(** The line [set_env_values] puts in the place of [env_line]. *)
Definition rewritten (incoming_variables : dict) (env_line : string) : string :=
  match key_of env_line with
  | Some key =>
      match dict_get key incoming_variables with
      | Some value => format_line key value
      | None => env_line
      end
  | None => env_line
  end.

(** Some line has the key [key]. *)
Definition has_key (lines : list string) (key : string) : bool :=
  existsb (λ env_line,
             match key_of env_line with
             | Some k => String.eqb k key
             | None => false
             end) lines.

(** The line assigns [value] to [key], as [get_env] reads it. *)
Definition assigns (env_line key value : string) : Prop :=
  Re.matches Re.bash_variable env_line = true
  ∧ split_assignment env_line = Ok (key, value).

(** A line as [readlines] returns it: not empty, with no newline before
    its last character. *)
Fixpoint is_line (l : string) : bool :=
  match l with
  | EmptyString => false
  | String c EmptyString => true
  | String c l' => negb (Ascii.eqb c Str.newline) && is_line l'
  end.

Fixpoint ends_with_newline (l : string) : bool :=
  match l with
  | EmptyString => false
  | String c EmptyString => Ascii.eqb c Str.newline
  | String c l' => ends_with_newline l'
  end.

(** The lines of a text: every one a line, every one but the last ended by
    its newline. *)
Fixpoint canonical (lines : list string) : bool :=
  match lines with
  | [] => true
  | [l] => is_line l
  | l :: rest => is_line l && ends_with_newline l && canonical rest
  end.

(** A line of a file that can be written back and read again as it is. *)
Definition whole_line (l : string) : bool :=
  is_line l && ends_with_newline l
  && Nat.eqb (Str.count Str.carriage_return l) 0.

(** The keys [set_env_values] has in [found] after its first loop. *)
Definition found_keys (incoming_variables : dict) (lines : list string)
    : list string :=
  omap (λ env_line,
          match key_of env_line with
          | Some key => if dict_in key incoming_variables then Some key else None
          | None => None
          end) lines.

(** The lines [set_env_values] appends for the keys no line has. *)
Definition appended (incoming_variables : dict) (lines : list string)
    : list string :=
  (λ '(key, value), format_line key value)
    <$> List.filter (λ '(key, _), negb (has_key lines key)) incoming_variables.

(** The lines [delete_env_value] keeps. *)
Definition kept (target_key : string) (lines : list string) : list string :=
  List.filter (λ env_line, negb (Str.startswith (target_key +:+ "=") env_line))
    lines.

#[global] Existing Instances M_ret M_bind.

Section Runs.

Context {Ext : Type} (H : Host Ext).

(** The world after one more event: the flags, the files and the machine
    are functions of the events so far. *)
Definition apply_event (w : World Ext) (ev : Event) : World Ext :=
  {| states :=
       match ev with
       | SetState flag => states w ∪ {[flag]}
       | RemoveState flag => states w ∖ {[flag]}
       | _ => states w
       end;
     files :=
       match ev with
       | WriteFile path content => <[path := content]> (files w)
       | _ => files w
       end;
     machine :=
       match ev with
       | Act a => after H a (machine w)
       | _ => machine w
       end;
     trace := trace w ++ [ev] |}.

Definition replay (evs : list Event) (w : World Ext) : World Ext :=
  foldl apply_event w evs.

(** The events a computation adds to the trace. *)
Definition events_of {A : Type} (m : M A) (w : World Ext) : list Event :=
  drop (length (trace w)) (trace (snd (m w))).

(** Whatever the outcome, the computation takes the world where some
    events of the class [Q] take it. *)
Definition emits {A : Type} (Q : Event → Prop) (m : M A) : Prop :=
  ∀ w, ∃ evs, snd (m w) = replay evs w ∧ Forall Q evs.

(** The handlers of the charm. *)
Definition handlers : list (M unit) :=
  [system_dependencies H; configure_dependencies H; database_attached H;
   start_application_service H; send_port H].

(** The predicate of the health check on a machine: the service runs and
    the port answers. *)
Definition responding (e : Ext) : bool :=
  is_active H service_name e
  && Z.eqb (connect_ex H "127.0.0.1" (config H "port") e) 0.

(** The predicate at the attempt that follows [i] sleeps. *)
Definition responding_after (w : World Ext) (i : nat) : bool :=
  responding (Nat.iter i (after H (Sleep 6)) (machine w)).

(** The pass up to the health check. *)
Definition provision : M unit :=
  remove_state source_available;;
  remove_state available;;
  install_application_dependencies H;;
  set_state ready;;
  check_for_database_connection H;;
  open_the_port H;;
  configure_daemon H.

(** The pass from the database step on, and after it. *)
Definition after_database : M unit :=
  open_the_port H;;
  configure_daemon H;;
  check_service_started H.

Definition from_database : M unit :=
  check_for_database_connection H;;
  after_database.

(** The pass up to the database step. *)
Definition before_database : M unit :=
  remove_state source_available;;
  remove_state available;;
  install_application_dependencies H;;
  set_state ready.

End Runs.

(** What [get_env] finds under a key of a file, if anything. *)
Definition stored_value {Ext : Type} (filepath key : string) (w : World Ext)
    : option string :=
  match fst (get_env filepath w) with
  | Ok d => dict_get key d
  | Raise _ => None
  end.

(** The key [name] is declared in [declarations], for the last time with
    the value [value]. *)
Definition declared_last (declarations : list string) (name value : string)
    : Prop :=
  ∃ earlier later,
    declarations = earlier ++ (name +:+ "=" +:+ value) :: later
    ∧ ∀ declaration value',
        declaration ∈ later → declaration ≠ name +:+ "=" +:+ value'.

(** The seconds slept, in order, and the number of times the health
    predicate was evaluated. *)
Definition sleeps (evs : list Event) : list nat :=
  omap (λ ev, match ev with Act (Sleep seconds) => Some seconds | _ => None end)
    evs.

Definition evaluations (evs : list Event) : nat :=
  length (List.filter
            (λ ev, match ev with ServiceRunning _ _ => true | _ => false end)
            evs).

(** Classes of events. *)
Definition clears_only_availability (ev : Event) : Prop :=
  match ev with
  | RemoveState flag => flag = source_available ∨ flag = available
  | _ => True
  end.

Definition leaves_unavailable (ev : Event) : Prop :=
  match ev with
  | SetState flag => flag ≠ available
  | _ => True
  end.

Definition writes_nothing (ev : Event) : Prop :=
  match ev with
  | WriteFile _ _ => False
  | _ => True
  end.

Definition sets_no_flag (ev : Event) : Prop :=
  match ev with
  | SetState _ => False
  | _ => True
  end.

(** ** Machines and worlds to run the handlers on *)

Module Example.

Definition example_config (key : string) : PyVal :=
  if String.eqb key "port" then VInt 8080
  else if String.eqb key "wsgi_module" then VStr "webapp.wsgi"
  else if String.eqb key "environment_variables"
       then VStr "SECRET_KEY=a=b DEBUG=false"
  else VNone.

(** A machine whose state is the number of seconds slept. The service is
    active from the start; the port answers from [listening_at] seconds
    on, or never. Every command exits with zero. *)
Definition example_host (listening_at : option nat)
    (postgres mongo : list (gmap string PyVal)) : Host nat :=
  {| config := example_config;
     wsgi_yaml := None;
     relations_of_type := λ kind,
       if String.eqb kind "postgres" then postgres
       else if String.eqb kind "mongo" then mongo else [];
     isfile := λ _ _, true;
     getpwnam := λ name _,
       Some {| pw_name := name; pw_uid := 1001; pw_gid := 1002 |};
     exits_zero := λ _ _, true;
     is_active := λ _ _, true;
     connect_ex := λ _ _ seconds,
       match listening_at with
       | Some t => if (t <=? seconds)%nat then 0%Z else 111%Z
       | None => 111%Z
       end;
     after := λ a seconds,
       match a with
       | Sleep n => seconds + n
       | _ => seconds
       end |}.

(** The world when the source has just become available. *)
Definition example_world (environment : string) : World nat :=
  {| states := {[configured; system_ready; source_available]};
     files := {[env_file := environment]};
     machine := 0;
     trace := [] |}.

Definition postgres_relation : gmap string PyVal :=
  {[ "host" := VStr "db1"; "port" := VInt 5432; "user" := VStr "app" ]}.

Definition mongo_relation : gmap string PyVal :=
  {[ "hostname" := VStr "mongo1"; "port" := VStr "27017" ]}.

End Example.

(** ** Vocabulary of the further statements *)

(** The first character of an identifier: a letter or the underscore. *)
Definition is_ident_start (c : ascii) : bool :=
  let n := nat_of_ascii c in
  ((97 <=? n)%nat && (n <=? 122)%nat) || ((65 <=? n)%nat && (n <=? 90)%nat)
  || (n =? 95)%nat.

Definition is_identifier (k : string) : bool :=
  match k with
  | String c k' => is_ident_start c && Str.all_chars Str.is_ident_char k'
  | EmptyString => false
  end.

(** A value that a line of the file holds as it is: no newline or carriage
    return in it, no whitespace at its end. *)
Definition is_plain_value (v : string) : bool :=
  Nat.eqb (Str.count Str.newline v) 0
  && Nat.eqb (Str.count Str.carriage_return v) 0
  && String.eqb (Str.rstrip v) v.

(** A mapping whose keys are distinct identifiers and whose values are
    plain. *)
Definition well_formed (U : dict) : Prop :=
  NoDup (fst <$> U)
  ∧ ∀ key value, (key, value) ∈ U →
      is_identifier key = true ∧ is_plain_value value = true.

(** The key and the value [get_env] reads off a line, if the line is a
    variable. *)
Definition assignment_of (env_line : string) : option (string * string) :=
  if Re.matches Re.bash_variable env_line then
    match split_assignment env_line with
    | Ok kv => Some kv
    | Raise _ => None
    end
  else None.

(** The value of the last line that assigns [key]. *)
Fixpoint last_value (key : string) (lines : list string) : option string :=
  match lines with
  | [] => None
  | env_line :: rest =>
      match last_value key rest with
      | Some value => Some value
      | None =>
          match assignment_of env_line with
          | Some (k, value) => if String.eqb k key then Some value else None
          | None => None
          end
      end
  end.

(** The lines of a file of the world, as [readlines] returns them. *)
Definition lines_of {Ext : Type} (filepath : string) (w : World Ext)
    : list string :=
  match files w !! filepath with
  | Some content => Str.readlines (Str.universal_newlines content)
  | None => []
  end.

(** More classes of events. *)
Definition leaves_source_unavailable (ev : Event) : Prop :=
  match ev with
  | SetState flag => flag ≠ source_available
  | _ => True
  end.

Definition never_sleeps (ev : Event) : Prop :=
  match ev with
  | Act (Sleep _) => False
  | _ => True
  end.

Definition runs_no_command (ev : Event) : Prop :=
  match ev with
  | Act (Subprocess _) => False
  | _ => True
  end.

Definition touches_nothing (ev : Event) : Prop :=
  match ev with
  | Act _ | WriteFile _ _ => False
  | _ => True
  end.

(** The number of times the port was probed, and of times the service was
    reported running. *)
Definition probes (evs : list Event) : nat :=
  length (List.filter
            (λ ev, match ev with ConnectEx _ _ _ => true | _ => false end)
            evs).

Definition reported_running (evs : list Event) : nat :=
  length (List.filter
            (λ ev, match ev with ServiceRunning _ true => true | _ => false end)
            evs).

(** The URL of lines 150-162 of wsgi.py, for the relation and the scheme
    chosen. *)
Definition database_url (db_scheme : string) (db_relation : gmap string PyVal)
    : Result string :=
  let db_host :=
    py_or (dict_get_or db_relation "host" VNone)
          (dict_get_or db_relation "hostname" VNone) in
  let db_port := dict_get_or db_relation "port" VNone in
  urlunparse db_scheme
    (build_url_host db_host db_port
       (dict_get_or db_relation "user" VNone)
       (dict_get_or db_relation "password" VNone))
    (dict_get_or db_relation "database" (VStr ""))
    VNone VNone VNone.

(** The path of a URL for a database name: nothing for no name, the name
    after a slash otherwise. *)
Definition url_path (database : string) : string :=
  if String.eqb database "" then ""
  else if Str.startswith "/" database then database
  else "/" +:+ database.

(** A declaration [name=value] whose name is an identifier. *)
Definition is_declaration (declaration : string) : bool :=
  match Str.split_on Str.equals declaration with
  | [name; _] => is_identifier name
  | _ => false
  end.

(** The command [get_user] runs for a name the machine does not know. *)
Definition useradd (username : string) : Call :=
  {| cmd := [VStr "useradd"; VStr username]; cwd := None; env := None;
     preexec_fn := None |}.

(** * Properties *)

(** ** Strings *)

Lemma app_cons_s (x : ascii) (a b : string) :
  String x a +:+ b = String x (a +:+ b).
Proof. reflexivity. Qed.

Lemma app_nil_l_s (a : string) : "" +:+ a = a.
Proof. reflexivity. Qed.

Lemma app_assoc_s (a b c : string) : (a +:+ b) +:+ c = a +:+ b +:+ c.
Proof.
  induction a as [|x a IH]; [reflexivity|].
  by rewrite !app_cons_s, IH.
Qed.

Lemma app_nil_r_s (a : string) : a +:+ "" = a.
Proof.
  induction a as [|x a IH]; [reflexivity|].
  by rewrite app_cons_s, IH.
Qed.

Lemma all_chars_app (p : ascii → bool) (a b : string) :
  Str.all_chars p (a +:+ b) = Str.all_chars p a && Str.all_chars p b.
Proof.
  induction a as [|x a IH]; [reflexivity|].
  rewrite app_cons_s. cbn [Str.all_chars]. by rewrite IH, andb_assoc.
Qed.

Lemma startswith_app (p t : string) : Str.startswith p (p +:+ t) = true.
Proof.
  induction p as [|x p IH]; [reflexivity|].
  rewrite app_cons_s. cbn [Str.startswith]. by rewrite Ascii.eqb_refl, IH.
Qed.

Lemma rstrip_cons (c : ascii) (s : string) :
  Str.isspace c = false → Str.rstrip (String c s) = String c (Str.rstrip s).
Proof.
  intros Hc. cbn [Str.rstrip]. destruct (Str.rstrip s); by rewrite ?Hc.
Qed.

Lemma rstrip_app (k t : string) :
  Str.all_chars (λ c, negb (Str.isspace c)) k = true →
  Str.rstrip (k +:+ t) = k +:+ Str.rstrip t.
Proof.
  induction k as [|x k IH]; [reflexivity|].
  cbn [Str.all_chars]. intros [Hx Hk]%andb_true_iff.
  rewrite !app_cons_s, rstrip_cons, IH; [done..|].
  by destruct (Str.isspace x).
Qed.

Lemma split_once_app (sep : ascii) (k v : string) :
  Str.count sep k = 0 →
  Str.split_once sep (k +:+ String sep v) = [k; v].
Proof.
  induction k as [|x k IH]; intros Hk.
  - rewrite app_nil_l_s. cbn [Str.split_once]. by rewrite Ascii.eqb_refl.
  - rewrite app_cons_s. cbn [Str.split_once Str.count] in *.
    destruct (Ascii.eqb x sep); [done|]. by rewrite IH.
Qed.

Lemma split_on_length (sep : ascii) (s : string) :
  length (Str.split_on sep s) = S (Str.count sep s).
Proof.
  induction s as [|x s IH]; [reflexivity|].
  cbn [Str.split_on Str.count]. destruct (Ascii.eqb x sep); cbn.
  - by rewrite IH.
  - destruct (Str.split_on sep s); cbn in *; lia.
Qed.

Lemma split_on_app (sep : ascii) (k v : string) :
  Str.count sep k = 0 →
  Str.split_on sep (k +:+ String sep v) = k :: Str.split_on sep v.
Proof.
  induction k as [|x k IH]; intros Hk.
  - rewrite app_nil_l_s. cbn [Str.split_on]. by rewrite Ascii.eqb_refl.
  - rewrite app_cons_s. cbn [Str.split_on Str.count] in *.
    destruct (Ascii.eqb x sep); [done|]. by rewrite IH.
Qed.

Lemma split_on_none (sep : ascii) (s : string) :
  Str.count sep s = 0 → Str.split_on sep s = [s].
Proof.
  induction s as [|x s IH]; intros Hs; [reflexivity|].
  cbn [Str.split_on Str.count] in *.
  destruct (Ascii.eqb x sep); [done|]. by rewrite IH.
Qed.

(** A string with a separator in it is what comes before the first one,
    the separator, and the rest. *)
Lemma count_pos_cut (sep : ascii) (s : string) :
  Str.count sep s ≠ 0 →
  ∃ k v, s = k +:+ String sep v ∧ Str.count sep k = 0
         ∧ Str.count sep s = S (Str.count sep v).
Proof.
  induction s as [|x s IH]; intros Hs; [done|].
  cbn [Str.count] in *. destruct (Ascii.eqb x sep) eqn:Hx.
  - apply Ascii.eqb_eq in Hx as ->. by exists "", s.
  - destruct (IH Hs) as (k & v & -> & Hk & Hc).
    exists (String x k), v. cbn [Str.count]. by rewrite Hx.
Qed.

(** ** The regular expression *)

Lemma ident_char_plain (c : ascii) :
  Str.is_ident_char c = true →
  Str.isspace c = false ∧ Ascii.eqb c Str.equals = false.
Proof.
  destruct c as [[] [] [] [] [] [] [] []]; vm_compute; intros; by split.
Qed.

Lemma first_char_ident (c : ascii) :
  Re.in_set [Re.Range "a" "z"; Re.Range "A" "Z"; Re.Chr "_"] c = true →
  Str.is_ident_char c = true.
Proof. destruct c as [[] [] [] [] [] [] [] []]; vm_compute; intros; done. Qed.

Lemma later_char_ident (c : ascii) :
  Re.in_set [Re.Range "a" "z"; Re.Range "A" "Z"; Re.Range "0" "9"; Re.Chr "_"]
    c = true →
  Str.is_ident_char c = true.
Proof. destruct c as [[] [] [] [] [] [] [] []]; vm_compute; intros; done. Qed.

Lemma all_chars_impl (p q : ascii → bool) (s : string) :
  (∀ c, p c = true → q c = true) →
  Str.all_chars p s = true → Str.all_chars q s = true.
Proof.
  intros Hpq. induction s as [|x s IH]; [done|]. cbn [Str.all_chars].
  intros [Hx Hs]%andb_true_iff. by rewrite (Hpq _ Hx), IH.
Qed.

Lemma ident_count_equals (k : string) :
  Str.all_chars Str.is_ident_char k = true → Str.count Str.equals k = 0.
Proof.
  induction k as [|x k IH]; [done|]. cbn [Str.all_chars Str.count].
  intros [Hx Hk]%andb_true_iff.
  destruct (ident_char_plain _ Hx) as [_ ->]. by rewrite IH.
Qed.

Lemma repeat_true (set : list Re.Atom) (k : string → bool) (s : string) :
  Re.repeat set k s = true →
  ∃ w rest, s = w +:+ rest ∧ Str.all_chars (Re.in_set set) w = true
            ∧ k rest = true.
Proof.
  induction s as [|x s IH]; cbn [Re.repeat].
  - rewrite orb_false_r. intros Hk. by exists "", "".
  - intros [Hk | [Hx Hs]%andb_true_iff]%orb_true_iff.
    + by exists "", (String x s).
    + destruct (IH Hs) as (w & rest & -> & Hw & Hrest).
      exists (String x w), rest. cbn [Str.all_chars]. by rewrite Hx, Hw.
Qed.

(** A line the pattern accepts is an identifier, [=], and the rest. *)
Lemma bash_variable_shape (s : string) :
  Re.matches Re.bash_variable s = true →
  ∃ k rest, s = k +:+ String Str.equals rest ∧ k ≠ ""
            ∧ Str.all_chars Str.is_ident_char k = true.
Proof.
  cbn [Re.matches Re.bash_variable]. destruct s as [|c s]; [done|].
  cbn [Re.step]. intros [Hc Hs]%andb_true_iff.
  apply repeat_true in Hs as (w1 & r1 & -> & Hw1 & Hr1).
  apply repeat_true in Hr1 as (w2 & r2 & -> & Hw2 & Hr2).
  destruct r2 as [|e r]; [done|]. cbn [Re.step] in Hr2.
  apply andb_true_iff in Hr2 as [He _].
  cbn [Re.in_set existsb Re.atom_matches] in He.
  rewrite orb_false_r in He. apply Ascii.eqb_eq in He as <-.
  exists (String c (w1 +:+ w2)), r. split; [|split; [done|]].
  - by rewrite app_cons_s, app_assoc_s.
  - cbn [Str.all_chars]. rewrite (first_char_ident _ Hc), all_chars_app.
    rewrite (all_chars_impl _ _ _ first_char_ident Hw1).
    exact (all_chars_impl _ _ _ later_char_ident Hw2).
Qed.

Lemma split_assignment_shape (k rest : string) :
  k ≠ "" → Str.all_chars Str.is_ident_char k = true →
  split_assignment (k +:+ String Str.equals rest) = Ok (k, Str.rstrip rest).
Proof.
  intros Hne Hk. unfold split_assignment, Str.strip.
  rewrite rstrip_app.
  2: { eapply all_chars_impl; [|exact Hk].
       intros c Hc. by destruct (ident_char_plain _ Hc) as [-> _]. }
  rewrite rstrip_cons by reflexivity.
  destruct k as [|x k]; [done|]. rewrite app_cons_s.
  cbn [Str.all_chars] in Hk. apply andb_true_iff in Hk as [Hx Hk].
  cbn [Str.lstrip]. destruct (ident_char_plain _ Hx) as [-> _].
  rewrite <- app_cons_s, split_once_app; [done|].
  apply ident_count_equals. cbn [Str.all_chars]. by rewrite Hx, Hk.
Qed.

(** What [get_env] and [set_env_values] read off a line the pattern
    accepts: the unpacking cannot fail, the key is the identifier the line
    starts with, and the value is all that follows the first [=]. *)
Lemma variable_line (s : string) :
  Re.matches Re.bash_variable s = true →
  ∃ k v, split_assignment s = Ok (k, v)
         ∧ Str.startswith (k +:+ "=") s = true
         ∧ Str.strip s = k +:+ "=" +:+ v
         ∧ Str.count Str.equals k = 0.
Proof.
  intros (k & rest & -> & Hne & Hk)%bash_variable_shape.
  pose proof (split_assignment_shape k rest Hne Hk) as Hsplit.
  exists k, (Str.rstrip rest). split; [done|]. split; [|split].
  - change (String Str.equals rest) with ("=" +:+ rest).
    rewrite <- app_assoc_s. apply startswith_app.
  - unfold Str.strip. rewrite rstrip_app.
    2: { eapply all_chars_impl; [|exact Hk].
         intros c Hc. by destruct (ident_char_plain _ Hc) as [-> _]. }
    rewrite rstrip_cons by reflexivity.
    destruct k as [|x k]; [done|]. rewrite app_cons_s.
    cbn [Str.all_chars] in Hk. apply andb_true_iff in Hk as [Hx Hk].
    cbn [Str.lstrip]. by destruct (ident_char_plain _ Hx) as [-> _].
  - by apply ident_count_equals.
Qed.

(** ** Dictionaries *)

Lemma dict_get_set_eq (k v : string) (d : dict) :
  dict_get k (dict_set k v d) = Some v.
Proof.
  induction d as [|[k' v'] d IH]; cbn [dict_set dict_get].
  - by rewrite String.eqb_refl.
  - destruct (String.eqb k' k) eqn:Hk; cbn [dict_get].
    + by rewrite String.eqb_refl.
    + by rewrite Hk.
Qed.

Lemma dict_get_set_ne (k k' v : string) (d : dict) :
  k ≠ k' → dict_get k (dict_set k' v d) = dict_get k d.
Proof.
  intros Hne. induction d as [|[k0 v0] d IH]; cbn [dict_set dict_get].
  - by apply String.eqb_neq in Hne; rewrite String.eqb_sym, Hne.
  - destruct (String.eqb k0 k') eqn:Hk; cbn [dict_get].
    + apply String.eqb_eq in Hk as ->.
      by apply String.eqb_neq in Hne; rewrite String.eqb_sym, Hne.
    + by rewrite IH.
Qed.

(** ** The loops over the lines of the environment file *)

Lemma line_key_total (env_line : string) :
  line_key env_line = Ok (key_of env_line).
Proof.
  unfold key_of, line_key.
  destruct (Re.matches Re.bash_variable env_line) eqn:Hm; [|done].
  destruct (variable_line _ Hm) as (k & v & -> & _). done.
Qed.

Lemma key_of_assigns (env_line key : string) :
  key_of env_line = Some key ↔ ∃ value, assigns env_line key value.
Proof.
  unfold key_of, line_key, assigns.
  destruct (Re.matches Re.bash_variable env_line) eqn:Hm.
  - destruct (variable_line _ Hm) as (k & v & -> & _). cbn. split.
    + intros [= <-]. by exists v.
    + by intros (v' & _ & [= <- <-]).
  - split; [done|]. by intros (? & ? & _).
Qed.

Lemma key_of_startswith (env_line key : string) :
  key_of env_line = Some key → Str.startswith (key +:+ "=") env_line = true.
Proof.
  unfold key_of, line_key.
  destruct (Re.matches Re.bash_variable env_line) eqn:Hm; [|done].
  destruct (variable_line _ Hm) as (k & v & -> & Hs & _). by intros [= <-].
Qed.

Lemma get_env_lines_total (lines : list string) (env_vars : dict) :
  ∃ d, get_env_lines lines env_vars = Ok d.
Proof.
  revert env_vars. induction lines as [|l lines IH]; intros d0.
  - by exists d0.
  - cbn [get_env_lines].
    destruct (Re.matches Re.bash_variable l) eqn:Hm; [|apply IH].
    destruct (variable_line _ Hm) as (k & v & -> & _). apply IH.
Qed.

(** Every entry of the dictionary read comes from a line that assigns it,
    or was there before. *)
Lemma get_env_lines_get (lines : list string) (env_vars d : dict)
    (key value : string) :
  get_env_lines lines env_vars = Ok d →
  dict_get key d = Some value →
  (∃ l, l ∈ lines ∧ assigns l key value) ∨ dict_get key env_vars = Some value.
Proof.
  revert env_vars. induction lines as [|l lines IH]; intros d0 Hd Hget.
  - injection Hd as <-. by right.
  - cbn [get_env_lines] in Hd.
    destruct (Re.matches Re.bash_variable l) eqn:Hm.
    + destruct (variable_line _ Hm) as (k & v & Hsplit & _).
      rewrite Hsplit in Hd. cbn in Hd.
      destruct (IH _ Hd Hget) as [(l' & Hin & Hl') | Hold].
      * left. exists l'. split; [by right | done].
      * destruct (decide (key = k)) as [-> | Hne].
        -- rewrite dict_get_set_eq in Hold. injection Hold as <-.
           left. exists l. split; [by left | done].
        -- rewrite dict_get_set_ne in Hold by done. by right.
    + destruct (IH _ Hd Hget) as [(l' & Hin & Hl') | Hold]; [|by right].
      left. exists l'. split; [by right | done].
Qed.

(** Every key some line assigns, or that was there before, is in the
    dictionary read. *)
Lemma get_env_lines_has (lines : list string) (env_vars d : dict)
    (key : string) :
  get_env_lines lines env_vars = Ok d →
  (∃ l, l ∈ lines ∧ key_of l = Some key) ∨ is_Some (dict_get key env_vars) →
  is_Some (dict_get key d).
Proof.
  revert env_vars. induction lines as [|l lines IH]; intros d0 Hd Hin.
  - injection Hd as <-. destruct Hin as [(l & Hl & _) | ?]; [|done].
    by apply elem_of_nil in Hl.
  - cbn [get_env_lines] in Hd.
    destruct (Re.matches Re.bash_variable l) eqn:Hm.
    + destruct (variable_line _ Hm) as (k & v & Hsplit & _).
      rewrite Hsplit in Hd. cbn in Hd. apply (IH _ Hd).
      destruct Hin as [(l' & [-> | Hl']%elem_of_cons & Hk) | Hold].
      * right. apply key_of_assigns in Hk as (v' & _ & Hv').
        rewrite Hsplit in Hv'. injection Hv' as <- <-.
        by rewrite dict_get_set_eq.
      * left. by exists l'.
      * right. destruct (decide (key = k)) as [-> | Hne].
        -- by rewrite dict_get_set_eq.
        -- by rewrite dict_get_set_ne.
    + apply (IH _ Hd).
      destruct Hin as [(l' & [-> | Hl']%elem_of_cons & Hk) | Hold].
      * apply key_of_assigns in Hk as (v' & Hm' & _). congruence.
      * left. by exists l'.
      * by right.
Qed.

Lemma dict_in_get (k : string) (d : dict) :
  dict_in k d = true ↔ is_Some (dict_get k d).
Proof. unfold dict_in. destruct (dict_get k d); split; by inversion 1. Qed.

Lemma dict_in_item (k v : string) (d : dict) : (k, v) ∈ d → dict_in k d = true.
Proof.
  unfold dict_in. induction d as [|[k' v'] d IH]; intros Hin.
  - by apply elem_of_nil in Hin.
  - cbn [dict_get]. destruct (String.eqb k' k) eqn:Hk; [done|].
    apply elem_of_cons in Hin as [[= -> ->] | Hin]; [|by apply IH].
    by rewrite String.eqb_refl in Hk.
Qed.

Lemma set_env_scan_spec (lines : list string) (U : dict)
    (env_lines found : list string) :
  set_env_scan lines U env_lines found
  = Ok (env_lines ++ (rewritten U <$> lines), found ++ found_keys U lines).
Proof.
  revert env_lines found.
  induction lines as [|l lines IH]; intros env_lines found.
  - cbn. by rewrite !app_nil_r.
  - cbn [set_env_scan]. rewrite line_key_total. cbn [mbind Result_bind].
    unfold found_keys, rewritten in *. cbn [fmap list_fmap omap list_omap].
    destruct (key_of l) as [key|]; [|by rewrite IH, <- app_assoc].
    unfold dict_in, dict_item. destruct (dict_get key U) as [value|].
    + cbn [mbind Result_bind]. by rewrite IH, <- !app_assoc.
    + by rewrite IH, <- app_assoc.
Qed.

Lemma set_env_append_spec (items : dict) (found env_lines : list string) :
  set_env_append items found env_lines
  = env_lines
    ++ ((λ '(key, value), format_line key value)
          <$> List.filter (λ '(key, _), negb (bool_decide (key ∈ found))) items).
Proof.
  revert env_lines. induction items as [|[k v] items IH]; intros env_lines.
  - cbn. by rewrite app_nil_r.
  - cbn [set_env_append List.filter]. destruct (bool_decide (k ∈ found)).
    + apply IH.
    + cbn [negb fmap list_fmap]. by rewrite IH, <- app_assoc.
Qed.

Lemma elem_of_found_keys (U : dict) (lines : list string) (key : string) :
  key ∈ found_keys U lines ↔ has_key lines key = true ∧ dict_in key U = true.
Proof.
  unfold found_keys, has_key. rewrite list_elem_of_omap, existsb_exists. split.
  - intros (l & Hl & Hk). destruct (key_of l) as [k|] eqn:Hkey; [|done].
    destruct (dict_in k U) eqn:Hin; [|done]. injection Hk as ->.
    split; [|done]. exists l. rewrite Hkey, String.eqb_refl.
    split; [by apply list_elem_of_In | done].
  - intros [(l & Hl & Hk) Hin]. exists l. split; [by apply list_elem_of_In|].
    destruct (key_of l) as [k|]; [|done].
    apply String.eqb_eq in Hk as ->. by rewrite Hin.
Qed.

(** What [set_env_values] returns and writes: every line rewritten where it
    stands, then the lines of the keys that no line has. *)
Lemma set_env_lines_spec (lines : list string) (U : dict) :
  set_env_lines lines U = Ok ((rewritten U <$> lines) ++ appended U lines).
Proof.
  unfold set_env_lines, appended. rewrite set_env_scan_spec.
  cbn [mbind Result_bind app]. rewrite set_env_append_spec.
  do 3 f_equal. apply List.filter_ext_in. intros [k v] Hin%list_elem_of_In.
  f_equal. apply dict_in_item in Hin.
  destruct (has_key lines k) eqn:Hk.
  - apply bool_decide_eq_true. by apply elem_of_found_keys.
  - apply bool_decide_eq_false. rewrite elem_of_found_keys. intros [? _].
    congruence.
Qed.

Lemma delete_env_lines_spec (lines : list string) (target_key : string)
    (env_lines : list string) :
  delete_env_lines lines target_key env_lines
  = env_lines ++ kept target_key lines.
Proof.
  revert env_lines. induction lines as [|l lines IH]; intros env_lines.
  - cbn. by rewrite app_nil_r.
  - cbn [delete_env_lines kept List.filter].
    destruct (negb (Str.startswith (target_key +:+ "=") l)).
    + rewrite IH, <- app_assoc. done.
    + apply IH.
Qed.

(** ** Lines written and read again *)

Lemma is_line_cons (c : ascii) (l : string) :
  l ≠ "" → is_line (String c l) = negb (Ascii.eqb c Str.newline) && is_line l.
Proof. by destruct l. Qed.

Lemma ends_with_newline_cons (c : ascii) (l : string) :
  l ≠ "" → ends_with_newline (String c l) = ends_with_newline l.
Proof. by destruct l. Qed.

Lemma is_line_nonempty (l : string) : is_line l = true → l ≠ "".
Proof. by destruct l. Qed.

Lemma canonical_cons (l : string) (rest : list string) :
  canonical (l :: rest) = true ↔
  is_line l = true ∧ (rest ≠ [] → ends_with_newline l = true)
  ∧ canonical rest = true.
Proof.
  destruct rest as [|l' rest]; cbn [canonical].
  - split; [intros Hl; by repeat split | by intros [Hl _]].
  - rewrite !andb_true_iff. split.
    + by intros [[Hl Hnl] Hrest].
    + intros (Hl & Hnl & Hrest). by rewrite Hl, Hnl, Hrest.
Qed.

Lemma readlines_canonical (t : string) : canonical (Str.readlines t) = true.
Proof.
  induction t as [|c t IH]; [done|]. cbn [Str.readlines].
  destruct (Ascii.eqb c Str.newline) eqn:Hc.
  - apply canonical_cons. cbn. by rewrite Hc.
  - destruct (Str.readlines t) as [|l ls]; [done|].
    apply canonical_cons in IH as (Hl & Hnl & Hls).
    pose proof (is_line_nonempty _ Hl).
    apply canonical_cons.
    rewrite is_line_cons, ends_with_newline_cons, Hc, Hl by done. done.
Qed.

Lemma canonical_filter (p : string → bool) (lines : list string) :
  canonical lines = true → canonical (List.filter p lines) = true.
Proof.
  induction lines as [|l lines IH]; [done|].
  intros (Hl & Hnl & Hls)%canonical_cons. cbn [List.filter].
  destruct (p l); [|by apply IH].
  apply canonical_cons. split; [done|]. split; [|by apply IH].
  intros Hne. apply Hnl. intros ->. done.
Qed.

Lemma readlines_last_line (l : string) :
  is_line l = true → Str.readlines l = [l].
Proof.
  induction l as [|c l IH]; [done|]. destruct l as [|c' l].
  - intros _. cbn. by destruct (Ascii.eqb c Str.newline).
  - rewrite is_line_cons by done. intros [Hc Hl]%andb_true_iff.
    cbn [Str.readlines] in *. apply negb_true_iff in Hc. rewrite Hc.
    by rewrite (IH Hl).
Qed.

Lemma readlines_line (l t : string) :
  is_line l = true → ends_with_newline l = true →
  Str.readlines (l +:+ t) = l :: Str.readlines t.
Proof.
  induction l as [|c l IH]; [done|]. destruct l as [|c' l].
  - intros _ Hc. cbn [ends_with_newline] in Hc.
    rewrite app_cons_s, app_nil_l_s. cbn [Str.readlines]. by rewrite Hc.
  - rewrite is_line_cons, ends_with_newline_cons by done.
    intros [Hc Hl]%andb_true_iff Hnl. apply negb_true_iff in Hc.
    rewrite app_cons_s. cbn [Str.readlines]. rewrite Hc.
    by rewrite (IH Hl Hnl).
Qed.

Lemma readlines_writelines (lines : list string) :
  canonical lines = true → Str.readlines (Str.writelines lines) = lines.
Proof.
  induction lines as [|l lines IH]; [done|].
  intros (Hl & Hnl & Hls)%canonical_cons. cbn [Str.writelines foldr].
  destruct lines as [|l' lines].
  - cbn [foldr]. rewrite app_nil_r_s. by apply readlines_last_line.
  - rewrite readlines_line by auto. f_equal. by apply IH.
Qed.

Lemma writelines_readlines (t : string) :
  Str.writelines (Str.readlines t) = t.
Proof.
  induction t as [|c t IH]; [done|]. cbn [Str.readlines].
  destruct (Ascii.eqb c Str.newline).
  - cbn [Str.writelines foldr]. rewrite app_cons_s, app_nil_l_s.
    f_equal. exact IH.
  - destruct (Str.readlines t) as [|l ls].
    + cbn in *. by rewrite <- IH.
    + cbn [Str.writelines foldr] in *. by rewrite app_cons_s, IH.
Qed.

Lemma count_app (c : ascii) (a b : string) :
  Str.count c (a +:+ b) = Str.count c a + Str.count c b.
Proof.
  induction a as [|x a IH]; [done|].
  rewrite app_cons_s. cbn [Str.count]. rewrite IH. lia.
Qed.

Lemma count_writelines (c : ascii) (lines : list string) :
  Str.count c (Str.writelines lines) = 0
  ↔ Forall (λ l, Str.count c l = 0) lines.
Proof.
  induction lines as [|l lines IH]; cbn [Str.writelines foldr].
  - split; [constructor | done].
  - rewrite count_app, Forall_cons, <- IH. unfold Str.writelines. lia.
Qed.

Lemma universal_newlines_plain (t : string) :
  Str.count Str.carriage_return t = 0 → Str.universal_newlines t = t.
Proof.
  induction t as [|c t IH]; [done|]. cbn [Str.count Str.universal_newlines].
  destruct (Ascii.eqb c Str.carriage_return); [done|].
  intros Ht. by rewrite IH.
Qed.

Lemma universal_newlines_count (s : string) :
  Str.count Str.carriage_return (Str.universal_newlines s) = 0.
Proof.
  assert (∀ n s, String.length s < n →
            Str.count Str.carriage_return (Str.universal_newlines s) = 0)
    as Hn; [|by apply (Hn (S (String.length s))); lia].
  clear s. induction n as [|n IH]; intros s Hs; [lia|].
  destruct s as [|c s]; [done|]. cbn [String.length] in Hs.
  cbn [Str.universal_newlines].
  destruct (Ascii.eqb c Str.carriage_return) eqn:Hc.
  - destruct s as [|c' s]; [done|]. cbn [String.length] in Hs.
    destruct (Ascii.eqb c' Str.newline); cbn [Str.count];
      change (Ascii.eqb Str.newline Str.carriage_return) with false;
      rewrite IH; cbn [String.length]; lia.
  - cbn [Str.count]. rewrite Hc, IH; lia.
Qed.

(** The lines of a file, filtered or not, written and read again, are the
    same lines. *)
Lemma read_back (lines : list string) :
  canonical lines = true →
  Forall (λ l, Str.count Str.carriage_return l = 0) lines →
  Str.readlines (Str.universal_newlines (Str.writelines lines)) = lines.
Proof.
  intros Hc Hcr. rewrite universal_newlines_plain by by apply count_writelines.
  by apply readlines_writelines.
Qed.

Lemma lines_read_plain (content : string) :
  Forall (λ l, Str.count Str.carriage_return l = 0)
    (Str.readlines (Str.universal_newlines content)).
Proof.
  apply count_writelines. rewrite writelines_readlines.
  apply universal_newlines_count.
Qed.

(** ** build_url_host *)



(** ** demote *)

(** C9: [demote(user)] makes the user's [pw_uid] the group id of the
    process and the user's [pw_gid] its user id: run by the superuser it
    succeeds with the two swapped, and whenever it succeeds the group id is
    [pw_uid] and the user id is [pw_gid]. *)
Theorem demote_swaps_uid_and_gid (user : passwd) :
  (∀ group_before,
      demote user {| uid := 0; gid := group_before |}
      = Ok {| uid := pw_gid user; gid := pw_uid user |})
  ∧ (∀ before after,
       demote user before = Ok after →
       gid after = pw_uid user ∧ uid after = pw_gid user).
Proof.
  split; [done|]. intros before after. unfold demote, os_setgid, os_setuid.
  destruct (Z.eqb (uid before) 0 || Z.eqb (pw_uid user) (gid before));
    cbn; [|done].
  destruct (Z.eqb (uid before) 0 || Z.eqb (pw_gid user) (uid before));
    [|done].
  by intros [= <-].
Qed.

Lemma demote_swaps_uid_and_gid_witness :
  let user := {| pw_name := "wsgi"; pw_uid := 1001; pw_gid := 1002 |} in
  let after := {| uid := 1002; gid := 1001 |} in
  gid after = pw_uid user ∧ uid after = pw_gid user.
Proof.
  intros user after.
  exact (proj2 (demote_swaps_uid_and_gid user) {| uid := 0; gid := 0 |} after
           eq_refl).
Defined.

(** ** Handlers as sequences of events *)

Section Effects.

Context {Ext : Type} (H : Host Ext).
Implicit Types (w : World Ext) (Q : Event → Prop) (evs : list Event).

Lemma replay_app evs1 evs2 w :
  replay H (evs1 ++ evs2) w = replay H evs2 (replay H evs1 w).
Proof. apply foldl_app. Qed.

Lemma trace_replay evs w : trace (replay H evs w) = trace w ++ evs.
Proof.
  revert w. induction evs as [|ev evs IH]; intros w; cbn.
  - by rewrite app_nil_r.
  - fold (replay H evs (apply_event H w ev)). rewrite IH. cbn.
    by rewrite <- app_assoc.
Qed.

Lemma events_of_replay {A : Type} (m : M A) evs w :
  snd (m w) = replay H evs w → events_of m w = evs.
Proof.
  intros Hm. unfold events_of. rewrite Hm, trace_replay.
  apply drop_app_length.
Qed.

Lemma emits_silent {A : Type} Q (m : M A) :
  (∀ w, snd (m w) = w) → emits H Q m.
Proof. intros Hm w. exists []. by rewrite Hm. Qed.

Lemma emits_event {A : Type} Q (ev : Event) (m : M A) :
  (∀ w, snd (m w) = apply_event H w ev) → Q ev → emits H Q m.
Proof. intros Hm HQ w. exists [ev]. rewrite Hm. by repeat constructor. Qed.

Lemma emits_bind {A B : Type} Q (m : M A) (k : A → M B) :
  emits H Q m → (∀ a, emits H Q (k a)) → emits H Q (m ≫= k).
Proof.
  intros Hm Hk w. destruct (Hm w) as (evs1 & Hw1 & HQ1).
  unfold mbind, M_bind. destruct (m w) as [[a|e] w1]; cbn in Hw1; subst w1.
  - destruct (Hk a (replay H evs1 w)) as (evs2 & Hw2 & HQ2).
    exists (evs1 ++ evs2). rewrite replay_app, Hw2.
    split; [done | by apply Forall_app].
  - by exists evs1.
Qed.

Lemma emits_ret {A : Type} Q (a : A) : emits H Q (mret a).
Proof. by apply emits_silent. Qed.

Lemma emits_raise {A : Type} Q (e : Exception) : emits H Q (@raise Ext A e).
Proof. by apply emits_silent. Qed.

Lemma emits_lift {A : Type} Q (r : Result A) : emits H Q (@lift Ext A r).
Proof. by apply emits_silent. Qed.

Lemma emits_observe {A : Type} Q (f : Ext → A) : emits H Q (observe f).
Proof. by apply emits_silent. Qed.

Lemma emits_all_states Q (flags : list string) :
  emits H Q (@all_states Ext flags).
Proof. by apply emits_silent. Qed.

Lemma emits_open_readlines Q (filepath : string) :
  emits H Q (@open_readlines Ext filepath).
Proof.
  apply emits_silent. intros w. unfold open_readlines.
  by destruct (files w !! filepath).
Qed.

Lemma emits_emit Q (ev : Event) :
  match ev with
  | Act _ | SetState _ | RemoveState _ | WriteFile _ _ => False
  | _ => Q ev
  end → emits H Q (@emit Ext ev).
Proof. intros HQ. apply (emits_event _ ev); by destruct ev. Qed.

Lemma emits_act Q (a : Action) : Q (Act a) → emits H Q (act H a).
Proof. by apply emits_event. Qed.

Lemma emits_set_state Q (flag : string) :
  Q (SetState flag) → emits H Q (@set_state Ext flag).
Proof. by apply emits_event. Qed.

Lemma emits_remove_state Q (flag : string) :
  Q (RemoveState flag) → emits H Q (@remove_state Ext flag).
Proof. by apply emits_event. Qed.

Lemma emits_open_writelines Q (filepath : string) (lines : list string) :
  Q (WriteFile filepath (Str.writelines lines)) →
  emits H Q (@open_writelines Ext filepath lines).
Proof. by apply emits_event. Qed.

End Effects.

Ltac head_of t :=
  lazymatch t with
  | ?f _ => head_of f
  | _ => t
  end.

(** One step of the decomposition of a handler into its primitive effects. *)
Ltac emits_step :=
  lazymatch goal with
  | |- emits _ _ (_ ≫= _) => apply emits_bind; [|intros ?]
  | |- emits _ _ (mret _) => apply emits_ret
  | |- emits _ _ (raise _) => apply emits_raise
  | |- emits _ _ (lift _) => apply emits_lift
  | |- emits _ _ (observe _) => apply emits_observe
  | |- emits _ _ (all_states _) => apply emits_all_states
  | |- emits _ _ (open_readlines _) => apply emits_open_readlines
  | |- emits _ _ (emit _) => apply emits_emit
  | |- emits _ _ (act _ _) => apply emits_act
  | |- emits _ _ (set_state _) => apply emits_set_state
  | |- emits _ _ (remove_state _) => apply emits_remove_state
  | |- emits _ _ (open_writelines _ _) => apply emits_open_writelines
  | |- emits _ _ (if ?b then _ else _) => destruct b
  | |- emits _ _ (match ?x with _ => _ end) => destruct x
  | |- emits _ _ ?m => let h := head_of m in unfold h; cbv zeta
  end.

Ltac emits_class :=
  cbn;
  first [ exact I | by left | by right | discriminate | done ].

Lemma emits_wait_for_service {Ext : Type} (H : Host Ext) (Q : Event → Prop)
    (attempts : list nat) :
  (∀ msg, Q (Log msg)) →
  (∀ name answer, Q (ServiceRunning name answer)) →
  (∀ address port errno, Q (ConnectEx address port errno)) →
  (∀ seconds, Q (Act (Sleep seconds))) →
  emits H Q (wait_for_service H attempts).
Proof.
  intros HLog HRunning HConnect HSleep.
  induction attempts as [|attempt rest IH].
  - apply emits_ret.
  - cbn [wait_for_service]. repeat first [ exact IH | emits_step ]; auto.
Qed.

(** A handler, down to its primitive effects, emits events of the class in
    the goal. *)
Ltac emits_handler :=
  repeat first [ apply emits_wait_for_service; intros | emits_step ];
  emits_class.

Section Handlers.

Context {Ext : Type} (H : Host Ext).

Lemma handlers_clear_only_availability (handler : M unit) :
  handler ∈ handlers H → emits H clears_only_availability handler.
Proof.
  unfold handlers. rewrite !elem_of_cons, elem_of_nil.
  intros [-> | [-> | [-> | [-> | [-> | []]]]]]; emits_handler.
Qed.

End Handlers.

(** ** The health check *)

Lemma sleeps_app (evs1 evs2 : list Event) :
  sleeps (evs1 ++ evs2) = sleeps evs1 ++ sleeps evs2.
Proof. apply omap_app. Qed.

Lemma evaluations_app (evs1 evs2 : list Event) :
  evaluations (evs1 ++ evs2) = evaluations evs1 + evaluations evs2.
Proof. unfold evaluations. by rewrite List.filter_app, length_app. Qed.

Section HealthCheck.

Context {Ext : Type} (H : Host Ext).
Implicit Types (w : World Ext) (evs : list Event).

Lemma bind_ok {A B : Type} (m : M A) (k : A → M B) (a : A) w w1 :
  m w = (Ok a, w1) → (m ≫= k) w = k a w1.
Proof. intros Hm. unfold mbind, M_bind. by rewrite Hm. Qed.

Lemma bind_raise {A B : Type} (m : M A) (k : A → M B) (e : Exception) w w1 :
  m w = (Raise e, w1) → (m ≫= k) w = (Raise e, w1).
Proof. intros Hm. unfold mbind, M_bind. by rewrite Hm. Qed.

Lemma machine_replay_silent evs w :
  Forall (λ ev, match ev with Act _ => False | _ => True end) evs →
  machine (replay H evs w) = machine w.
Proof.
  revert w. induction evs as [|ev evs IH]; intros w Hevs; [done|].
  apply Forall_cons in Hevs as [Hev Hevs]. cbn.
  fold (replay H evs (apply_event H w ev)). rewrite IH by done.
  by destruct ev.
Qed.

(** One evaluation of the predicate: it answers [responding] of the
    machine as it is, and neither sleeps nor moves the machine. *)
Lemma service_is_responding_run w :
  ∃ evs,
    service_is_responding H w = (Ok (responding H (machine w)), replay H evs w)
    ∧ sleeps evs = [] ∧ evaluations evs = 1
    ∧ machine (replay H evs w) = machine w.
Proof.
  unfold service_is_responding, responding, service_running, is_port_open.
  unfold mbind, M_bind, mret, M_ret, observe, emit. cbn.
  destruct (is_active H service_name (machine w)); cbn.
  - by eexists [ServiceRunning _ _; ConnectEx _ _ _].
  - by eexists [ServiceRunning _ _].
Qed.

Lemma responding_after_sleep w w' i :
  machine w' = after H (Sleep 6) (machine w) →
  responding_after H w' i = responding_after H w (S i).
Proof.
  intros Hw. unfold responding_after. by rewrite Hw, Nat.iter_succ_r.
Qed.

(** One failed attempt: the message, the evaluation, the sleep. *)
Lemma failed_attempt (attempt : nat) (rest : list nat) w :
  responding_after H w 0 = false →
  ∃ evs,
    wait_for_service H (attempt :: rest) w
    = wait_for_service H rest (replay H evs w)
    ∧ sleeps evs = [6] ∧ evaluations evs = 1
    ∧ machine (replay H evs w) = after H (Sleep 6) (machine w).
Proof.
  intros Hw. cbn [wait_for_service].
  set (msg := "[wsgi] Waiting for service on port " +:+ _).
  destruct (service_is_responding_run (apply_event H w (Log msg)))
    as (evs & Hrun & Hsleeps & Hevals & Hmachine).
  change (responding_after H w 0) with (responding H (machine w)) in Hw.
  cbn [apply_event machine] in Hrun. rewrite Hw in Hrun.
  exists (Log msg :: evs ++ [Act (Sleep 6)]). split; [|split; [|split]].
  - unfold mbind at 1, M_bind at 1. unfold log at 1, emit at 1.
    erewrite bind_ok by exact Hrun.
    unfold mbind, M_bind, sleep, act. cbn [replay foldl].
    by rewrite foldl_app.
  - change (Log msg :: evs ++ [Act (Sleep 6)])
      with ([Log msg] ++ evs ++ [Act (Sleep 6)]).
    by rewrite !sleeps_app, Hsleeps.
  - change (Log msg :: evs ++ [Act (Sleep 6)])
      with ([Log msg] ++ evs ++ [Act (Sleep 6)]).
    by rewrite !evaluations_app, Hevals.
  - cbn [replay foldl]. rewrite foldl_app. cbn [foldl apply_event machine].
    f_equal. exact Hmachine.
Qed.

(** The attempt that succeeds: the message and the evaluation, no sleep. *)
Lemma successful_attempt (attempt : nat) (rest : list nat) w :
  responding_after H w 0 = true →
  ∃ evs,
    wait_for_service H (attempt :: rest) w = (Ok true, replay H evs w)
    ∧ sleeps evs = [] ∧ evaluations evs = 1.
Proof.
  intros Hw. cbn [wait_for_service].
  set (msg := "[wsgi] Waiting for service on port " +:+ _).
  destruct (service_is_responding_run (apply_event H w (Log msg)))
    as (evs & Hrun & Hsleeps & Hevals & Hmachine).
  change (responding_after H w 0) with (responding H (machine w)) in Hw.
  cbn [apply_event machine] in Hrun. rewrite Hw in Hrun.
  exists (Log msg :: evs). split; [|split].
  - unfold mbind at 1, M_bind at 1. unfold log at 1, emit at 1.
    by erewrite bind_ok by exact Hrun.
  - change (Log msg :: evs) with ([Log msg] ++ evs).
    by rewrite sleeps_app, Hsleeps.
  - change (Log msg :: evs) with ([Log msg] ++ evs).
    by rewrite evaluations_app, Hevals.
Qed.

Lemma wait_all_failed (n : nat) :
  ∀ (first : nat) w,
    (∀ i, i < n → responding_after H w i = false) →
    ∃ evs,
      wait_for_service H (seq first n) w = (Ok false, replay H evs w)
      ∧ sleeps evs = replicate n 6 ∧ evaluations evs = n.
Proof.
  induction n as [|n IH]; intros first w Hfail.
  - by exists [].
  - cbn [seq].
    destruct (failed_attempt first (seq (S first) n) w)
      as (evs1 & Hrun1 & Hsleeps1 & Hevals1 & Hmachine); [apply Hfail; lia|].
    destruct (IH (S first) (replay H evs1 w)) as (evs2 & Hrun2 & Hsleeps2 & Hevals2).
    { intros i Hi. rewrite (responding_after_sleep w) by done.
      apply Hfail. lia. }
    exists (evs1 ++ evs2). rewrite Hrun1, Hrun2, replay_app.
    rewrite sleeps_app, evaluations_app, Hsleeps1, Hsleeps2, Hevals1, Hevals2.
    done.
Qed.

Lemma wait_first_success (n : nat) :
  ∀ (j first : nat) w,
    j < n →
    (∀ i, i < j → responding_after H w i = false) →
    responding_after H w j = true →
    ∃ evs,
      wait_for_service H (seq first n) w = (Ok true, replay H evs w)
      ∧ sleeps evs = replicate j 6 ∧ evaluations evs = S j.
Proof.
  induction n as [|n IH]; intros j first w Hj Hfail Hsucc; [lia|].
  cbn [seq]. destruct j as [|j].
  - destruct (successful_attempt first (seq (S first) n) w Hsucc)
      as (evs & Hrun & Hsleeps & Hevals).
    by exists evs.
  - destruct (failed_attempt first (seq (S first) n) w)
      as (evs1 & Hrun1 & Hsleeps1 & Hevals1 & Hmachine); [apply Hfail; lia|].
    destruct (IH j (S first) (replay H evs1 w))
      as (evs2 & Hrun2 & Hsleeps2 & Hevals2); [lia | |  |].
    { intros i Hi. rewrite (responding_after_sleep w) by done.
      apply Hfail. lia. }
    { by rewrite (responding_after_sleep w). }
    exists (evs1 ++ evs2). rewrite Hrun1, Hrun2, replay_app.
    rewrite sleeps_app, evaluations_app, Hsleeps1, Hsleeps2, Hevals1, Hevals2.
    done.
Qed.

(** C1, as the code has it: with ten attempts six seconds apart, if the
    predicate (service running and port open) is first true at attempt
    [k], the loop succeeds after [k] evaluations and [k - 1] sleeps; if it
    is false at every attempt, the loop fails after ten evaluations and
    ten sleeps, one after every failed attempt, the last included. *)
Theorem health_check_loop w :
  let run := wait_for_service H (seq 0 max_attempts) in
  (∀ k, 1 ≤ k ≤ max_attempts →
        (∀ i, i < k - 1 → responding_after H w i = false) →
        responding_after H w (k - 1) = true →
        fst (run w) = Ok true
        ∧ sleeps (events_of run w) = replicate (k - 1) 6
        ∧ evaluations (events_of run w) = k)
  ∧ ((∀ i, i < max_attempts → responding_after H w i = false) →
     fst (run w) = Ok false
     ∧ evaluations (events_of run w) = max_attempts
     ∧ sleeps (events_of run w) = replicate max_attempts 6).
Proof.
  intros run. split.
  - intros k Hk Hfail Hsucc.
    destruct (wait_first_success max_attempts (k - 1) 0 w)
      as (evs & Hrun & Hsleeps & Hevals); [lia | done..|].
    rewrite (events_of_replay H run evs w) by (unfold run; by rewrite Hrun).
    unfold run. rewrite Hrun. split; [done|]. split; [done|]. lia.
  - intros Hfail.
    destruct (wait_all_failed max_attempts 0 w Hfail)
      as (evs & Hrun & Hsleeps & Hevals).
    rewrite (events_of_replay H run evs w) by (unfold run; by rewrite Hrun).
    unfold run. by rewrite Hrun.
Qed.

End HealthCheck.

Lemma health_check_loop_witness :
  let run := wait_for_service (Example.example_host (Some 12) [] [])
               (seq 0 max_attempts) in
  let w := Example.example_world "" in
  fst (run w) = Ok true
  ∧ sleeps (events_of run w) = [6; 6]
  ∧ evaluations (events_of run w) = 3.
Proof.
  refine (proj1 (health_check_loop (Example.example_host (Some 12) [] [])
                   (Example.example_world "")) 3 _ _ _).
  - unfold max_attempts. lia.
  - intros [|[|i]] Hi; [reflexivity | reflexivity | lia].
  - reflexivity.
Defined.

(** C1 as the claim has it fails: when the predicate is false at every
    attempt the loop has slept ten times, not nine. *)
Lemma health_check_loop_counterexample :
  let run := wait_for_service (Example.example_host None [] [])
               (seq 0 max_attempts) in
  let w := Example.example_world "" in
  ¬ ((∀ i, i < max_attempts →
           responding_after (Example.example_host None [] []) w i = false) →
     fst (run w) = Ok false
     ∧ evaluations (events_of run w) = max_attempts
     ∧ length (sleeps (events_of run w)) = max_attempts - 1).
Proof.
  intros run w Hclaim.
  destruct Hclaim as (_ & _ & Hsleeps).
  - intros i _. reflexivity.
  - vm_compute in Hsleeps. discriminate.
Qed.

(** ** The flags *)

Section Flags.

Context {Ext : Type} (H : Host Ext).
Implicit Types (w : World Ext) (evs : list Event).

Lemma replay_keeps_flag evs w (flag : string) :
  Forall clears_only_availability evs →
  flag ≠ source_available → flag ≠ available →
  flag ∈ states w → flag ∈ states (replay H evs w).
Proof.
  intros Hevs Hsa Hav. revert w.
  induction Hevs as [|ev evs Hev _ IH]; intros w Hin; [done|].
  apply IH. destruct ev; cbn in *; try done.
  - apply elem_of_union. by left.
  - apply elem_of_difference. split; [done|].
    rewrite elem_of_singleton. intros ->. by destruct Hev.
Qed.

Lemma replay_leaves_unavailable evs w :
  Forall leaves_unavailable evs →
  available ∉ states w → available ∉ states (replay H evs w).
Proof.
  intros Hevs. revert w.
  induction Hevs as [|ev evs Hev _ IH]; intros w Hin; [done|].
  apply IH. destruct ev; cbn in *; try done.
  - rewrite elem_of_union, elem_of_singleton. by intros [? | ?].
  - rewrite elem_of_difference. by intros [? _].
Qed.

Lemma replay_keeps_files evs w :
  Forall writes_nothing evs → files (replay H evs w) = files w.
Proof.
  intros Hevs. revert w.
  induction Hevs as [|ev evs Hev _ IH]; intros w; [done|].
  cbn. fold (replay H evs (apply_event H w ev)). rewrite IH.
  by destruct ev.
Qed.

Lemma emits_events_of {A : Type} (Q : Event → Prop) (m : M A) w :
  emits H Q m →
  snd (m w) = replay H (events_of m w) w ∧ Forall Q (events_of m w).
Proof.
  intros Hm. destruct (Hm w) as (evs & Hw & HQ).
  by rewrite (events_of_replay H m evs w Hw).
Qed.

(** The pass is the two flags cleared, then the rest. *)
Lemma pass_starts_by_clearing w :
  ∃ evs,
    snd (start_application_service H w)
    = replay H (RemoveState source_available :: RemoveState available :: evs) w.
Proof.
  unfold start_application_service.
  rewrite (bind_ok (remove_state source_available) _ () w
             (apply_event H w (RemoveState source_available)) eq_refl).
  rewrite (bind_ok (remove_state available) _ () _
             (apply_event H (apply_event H w (RemoveState source_available))
                (RemoveState available)) eq_refl).
  match goal with
  | |- context [snd ((?m ≫= ?k) ?w2)] =>
      assert (emits H (λ _, True) (m ≫= k)) as Hrest by emits_handler;
      destruct (Hrest w2) as (evs & Hsnd & _)
  end.
  exists evs. by rewrite Hsnd.
Qed.

(** C2: a provisioning pass first clears [wsgi.source.available] and
    [wsgi.available], before any other effect; no handler ever clears
    another flag, so that at every point of a handler's run every other
    flag that was set at its start is still set. *)
Theorem availability_cleared_first :
  (∀ w, ∃ evs,
      events_of (start_application_service H) w
      = RemoveState source_available :: RemoveState available :: evs)
  ∧ (∀ handler w flag,
       handler ∈ handlers H →
       RemoveState flag ∈ events_of handler w →
       flag = source_available ∨ flag = available)
  ∧ (∀ handler w,
       handler ∈ handlers H →
       snd (handler w) = replay H (events_of handler w) w)
  ∧ (∀ handler w done_so_far to_come flag,
       handler ∈ handlers H →
       events_of handler w = done_so_far ++ to_come →
       flag ≠ source_available → flag ≠ available →
       flag ∈ states w → flag ∈ states (replay H done_so_far w)).
Proof.
  split; [|split; [|split]].
  - intros w. destruct (pass_starts_by_clearing w) as (evs & Hw).
    exists evs. by apply (events_of_replay H).
  - intros handler w flag Hin Hflag.
    apply handlers_clear_only_availability in Hin.
    destruct (emits_events_of _ handler w Hin) as [_ HQ].
    rewrite Forall_forall in HQ. exact (HQ _ Hflag).
  - intros handler w Hin.
    apply handlers_clear_only_availability in Hin.
    by destruct (emits_events_of _ handler w Hin) as [? _].
  - intros handler w done_so_far to_come flag Hin Hevs Hsa Hav Hflag.
    apply handlers_clear_only_availability in Hin.
    destruct (emits_events_of _ handler w Hin) as [_ HQ].
    rewrite Hevs in HQ. apply Forall_app in HQ as [HQ _].
    by apply replay_keeps_flag.
Qed.

(** ** The pass that finds the service not responding *)

Lemma pass_split w :
  start_application_service H w
  = (provision H ≫= λ _, check_service_started H) w.
Proof.
  unfold start_application_service, provision, mbind, M_bind.
  repeat match goal with
         | |- context [match ?m ?w0 with _ => _ end] =>
             destruct (m w0) as [[[]|?] ?]
         end; reflexivity.
Qed.

Lemma provision_unavailable w : available ∉ states (snd (provision H w)).
Proof.
  unfold provision.
  rewrite (bind_ok (remove_state source_available) _ () w
             (apply_event H w (RemoveState source_available)) eq_refl).
  rewrite (bind_ok (remove_state available) _ () _
             (apply_event H (apply_event H w (RemoveState source_available))
                (RemoveState available)) eq_refl).
  match goal with
  | |- context [snd ((?m ≫= ?k) ?w2)] =>
      assert (emits H leaves_unavailable (m ≫= k)) as Hrest
        by emits_handler;
      destruct (Hrest w2) as (evs & -> & Hevs)
  end.
  apply replay_leaves_unavailable; [done|]. cbn.
  rewrite elem_of_difference, elem_of_singleton. by intros [_ ?].
Qed.

Lemma wait_leaves_unavailable (attempts : list nat) w :
  available ∉ states w →
  available ∉ states (snd (wait_for_service H attempts w)).
Proof.
  intros Hw.
  assert (emits H leaves_unavailable (wait_for_service H attempts)) as Hm
    by emits_handler.
  destruct (Hm w) as (evs & -> & Hevs).
  by apply replay_leaves_unavailable.
Qed.

Lemma check_service_started_raises w w' (e : Exception) :
  check_service_started H w = (Raise e, w') →
  available ∉ states w → available ∉ states w'.
Proof.
  intros Hrun Hw. unfold check_service_started, mbind, M_bind in Hrun.
  pose proof (wait_leaves_unavailable (seq 0 max_attempts) w Hw) as Hwait.
  destruct (wait_for_service H (seq 0 max_attempts) w) as [[[]|e'] w1];
    cbn in *.
  - discriminate.
  - by injection Hrun as _ <-.
  - by injection Hrun as _ <-.
Qed.

(** C3: a pass that reaches the health check and finds the predicate
    false at every attempt raises the error "Service not responding",
    which is not the error of a failed command, and leaves
    [wsgi.available] unset; whatever a pass raises, the flag is unset
    when it ends. *)
Theorem unresponsive_service_raises :
  (∀ w w1,
      provision H w = (Ok (), w1) →
      (∀ i, i < max_attempts → responding_after H w1 i = false) →
      ∃ w',
        start_application_service H w
        = (Raise (OSError "Service not responding"), w')
        ∧ available ∉ states w')
  ∧ (∀ cmd, OSError "Service not responding" ≠ CalledProcessError cmd)
  ∧ (∀ w w' e,
       start_application_service H w = (Raise e, w') →
       available ∉ states w').
Proof.
  split; [|split].
  - intros w w1 Hprovision Hfail.
    destruct (wait_all_failed H max_attempts 0 w1 Hfail)
      as (evs & Hwait & _).
    exists (replay H evs w1).
    assert (check_service_started H w1
            = (Raise (OSError "Service not responding"), replay H evs w1))
      as Hcheck.
    { unfold check_service_started.
      by rewrite (bind_ok _ _ _ _ _ Hwait). }
    split.
    + by rewrite pass_split, (bind_ok _ _ _ _ _ Hprovision).
    + apply (check_service_started_raises _ _ _ Hcheck).
      pose proof (provision_unavailable w) as Hw1.
      by rewrite Hprovision in Hw1.
  - done.
  - intros w w' e. rewrite pass_split. unfold mbind, M_bind.
    pose proof (provision_unavailable w) as Hw1.
    destruct (provision H w) as [[[]|e1] w1]; cbn in Hw1.
    + intros Hcheck. by apply (check_service_started_raises _ _ _ Hcheck).
    + by intros [= _ <-].
Qed.

End Flags.

Lemma availability_cleared_first_witness :
  configured
  ∈ states (snd (start_application_service (Example.example_host (Some 0) [] [])
                   (Example.example_world ""))).
Proof.
  set (host := Example.example_host (Some 0) [] []).
  set (w := Example.example_world "").
  destruct (availability_cleared_first host) as (_ & _ & Hworld & Hkeeps).
  assert (start_application_service host ∈ handlers host) as Hin
    by (unfold handlers; do 3 right; left).
  rewrite (Hworld _ w Hin).
  apply (Hkeeps _ w _ [] configured Hin).
  - by rewrite app_nil_r.
  - discriminate.
  - discriminate.
  - unfold w, Example.example_world. cbn.
    rewrite !elem_of_union, !elem_of_singleton. by do 2 left.
Defined.

Lemma unresponsive_service_raises_witness :
  let host := Example.example_host None [] [] in
  let w := Example.example_world "" in
  ∃ w',
    start_application_service host w
    = (Raise (OSError "Service not responding"), w')
    ∧ available ∉ states w'.
Proof.
  intros host w.
  apply (proj1 (unresponsive_service_raises host) w (snd (provision host w))).
  - rewrite (surjective_pairing (provision host w)) at 1.
    f_equal; vm_compute; reflexivity.
  - intros i _. reflexivity.
Defined.

(** ** The environment file *)

Section EnvironmentFile.

Context {Ext : Type}.
Implicit Types (w : World Ext).

Lemma open_readlines_run w (filepath content : string) :
  files w !! filepath = Some content →
  open_readlines filepath w
  = (Ok (Str.readlines (Str.universal_newlines content)), w).
Proof. intros Hfile. unfold open_readlines. by rewrite Hfile. Qed.

Lemma set_env_values_run w (filepath content : string) (U : dict) :
  files w !! filepath = Some content →
  let lines := Str.readlines (Str.universal_newlines content) in
  let env_lines := (rewritten U <$> lines) ++ appended U lines in
  set_env_values filepath U w
  = (Ok env_lines,
     {| states := states w;
        files := <[filepath := Str.writelines env_lines]> (files w);
        machine := machine w;
        trace := trace w ++ [WriteFile filepath (Str.writelines env_lines)] |}).
Proof.
  intros Hfile lines env_lines. unfold set_env_values.
  rewrite (bind_ok _ _ _ _ _ (open_readlines_run w _ _ Hfile)).
  fold lines. unfold lift, mbind, M_bind.
  by rewrite set_env_lines_spec.
Qed.

Lemma delete_env_value_run w (filepath content target_key : string) :
  files w !! filepath = Some content →
  let env_lines :=
    kept target_key (Str.readlines (Str.universal_newlines content)) in
  delete_env_value filepath target_key w
  = (Ok env_lines,
     {| states := states w;
        files := <[filepath := Str.writelines env_lines]> (files w);
        machine := machine w;
        trace := trace w ++ [WriteFile filepath (Str.writelines env_lines)] |}).
Proof.
  intros Hfile env_lines. unfold delete_env_value.
  rewrite (bind_ok _ _ _ _ _ (open_readlines_run w _ _ Hfile)).
  by rewrite delete_env_lines_spec.
Qed.

(** The list [set_env_values] returns and hands to [writelines]: the
    lines read, each one whose key is in [U] rewritten where it stands,
    the others as they are, the lines the pattern does not match among
    them, followed by one new line for every key of [U] that no line
    has, in the order of [U]. *)
Lemma set_env_values_lines w (filepath content : string) (U : dict) :
  files w !! filepath = Some content →
  let lines := Str.readlines (Str.universal_newlines content) in
  ∃ env_lines w',
    set_env_values filepath U w = (Ok env_lines, w')
    ∧ files w' = <[filepath := Str.writelines env_lines]> (files w)
    ∧ (∀ i line key value,
         lines !! i = Some line →
         key_of line = Some key → dict_get key U = Some value →
         env_lines !! i = Some (format_line key value))
    ∧ (∀ i line key,
         lines !! i = Some line →
         key_of line = Some key → dict_get key U = None →
         env_lines !! i = Some line)
    ∧ (∀ i line,
         lines !! i = Some line →
         Re.matches Re.bash_variable line = false →
         env_lines !! i = Some line)
    ∧ drop (length lines) env_lines
      = (λ '(key, value), format_line key value)
          <$> List.filter (λ '(key, _), negb (has_key lines key)) U.
Proof.
  intros Hfile lines.
  eexists _, _. split; [by apply set_env_values_run|]. fold lines.
  assert (∀ i line, lines !! i = Some line →
            ((rewritten U <$> lines) ++ appended U lines) !! i
            = Some (rewritten U line)) as Hplace.
  { intros i line Hi. rewrite lookup_app_l.
    - by rewrite list_lookup_fmap, Hi.
    - rewrite length_fmap. by apply lookup_lt_Some in Hi. }
  split; [done|]. split; [|split; [|split]].
  - intros i line key value Hi Hkey Hvalue.
    rewrite (Hplace _ _ Hi). unfold rewritten. by rewrite Hkey, Hvalue.
  - intros i line key Hi Hkey Hvalue.
    rewrite (Hplace _ _ Hi). unfold rewritten. by rewrite Hkey, Hvalue.
  - intros i line Hi Hmatch.
    rewrite (Hplace _ _ Hi). unfold rewritten, key_of, line_key.
    by rewrite Hmatch.
  - apply drop_app_length'. by rewrite length_fmap.
Qed.


Lemma get_env_run w (filepath content : string) (lines : list string) :
  files w !! filepath = Some content →
  Str.readlines (Str.universal_newlines content) = lines →
  ∃ d, get_env filepath w = (Ok d, w) ∧ get_env_lines lines [] = Ok d.
Proof.
  intros Hfile Hlines. destruct (get_env_lines_total lines []) as [d Hd].
  exists d. split; [|done]. unfold get_env.
  rewrite (bind_ok _ _ _ _ _ (open_readlines_run w _ _ Hfile)).
  by rewrite Hlines, Hd.
Qed.



End EnvironmentFile.

(** ** variables_from_string *)

Lemma unpack2_length {A : Type} (parts : list A) :
  length parts ≠ 2 → unpack2 parts = Raise ValueError.
Proof. by destruct parts as [|a [|b [|c parts]]]. Qed.

Lemma cut_unique (sep : ascii) (k k' v v' : string) :
  k +:+ String sep v = k' +:+ String sep v' →
  Str.count sep k = 0 → Str.count sep k' = 0 → k = k' ∧ v = v'.
Proof.
  revert k'. induction k as [|x k IH]; intros [|x' k'];
    rewrite ?app_nil_l_s, ?app_cons_s; cbn [Str.count].
  - by intros [= ->].
  - intros [= <- _] _. by rewrite Ascii.eqb_refl.
  - intros [= -> _]. by rewrite Ascii.eqb_refl.
  - intros [= <- Heq]. destruct (Ascii.eqb x sep); [done|].
    intros Hk Hk'. by destruct (IH _ Heq Hk Hk') as [-> ->].
Qed.

(** A declaration with exactly one [=] is a name, the [=], and a value. *)
Lemma declaration_shape (declaration : string) :
  Str.count Str.equals declaration = 1 →
  ∃ name value,
    declaration = name +:+ "=" +:+ value
    ∧ Str.count Str.equals name = 0 ∧ Str.count Str.equals value = 0
    ∧ Str.split_on Str.equals declaration = [name; value].
Proof.
  intros Hcount.
  destruct (count_pos_cut Str.equals declaration) as (k & v & -> & Hk & Hv);
    [lia|].
  assert (Str.count Str.equals v = 0) as Hv0 by lia.
  exists k, v. repeat split; try done.
  by rewrite split_on_app, split_on_none.
Qed.

Lemma variables_from_declarations_spec (declarations : list string) :
  (∀ declaration, declaration ∈ declarations →
                  Str.count Str.equals declaration = 1) →
  ∀ variables, ∃ d,
    variables_from_declarations declarations variables = Ok d
    ∧ ∀ name value,
        dict_get name d = Some value ↔
        declared_last declarations name value
        ∨ (dict_get name variables = Some value
           ∧ ∀ declaration value',
               declaration ∈ declarations →
               declaration ≠ name +:+ "=" +:+ value').
Proof.
  induction declarations as [|t declarations IH]; intros Hwell d0.
  - exists d0. split; [done|]. intros name value. split.
    + intros Hget. right. split; [done|]. intros ? ? Hin.
      by apply elem_of_nil in Hin.
    + intros [(earlier & later & Heq & _) | [Hget _]]; [|done].
      by destruct earlier.
  - destruct (declaration_shape t) as (k0 & v0 & -> & Hk0 & Hv0 & Hsplit);
      [apply Hwell; by left|].
    destruct (IH (λ t Ht, Hwell t (list_elem_of_further _ _ _ Ht))
                (dict_set k0 v0 d0)) as (d & Hrun & Hd).
    exists d. split.
    { cbn [variables_from_declarations]. rewrite Hsplit. exact Hrun. }
    intros name value. rewrite Hd. split.
    + intros [(earlier & later & -> & Hlater) | [Hget Hnone]].
      * left. by exists ((k0 +:+ "=" +:+ v0) :: earlier), later.
      * destruct (decide (name = k0)) as [-> | Hne].
        -- rewrite dict_get_set_eq in Hget. injection Hget as <-.
           left. by exists [], declarations.
        -- rewrite dict_get_set_ne in Hget by done.
           right. split; [done|].
           intros t value' [-> | Ht]%elem_of_cons; [|by apply Hnone].
           intros Heq. apply Hne. symmetry.
           assert (Str.count Str.equals (name +:+ "=" +:+ value') = 1) as Hc
             by (rewrite <- Heq, !count_app, Hk0, Hv0; done).
           rewrite !count_app in Hc. change (Str.count Str.equals "=") with 1 in Hc.
           by apply (cut_unique Str.equals k0 name v0 value' Heq); [|lia].
    + intros [(earlier & later & Heq & Hlater) | [Hget Hnone]].
      * destruct earlier as [|t earlier]; injection Heq as Ht Hrest.
        -- subst later. right.
           assert (Str.count Str.equals name = 0) as Hname.
           { assert (Str.count Str.equals (name +:+ "=" +:+ value) = 1) as Hc
               by (rewrite <- Ht, !count_app, Hk0, Hv0; done).
             rewrite !count_app in Hc.
             change (Str.count Str.equals "=") with 1 in Hc. lia. }
           destruct (cut_unique Str.equals k0 name v0 value Ht Hk0 Hname)
             as [<- <-].
           by rewrite dict_get_set_eq.
        -- left. by exists earlier, later.
      * right. split; [|intros t value' Ht; apply Hnone; by right].
        rewrite dict_get_set_ne; [done|]. intros ->.
        by apply (Hnone (k0 +:+ "=" +:+ v0) v0); [left|].
Qed.

Lemma variables_from_declarations_raises (declarations : list string)
    (declaration : string) :
  declaration ∈ declarations →
  Str.count Str.equals declaration ≠ 1 →
  ∀ variables,
    variables_from_declarations declarations variables = Raise ValueError.
Proof.
  intros Hin Hcount.
  induction declarations as [|t declarations IH]; intros d0.
  - by apply elem_of_nil in Hin.
  - cbn [variables_from_declarations].
    destruct (decide (Str.count Str.equals t = 1)) as [Ht | Ht].
    + destruct (declaration_shape t Ht) as (k0 & v0 & _ & _ & _ & ->).
      cbn. apply IH. apply elem_of_cons in Hin as [-> | Hin]; done.
    + rewrite unpack2_length; [done|]. rewrite split_on_length. lia.
Qed.

Section ConfigChanged.

Context {Ext : Type} (H : Host Ext).

(** C10: [variables_from_string] returns a dictionary exactly on the
    strings all of whose whitespace-separated declarations contain one
    [=], each name bound to the value of its last declaration; a
    declaration with no [=] or with more than one raises [ValueError], and
    the config-changed handler then raises too, before it writes the
    environment file or sets [wsgi.configured]. [get_env] and
    [set_env_values] instead cut a line at its first [=] only, and
    cannot fail to unpack. *)
Theorem variables_from_string_needs_one_equals :
  (∀ variables_string,
      (∀ declaration, declaration ∈ Str.split variables_string →
                      Str.count Str.equals declaration = 1) →
      ∃ d, variables_from_string (VStr variables_string) = Ok d
           ∧ ∀ name value,
               dict_get name d = Some value ↔
               declared_last (Str.split variables_string) name value)
  ∧ (∀ variables_string declaration,
       declaration ∈ Str.split variables_string →
       Str.count Str.equals declaration ≠ 1 →
       variables_from_string (VStr variables_string) = Raise ValueError)
  ∧ (∀ w variables_string declaration,
       config H "environment_variables" = VStr variables_string →
       declaration ∈ Str.split variables_string →
       Str.count Str.equals declaration ≠ 1 →
       ∃ e w',
         configure_dependencies H w = (Raise e, w')
         ∧ files w' = files w ∧ states w' = states w)
  ∧ (∀ env_line,
       Re.matches Re.bash_variable env_line = true →
       ∃ key value,
         split_assignment env_line = Ok (key, value)
         ∧ Str.strip env_line = key +:+ "=" +:+ value
         ∧ Str.count Str.equals key = 0).
Proof.
  split; [|split; [|split]].
  - intros s Hwell. unfold variables_from_string. cbn.
    destruct (variables_from_declarations_spec _ Hwell []) as (d & Hrun & Hd).
    exists d. split; [done|]. intros name value. rewrite Hd.
    split; [|by left]. by intros [? | [? _]].
  - intros s t Hin Hcount. unfold variables_from_string. cbn.
    by apply (variables_from_declarations_raises _ t).
  - intros w s t Hconfig Hin Hcount.
    unfold configure_dependencies. rewrite Hconfig.
    unfold variables_from_string. cbn [split_value mbind Result_bind].
    rewrite (variables_from_declarations_raises _ t Hin Hcount).
    unfold mbind, M_bind, lift, status_set, log, emit, apt_install, act.
    cbn. destruct (split_value _); cbn; by eexists _, _.
  - intros env_line (k & v & Hsplit & _ & Hstrip & Hk)%variable_line.
    by exists k, v.
Qed.

End ConfigChanged.

(** ** The database step *)

Lemma whole_lines_canonical (lines : list string) :
  Forall (λ l, whole_line l = true) lines → canonical lines = true.
Proof.
  induction 1 as [|l lines Hl _ IH]; [done|].
  unfold whole_line in Hl. apply andb_true_iff in Hl as [Hl _].
  apply andb_true_iff in Hl as [Hline Hnl].
  apply canonical_cons. by repeat split.
Qed.

Lemma whole_lines_plain (lines : list string) :
  Forall (λ l, whole_line l = true) lines →
  Forall (λ l, Str.count Str.carriage_return l = 0) lines.
Proof.
  intros Hall. eapply Forall_impl; [exact Hall|].
  intros l Hl. unfold whole_line in Hl.
  apply andb_true_iff in Hl as [_ Hcr]. by apply Nat.eqb_eq in Hcr.
Qed.

Lemma canonical_is_line (lines : list string) :
  canonical lines = true → Forall (λ l, is_line l = true) lines.
Proof.
  induction lines as [|l lines IH]; [constructor|].
  intros (Hl & _ & Hrest)%canonical_cons. constructor; [done | by apply IH].
Qed.

(** The lines of a file all of whose lines end with a newline. *)
Lemma lines_read_whole (content : string) :
  Forall (λ l, ends_with_newline l = true)
    (Str.readlines (Str.universal_newlines content)) →
  Forall (λ l, whole_line l = true)
    (Str.readlines (Str.universal_newlines content)).
Proof.
  intros Hnl.
  pose proof (canonical_is_line _
                (readlines_canonical (Str.universal_newlines content))) as Hline.
  pose proof (lines_read_plain content) as Hplain.
  rewrite Forall_forall in *. intros l Hl. unfold whole_line.
  rewrite (Hnl l Hl), (Hline l Hl), (Hplain l Hl). done.
Qed.

Section OneVariable.

(** [set_env_values] with one variable, whose line reads back as it was
    written. *)
Context (key value : string).
Hypothesis Hwhole : whole_line (format_line key value) = true.
Hypothesis Hassigns : assigns (format_line key value) key value.

Let U : dict := [(key, value)].

Lemma one_variable_get (k v : string) :
  dict_get k U = Some v → k = key ∧ v = value.
Proof.
  unfold U. cbn [dict_get]. destruct (String.eqb key k) eqn:Hk; [|done].
  apply String.eqb_eq in Hk as <-. by intros [= <-].
Qed.

Lemma one_variable_rewritten (l : string) :
  rewritten U l = l ∨ rewritten U l = format_line key value.
Proof.
  unfold rewritten. destruct (key_of l) as [k|]; [|by left].
  destruct (dict_get k U) as [v|] eqn:Hget; [|by left].
  destruct (one_variable_get _ _ Hget) as [-> ->]. by right.
Qed.

Lemma one_variable_lines (lines : list string) (l : string) :
  l ∈ (rewritten U <$> lines) ++ appended U lines →
  l = format_line key value ∨ (l ∈ lines ∧ key_of l ≠ Some key).
Proof.
  rewrite elem_of_app. intros [Hl | Hl].
  - apply list_elem_of_fmap in Hl as (l0 & -> & Hl0).
    destruct (key_of l0) as [k|] eqn:Hk.
    2: { right. unfold rewritten. rewrite Hk. split; [done|]. by rewrite Hk. }
    destruct (dict_get k U) as [v|] eqn:Hget.
    + left. unfold rewritten. rewrite Hk, Hget.
      by destruct (one_variable_get _ _ Hget) as [-> ->].
    + right. unfold rewritten. rewrite Hk, Hget. split; [done|].
      rewrite Hk. intros [= ->].
      unfold U in Hget. cbn in Hget. by rewrite String.eqb_refl in Hget.
  - left. unfold appended, U in Hl. cbn [List.filter] in Hl.
    destruct (negb (has_key lines key)); cbn in Hl.
    + by apply list_elem_of_singleton in Hl.
    + by apply elem_of_nil in Hl.
Qed.

Lemma one_variable_written (lines : list string) :
  format_line key value ∈ (rewritten U <$> lines) ++ appended U lines.
Proof.
  rewrite elem_of_app. destruct (has_key lines key) eqn:Hhas.
  - left. unfold has_key in Hhas. apply existsb_exists in Hhas as (l & Hl & Hk).
    apply list_elem_of_fmap. exists l. split; [|by apply list_elem_of_In].
    unfold rewritten. destruct (key_of l) as [k|]; [|done].
    apply String.eqb_eq in Hk as ->. unfold U. cbn [dict_get].
    by rewrite String.eqb_refl.
  - right. unfold appended, U. cbn [List.filter]. rewrite Hhas. cbn. by left.
Qed.

(** The file [set_env_values] has written, read by [get_env]. *)
Lemma get_env_after_set {Ext : Type} (w : World Ext)
    (filepath content : string) :
  let lines := Str.readlines (Str.universal_newlines content) in
  Forall (λ l, ends_with_newline l = true) lines →
  files w !! filepath
  = Some (Str.writelines ((rewritten U <$> lines) ++ appended U lines)) →
  stored_value filepath key w = Some value.
Proof.
  intros lines Hnl Hfile.
  set (env_lines := (rewritten U <$> lines) ++ appended U lines) in *.
  assert (Forall (λ l, whole_line l = true) env_lines) as Hall.
  { pose proof (lines_read_whole content Hnl) as Hlines. fold lines in Hlines.
    rewrite Forall_forall in *. intros l Hl.
    destruct (one_variable_lines lines l Hl) as [-> | [Hin _]]; auto. }
  assert (Str.readlines (Str.universal_newlines (Str.writelines env_lines))
          = env_lines) as Hback.
  { apply read_back; [by apply whole_lines_canonical
                     | by apply whole_lines_plain]. }
  destruct (get_env_run w _ _ _ Hfile Hback) as (d & Hrun & Hd).
  unfold stored_value. rewrite Hrun. cbn [fst].
  destruct (get_env_lines_has env_lines [] d key Hd) as [v Hv].
  { left. exists (format_line key value). split.
    - apply one_variable_written.
    - apply key_of_assigns. by exists value. }
  rewrite Hv. f_equal.
  destruct (get_env_lines_get _ _ _ _ _ Hd Hv) as [(l & Hl & Hlv) | ?];
    [|done].
  destruct (one_variable_lines lines l Hl) as [-> | [_ Hne]].
  - destruct Hassigns as [_ Hsplit]. destruct Hlv as [_ Hsplit'].
    rewrite Hsplit in Hsplit'. by injection Hsplit'.
  - destruct Hne. apply key_of_assigns. by exists v.
Qed.

End OneVariable.

Section Database.

Context {Ext : Type} (H : Host Ext).
Implicit Types (w : World Ext).

Lemma emits_files {A : Type} (m : M A) w :
  emits H writes_nothing m → files (snd (m w)) = files w.
Proof.
  intros Hm. destruct (Hm w) as (evs & -> & Hevs).
  by apply replay_keeps_files.
Qed.

Lemma bind_files {A B : Type} (m : M A) (k : A → M B) w :
  (∀ a, emits H writes_nothing (k a)) →
  files (snd ((m ≫= k) w)) = files (snd (m w)).
Proof.
  intros Hk. unfold mbind, M_bind. destruct (m w) as [[a|e] w1]; [|done].
  by apply emits_files.
Qed.

Lemma pass_split_database w :
  start_application_service H w
  = (before_database H ≫= λ _, from_database H) w.
Proof.
  unfold start_application_service, before_database, from_database,
    after_database, mbind, M_bind.
  repeat match goal with
         | |- context [match ?m ?w0 with _ => _ end] =>
             destruct (m w0) as [[[]|?] ?]
         end; reflexivity.
Qed.

Lemma before_database_files w :
  files (snd (before_database H w)) = files w.
Proof. apply emits_files. unfold before_database. emits_handler. Qed.

Lemma after_database_writes_nothing :
  emits H writes_nothing (after_database H).
Proof. unfold after_database. emits_handler. Qed.

(** The file system at the end of a pass that reaches the database step
    is the one that step leaves. *)
Lemma pass_files w w1 :
  before_database H w = (Ok (), w1) →
  files w1 = files w
  ∧ files (snd (start_application_service H w))
    = files (snd (check_for_database_connection H w1)).
Proof.
  intros Hbefore. split.
  - rewrite <- (before_database_files w). by rewrite Hbefore.
  - rewrite pass_split_database, (bind_ok _ _ _ _ _ Hbefore).
    unfold from_database. apply bind_files.
    intros _. apply after_database_writes_nothing.
Qed.


Lemma attached_database_files w (content : string)
    (relation : gmap string PyVal) :
  relations_of_type H "postgres" = [relation] →
  relation !! "host" = Some (VStr "db1") →
  relation !! "port" = Some (VInt 5432) →
  relation !! "user" = Some (VStr "app") →
  relation !! "password" = None →
  relation !! "database" = None →
  files w !! env_file = Some content →
  let lines := Str.readlines (Str.universal_newlines content) in
  let U := [("DATABASE_URL", "postgresql://app@db1:5432")] in
  files (snd (check_for_database_connection H w))
  = <[env_file := Str.writelines ((rewritten U <$> lines) ++ appended U lines)]>
      (files w).
Proof.
  intros Hpostgres Hhost Hport Huser Hpassword Hdatabase Hfile lines U.
  unfold check_for_database_connection. rewrite Hpostgres.
  cbn [choose_db_relation].
  rewrite bool_decide_eq_false_2
    by (intros ->; by rewrite lookup_empty in Hhost).
  unfold database_attached_branch, dict_get_or.
  rewrite Hhost, Hport, Huser, Hpassword, Hdatabase. cbn [default].
  rewrite (bind_ok (log _) _ () w _ eq_refl).
  rewrite (bind_ok (log _) _ () _ _ eq_refl).
  rewrite (bind_ok (lift _) _ "postgresql://app@db1:5432" _ _ eq_refl).
  erewrite (bind_ok (set_env_values _ _)).
  2: { apply set_env_values_run. exact Hfile. }
  rewrite emits_files by emits_handler.
  reflexivity.
Qed.

End Database.

Section DatabaseClaims.

Context {Ext : Type} (H : Host Ext).
Implicit Types (w : World Ext).

(** C4, as the code has it: in a pass that reaches the database step
    with one Postgres relation carrying host [db1], port 5432 and user
    [app], no password and no database name, the line written for
    [DATABASE_URL] is [DATABASE_URL=postgresql://app@db1:5432], with no
    slash for the empty path; if every line of the environment file ends
    with a newline, that URL is what the file holds under
    [DATABASE_URL] when the pass ends. *)
Theorem database_url_stored w w1 (content : string)
    (relation : gmap string PyVal) :
  relations_of_type H "postgres" = [relation] →
  relation !! "host" = Some (VStr "db1") →
  relation !! "port" = Some (VInt 5432) →
  relation !! "user" = Some (VStr "app") →
  relation !! "password" = None →
  relation !! "database" = None →
  before_database H w = (Ok (), w1) →
  files w !! env_file = Some content →
  let w' := snd (start_application_service H w) in
  (∃ env_lines,
      files w' !! env_file = Some (Str.writelines env_lines)
      ∧ format_line "DATABASE_URL" "postgresql://app@db1:5432" ∈ env_lines)
  ∧ (Forall (λ l, ends_with_newline l = true)
       (Str.readlines (Str.universal_newlines content)) →
     stored_value env_file "DATABASE_URL" w'
     = Some "postgresql://app@db1:5432").
Proof.
  intros Hpostgres Hhost Hport Huser Hpassword Hdatabase Hbefore Hfile w'.
  destruct (pass_files H w w1 Hbefore) as [Hw1 Hw'].
  rewrite <- Hw1 in Hfile.
  pose proof (attached_database_files H w1 content relation Hpostgres Hhost
                Hport Huser Hpassword Hdatabase Hfile) as Hstep.
  cbv zeta in Hstep. rewrite <- Hw' in Hstep. fold w' in Hstep.
  assert (whole_line (format_line "DATABASE_URL" "postgresql://app@db1:5432")
          = true) as Hwhole by reflexivity.
  assert (assigns (format_line "DATABASE_URL" "postgresql://app@db1:5432")
            "DATABASE_URL" "postgresql://app@db1:5432") as Hassigns
    by (split; reflexivity).
  split.
  - eexists. split.
    + rewrite Hstep. apply lookup_insert_eq.
    + apply one_variable_written.
  - intros Hnl.
    apply (get_env_after_set _ _ Hwhole Hassigns w' env_file content Hnl).
    rewrite Hstep. apply lookup_insert_eq.
Qed.


End DatabaseClaims.

(** ** The claims on a machine *)

Lemma before_database_example (host : Host nat) (w : World nat) :
  fst (before_database host w) = Ok () →
  before_database host w = (Ok (), snd (before_database host w)).
Proof. intros Hfst. by rewrite <- Hfst, <- surjective_pairing. Qed.

Lemma database_url_stored_witness :
  let host := Example.example_host (Some 0) [Example.postgres_relation] [] in
  let w := Example.example_world ("PATH=/usr/bin" +:+ Str.lf) in
  stored_value env_file "DATABASE_URL" (snd (start_application_service host w))
  = Some "postgresql://app@db1:5432".
Proof.
  intros host w.
  refine (proj2 (database_url_stored host w (snd (before_database host w))
                   ("PATH=/usr/bin" +:+ Str.lf) Example.postgres_relation
                   _ _ _ _ _ _ _ _) _).
  - reflexivity.
  - vm_compute. reflexivity.
  - vm_compute. reflexivity.
  - vm_compute. reflexivity.
  - vm_compute. reflexivity.
  - vm_compute. reflexivity.
  - apply before_database_example. vm_compute. reflexivity.
  - vm_compute. reflexivity.
  - vm_compute. repeat constructor.
Defined.

(** C4 as the claim has it fails: the URL stored has no trailing slash. *)
Lemma database_url_stored_counterexample :
  let host := Example.example_host (Some 0) [Example.postgres_relation] [] in
  let w := Example.example_world ("PATH=/usr/bin" +:+ Str.lf) in
  stored_value env_file "DATABASE_URL" (snd (start_application_service host w))
  ≠ Some "postgresql://app@db1:5432/".
Proof. vm_compute. discriminate. Qed.


(** C7, where the code departs from it: on an environment file whose
    last line has no newline at its end, here the one line
    [PATH=/usr/bin], and the mapping of [WORKERS] to [4],
    [set_env_values] returns the old line and the new one, but writes
    them as they are, so that the file reads back as the single line
    [PATH=/usr/binWORKERS=4]: the key that was absent is not a line of
    the file and [get_env] does not find it, and the line of [PATH],
    whose key is not in the mapping, has changed and with it the value
    of [PATH]. *)
Theorem set_env_values_glues_last_line :
  let w := Example.example_world "PATH=/usr/bin" in
  let U := [("WORKERS", "4")] in
  let w' := snd (set_env_values env_file U w) in
  fst (set_env_values env_file U w)
  = Ok ["PATH=/usr/bin"; "WORKERS=4" +:+ Str.lf]
  ∧ files w' !! env_file = Some ("PATH=/usr/binWORKERS=4" +:+ Str.lf)
  ∧ lines_of env_file w' = ["PATH=/usr/binWORKERS=4" +:+ Str.lf]
  ∧ stored_value env_file "WORKERS" w' = None
  ∧ stored_value env_file "PATH" w = Some "/usr/bin"
  ∧ stored_value env_file "PATH" w' = Some "/usr/binWORKERS=4".
Proof.
  intros w U w'. repeat split; vm_compute; reflexivity.
Qed.


Lemma variables_from_string_needs_one_equals_witness :
  let host := Example.example_host (Some 0) [] [] in
  variables_from_string (VStr "SECRET_KEY=a=b DEBUG=false") = Raise ValueError
  ∧ (∃ e w',
       configure_dependencies host (Example.example_world "")
       = (Raise e, w')
       ∧ files w' = files (Example.example_world "")
       ∧ states w' = states (Example.example_world ""))
  ∧ (∃ d, variables_from_string (VStr "WORKERS=4  DEBUG=false") = Ok d
          ∧ ∀ name value,
              dict_get name d = Some value ↔
              declared_last (Str.split "WORKERS=4  DEBUG=false") name value)
  ∧ ∃ key value,
      split_assignment ("SECRET_KEY=a=b" +:+ Str.lf) = Ok (key, value)
      ∧ Str.strip ("SECRET_KEY=a=b" +:+ Str.lf) = key +:+ "=" +:+ value
      ∧ Str.count Str.equals key = 0.
Proof.
  intros host.
  destruct (variables_from_string_needs_one_equals host)
    as (Hwell & Hraises & Haborts & Hlines).
  assert ("SECRET_KEY=a=b" ∈ Str.split "SECRET_KEY=a=b DEBUG=false") as Hin
    by (vm_compute; left).
  split; [|split; [|split]].
  - apply (Hraises _ "SECRET_KEY=a=b"); [exact Hin | vm_compute; lia].
  - apply (Haborts _ "SECRET_KEY=a=b DEBUG=false" "SECRET_KEY=a=b");
      [reflexivity | exact Hin | vm_compute; lia].
  - apply Hwell. intros declaration Hd. vm_compute in Hd.
    apply elem_of_cons in Hd as [-> | Hd]; [reflexivity|].
    apply elem_of_cons in Hd as [-> | Hd]; [reflexivity|].
    by apply elem_of_nil in Hd.
  - apply Hlines. reflexivity.
Defined.

(** * Further properties *)

(** ** The lines that are variables *)

Lemma ident_start_first (c : ascii) :
  is_ident_start c = true ↔
  Re.in_set [Re.Range "a" "z"; Re.Range "A" "Z"; Re.Chr "_"] c = true.
Proof.
  destruct c as [[] [] [] [] [] [] [] []]; vm_compute; split; intros; done.
Qed.

Lemma ident_char_later (c : ascii) :
  Str.is_ident_char c = true →
  Re.in_set [Re.Range "a" "z"; Re.Range "A" "Z"; Re.Range "0" "9"; Re.Chr "_"]
    c = true.
Proof. destruct c as [[] [] [] [] [] [] [] []]; vm_compute; intros; done. Qed.

Lemma ident_start_char (c : ascii) :
  is_ident_start c = true → Str.is_ident_char c = true.
Proof. destruct c as [[] [] [] [] [] [] [] []]; vm_compute; intros; done. Qed.

Lemma repeat_complete (set : list Re.Atom) (k : string → bool)
    (w rest : string) :
  Str.all_chars (Re.in_set set) w = true → k rest = true →
  Re.repeat set k (w +:+ rest) = true.
Proof.
  intros Hw Hk. induction w as [|c w IH].
  - rewrite app_nil_l_s. destruct rest; cbn [Re.repeat]; by rewrite Hk.
  - cbn [Str.all_chars] in Hw. apply andb_true_iff in Hw as [Hc Hw].
    rewrite app_cons_s. cbn [Re.repeat]. rewrite Hc, (IH Hw).
    apply orb_true_r.
Qed.

Lemma identifier_all_chars (k : string) :
  is_identifier k = true → k ≠ "" ∧ Str.all_chars Str.is_ident_char k = true.
Proof.
  destruct k as [|c k]; [done|]. cbn [is_identifier Str.all_chars].
  intros [Hc Hk]%andb_true_iff. split; [done|].
  by rewrite (ident_start_char _ Hc), Hk.
Qed.

Lemma identifier_matches (k rest : string) :
  is_identifier k = true →
  Re.matches Re.bash_variable (k +:+ "=" +:+ rest) = true.
Proof.
  destruct k as [|c k]; [done|]. cbn [is_identifier].
  intros [Hc Hk]%andb_true_iff.
  rewrite app_cons_s. cbn [Re.matches Re.bash_variable Re.step].
  apply ident_start_first in Hc. rewrite Hc. cbn [andb].
  apply (repeat_complete _ _ "" (k +:+ "=" +:+ rest)); [done|].
  apply repeat_complete.
  - eapply all_chars_impl; [apply ident_char_later | exact Hk].
  - reflexivity.
Qed.

Lemma matches_identifier (s : string) :
  Re.matches Re.bash_variable s = true →
  ∃ key rest, s = key +:+ "=" +:+ rest ∧ is_identifier key = true.
Proof.
  cbn [Re.matches Re.bash_variable]. destruct s as [|c s]; [done|].
  cbn [Re.step]. intros [Hc Hs]%andb_true_iff.
  apply repeat_true in Hs as (w1 & r1 & -> & Hw1 & Hr1).
  apply repeat_true in Hr1 as (w2 & r2 & -> & Hw2 & Hr2).
  destruct r2 as [|e r]; [done|]. cbn [Re.step] in Hr2.
  apply andb_true_iff in Hr2 as [He _].
  cbn [Re.in_set existsb Re.atom_matches] in He.
  rewrite orb_false_r in He. apply Ascii.eqb_eq in He as <-.
  exists (String c (w1 +:+ w2)), r. split.
  - by rewrite app_cons_s, app_assoc_s.
  - cbn [is_identifier]. apply ident_start_first in Hc. rewrite Hc.
    rewrite all_chars_app.
    rewrite (all_chars_impl _ _ _ first_char_ident Hw1).
    exact (all_chars_impl _ _ _ later_char_ident Hw2).
Qed.

(** X1: a line is a variable for [get_env] and [set_env_values] exactly
    when it starts with an identifier (a letter or underscore, then letters,
    digits and underscores) followed by [=]; its key is then that
    identifier and its value what follows the first [=], without the
    whitespace at its end. *)
Theorem variable_lines (env_line : string) :
  (Re.matches Re.bash_variable env_line = true ↔
   ∃ key rest, env_line = key +:+ "=" +:+ rest ∧ is_identifier key = true)
  ∧ (∀ key rest,
       env_line = key +:+ "=" +:+ rest → is_identifier key = true →
       split_assignment env_line = Ok (key, Str.rstrip rest)
       ∧ key_of env_line = Some key).
Proof.
  split.
  - split; [apply matches_identifier|].
    intros (k & rest & -> & Hk). by apply identifier_matches.
  - intros key rest -> Hkey.
    destruct (identifier_all_chars _ Hkey) as [Hne Hall].
    pose proof (split_assignment_shape key rest Hne Hall) as Hsplit.
    change (String Str.equals rest) with ("=" +:+ rest) in Hsplit.
    split; [done|]. unfold key_of, line_key.
    by rewrite identifier_matches, Hsplit.
Qed.

Lemma variable_lines_witness :
  split_assignment ("DEBUG=a=b  " +:+ Str.lf) = Ok ("DEBUG", "a=b")
  ∧ key_of ("DEBUG=a=b  " +:+ Str.lf) = Some "DEBUG".
Proof.
  exact (proj2 (variable_lines ("DEBUG=a=b  " +:+ Str.lf))
           "DEBUG" ("a=b  " +:+ Str.lf) eq_refl eq_refl).
Defined.

(** ** What get_env reads *)

Lemma assignment_of_assigns (env_line key value : string) :
  assignment_of env_line = Some (key, value) ↔ assigns env_line key value.
Proof.
  unfold assignment_of, assigns.
  destruct (Re.matches Re.bash_variable env_line) eqn:Hm.
  - destruct (variable_line _ Hm) as (k & v & -> & _). split.
    + by intros [= -> ->].
    + by intros [_ [= -> ->]].
  - split; [done | by intros [? _]].
Qed.

Lemma key_of_assignment (env_line : string) :
  key_of env_line = fst <$> assignment_of env_line.
Proof.
  unfold key_of, line_key, assignment_of.
  destruct (Re.matches Re.bash_variable env_line) eqn:Hm; [|done].
  by destruct (variable_line _ Hm) as (k & v & -> & _).
Qed.

Lemma last_value_app (key : string) (before after : list string) :
  last_value key (before ++ after)
  = match last_value key after with
    | Some value => Some value
    | None => last_value key before
    end.
Proof.
  induction before as [|l before IH]; cbn [app last_value].
  - by destruct (last_value key after).
  - rewrite IH. by destruct (last_value key after).
Qed.

Lemma get_env_lines_last (lines : list string) :
  ∀ env_vars d key,
    get_env_lines lines env_vars = Ok d →
    dict_get key d
    = match last_value key lines with
      | Some value => Some value
      | None => dict_get key env_vars
      end.
Proof.
  induction lines as [|l lines IH]; intros d0 d key Hd.
  - by injection Hd as <-.
  - cbn [get_env_lines last_value] in *. unfold assignment_of.
    destruct (Re.matches Re.bash_variable l) eqn:Hm.
    + destruct (variable_line _ Hm) as (k0 & v0 & Hsplit & _).
      rewrite Hsplit in *. cbn in Hd. rewrite (IH _ _ key Hd).
      destruct (last_value key lines); [done|].
      destruct (String.eqb k0 key) eqn:Hk.
      * apply String.eqb_eq in Hk as ->. apply dict_get_set_eq.
      * apply String.eqb_neq in Hk. by apply dict_get_set_ne.
    + rewrite (IH _ _ key Hd). by destruct (last_value key lines).
Qed.

Lemma stored_value_last {Ext : Type} (w : World Ext) (filepath key : string) :
  stored_value filepath key w = last_value key (lines_of filepath w).
Proof.
  unfold stored_value, lines_of, get_env, open_readlines, mbind, M_bind, lift.
  destruct (files w !! filepath) as [content|]; [|done].
  destruct (get_env_lines_total (Str.readlines (Str.universal_newlines content)) [])
    as [d Hd].
  rewrite Hd. cbn. rewrite (get_env_lines_last _ _ _ key Hd).
  by destruct (last_value key _).
Qed.

(** X2: [get_env] on a file that exists never raises and changes nothing;
    it gives every key the value of the last line that assigns it, and no
    entry to a key that no line assigns. *)
Theorem get_env_last_wins {Ext : Type} (w : World Ext)
    (filepath content : string) :
  files w !! filepath = Some content →
  ∃ d, get_env filepath w = (Ok d, w)
       ∧ ∀ key, dict_get key d
                = last_value key (Str.readlines (Str.universal_newlines content)).
Proof.
  intros Hfile.
  destruct (get_env_run w _ _ _ Hfile eq_refl) as (d & Hrun & Hd).
  exists d. split; [done|]. intros key.
  rewrite (get_env_lines_last _ _ _ key Hd). by destruct (last_value key _).
Qed.

Lemma get_env_last_wins_witness :
  let w := Example.example_world
             ("DEBUG=true" +:+ Str.lf +:+ " X=1" +:+ Str.lf
              +:+ "DEBUG=false  " +:+ Str.lf) in
  ∃ d, get_env env_file w = (Ok d, w)
       ∧ dict_get "DEBUG" d = Some "false" ∧ dict_get "X" d = None.
Proof.
  intros w.
  destruct (get_env_last_wins w env_file
              ("DEBUG=true" +:+ Str.lf +:+ " X=1" +:+ Str.lf
               +:+ "DEBUG=false  " +:+ Str.lf) eq_refl) as (d & Hrun & Hd).
  exists d. split; [exact Hrun|]. by rewrite !Hd.
Defined.

(** X3: on a file that does not exist [get_env], [set_env_values] and
    [delete_env_value] raise [FileNotFoundError] and leave the world as it
    is: the file is not created. *)
Theorem missing_file_raises {Ext : Type} (w : World Ext) (filepath : string) :
  files w !! filepath = None →
  get_env filepath w = (Raise (FileNotFoundError filepath), w)
  ∧ (∀ U, set_env_values filepath U w = (Raise (FileNotFoundError filepath), w))
  ∧ (∀ target_key,
       delete_env_value filepath target_key w
       = (Raise (FileNotFoundError filepath), w)).
Proof.
  intros Hfile.
  unfold get_env, set_env_values, delete_env_value, mbind, M_bind,
    open_readlines.
  by rewrite Hfile.
Qed.

Lemma missing_file_raises_witness :
  let w := Example.example_world "" in
  get_env "/etc/default/wsgi" w
  = (Raise (FileNotFoundError "/etc/default/wsgi"), w).
Proof.
  intros w. apply (missing_file_raises w "/etc/default/wsgi").
  vm_compute. reflexivity.
Defined.

(** ** Writing variables and reading them back *)

Lemma rstrip_app_lf (v : string) : Str.rstrip (v +:+ Str.lf) = Str.rstrip v.
Proof.
  induction v as [|c v IH]; [done|].
  rewrite app_cons_s. cbn [Str.rstrip]. by rewrite IH.
Qed.

Lemma is_line_app_lf (a : string) :
  Str.count Str.newline a = 0 →
  is_line (a +:+ Str.lf) = true ∧ ends_with_newline (a +:+ Str.lf) = true.
Proof.
  induction a as [|c a IH]; [done|]. cbn [Str.count].
  destruct (Ascii.eqb c Str.newline) eqn:Hc; [done|]. intros Ha.
  destruct (IH Ha) as [Hline Hnl].
  assert (a +:+ Str.lf ≠ "") as Hne by by apply is_line_nonempty.
  rewrite app_cons_s, is_line_cons, ends_with_newline_cons, Hc by done.
  done.
Qed.

Lemma ident_count (c : ascii) (k : string) :
  Str.is_ident_char c = false →
  Str.all_chars Str.is_ident_char k = true → Str.count c k = 0.
Proof.
  intros Hc. induction k as [|x k IH]; [done|].
  cbn [Str.all_chars Str.count]. intros [Hx Hk]%andb_true_iff.
  rewrite (IH Hk). destruct (Ascii.eqb x c) eqn:Hxc; [|done].
  apply Ascii.eqb_eq in Hxc as ->. congruence.
Qed.

Lemma plain_value_facts (v : string) :
  is_plain_value v = true →
  Str.count Str.newline v = 0 ∧ Str.count Str.carriage_return v = 0
  ∧ Str.rstrip v = v.
Proof.
  unfold is_plain_value. intros [[Hnl Hcr]%andb_true_iff Hstrip]%andb_true_iff.
  apply Nat.eqb_eq in Hnl, Hcr. by apply String.eqb_eq in Hstrip.
Qed.

Lemma format_line_assignment (key value : string) :
  is_identifier key = true → is_plain_value value = true →
  assignment_of (format_line key value) = Some (key, value).
Proof.
  intros Hkey (_ & _ & Hstrip)%plain_value_facts.
  destruct (identifier_all_chars _ Hkey) as [Hne Hall].
  unfold assignment_of, format_line.
  rewrite identifier_matches by done.
  change ("=" +:+ value +:+ Str.lf) with (String Str.equals (value +:+ Str.lf)).
  rewrite split_assignment_shape by done.
  by rewrite rstrip_app_lf, Hstrip.
Qed.

Lemma format_line_whole (key value : string) :
  is_identifier key = true → is_plain_value value = true →
  whole_line (format_line key value) = true.
Proof.
  intros Hkey (Hnl & Hcr & _)%plain_value_facts.
  destruct (identifier_all_chars _ Hkey) as [_ Hall].
  unfold whole_line, format_line.
  rewrite <- !app_assoc_s.
  destruct (is_line_app_lf ((key +:+ "=") +:+ value)) as [-> ->].
  { rewrite !count_app, Hnl, (ident_count Str.newline key) by done. done. }
  rewrite !count_app, Hcr, (ident_count Str.carriage_return key) by done.
  done.
Qed.

Lemma dict_get_in (key value : string) (d : dict) :
  dict_get key d = Some value → (key, value) ∈ d.
Proof.
  induction d as [|[k v] d IH]; [done|]. cbn [dict_get].
  destruct (String.eqb k key) eqn:Hk.
  - apply String.eqb_eq in Hk as ->. intros [= ->]. by left.
  - intros Hget. right. by apply IH.
Qed.

Lemma dict_get_notin (key : string) (d : dict) :
  key ∉ (fst <$> d) → dict_get key d = None.
Proof.
  induction d as [|[k v] d IH]; [done|]. cbn [fmap list_fmap fst dict_get].
  rewrite not_elem_of_cons. intros [Hne Hnotin].
  apply String.eqb_neq in Hne. rewrite String.eqb_sym, Hne. by apply IH.
Qed.

Lemma dict_get_of_in (key value : string) (d : dict) :
  NoDup (fst <$> d) → (key, value) ∈ d → dict_get key d = Some value.
Proof.
  induction d as [|[k v] d IH]; intros Hnodup Hin.
  - by apply elem_of_nil in Hin.
  - cbn [fmap list_fmap fst] in Hnodup. apply NoDup_cons in Hnodup as [Hk Hd].
    cbn [dict_get]. apply elem_of_cons in Hin as [[= -> ->] | Hin].
    + by rewrite String.eqb_refl.
    + destruct (String.eqb k key) eqn:Hkk; [|by apply IH].
      apply String.eqb_eq in Hkk as ->. destruct Hk.
      apply list_elem_of_fmap. by exists (key, value).
Qed.

Lemma well_formed_cons (k v : string) (U : dict) :
  well_formed ((k, v) :: U) →
  (k ∉ (fst <$> U)) ∧ is_identifier k = true ∧ is_plain_value v = true
  ∧ well_formed U.
Proof.
  intros [Hnodup Hall]. cbn [fmap list_fmap fst] in Hnodup.
  apply NoDup_cons in Hnodup as [Hk Hd].
  destruct (Hall k v) as [Hid Hplain]; [by left|].
  split; [done|]. split; [done|]. split; [done|]. split; [done|].
  intros key value Hin. apply Hall. by right.
Qed.

(** The lines written for the entries of a mapping, read as a file. *)
Lemma last_value_formatted (U : dict) (key : string) :
  well_formed U →
  last_value key ((λ '(k, v), format_line k v) <$> U) = dict_get key U.
Proof.
  induction U as [|[k v] U IH]; [done|].
  intros (Hk & Hid & Hplain & HU)%well_formed_cons.
  cbn [fmap list_fmap last_value dict_get].
  change (list_fmap _ _ ?f U) with (f <$> U). rewrite (IH HU).
  rewrite format_line_assignment by done.
  destruct (String.eqb k key) eqn:Hkk.
  - apply String.eqb_eq in Hkk as <-. by rewrite dict_get_notin.
  - by destruct (dict_get key U).
Qed.

Lemma well_formed_filter (p : string → bool) (U : dict) :
  well_formed U →
  well_formed (List.filter (λ '(k, _), p k) U)
  ∧ ∀ key, dict_get key (List.filter (λ '(k, _), p k) U)
           = if p key then dict_get key U else None.
Proof.
  induction U as [|[k v] U IH]; intros HU.
  - split; [done|]. intros key. by destruct (p key).
  - pose proof HU as (Hk & Hid & Hplain & HU')%well_formed_cons.
    destruct (IH HU') as [[Hnodup Hall] Hget]. cbn [List.filter].
    destruct (p k) eqn:Hpk.
    + split.
      * split.
        -- cbn [fmap list_fmap fst]. apply NoDup_cons. split; [|done].
           intros ((k' & v') & Hkk & Hin%list_elem_of_In)%list_elem_of_fmap.
           apply List.filter_In in Hin as [Hin%list_elem_of_In _].
           cbn in Hkk. subst k'. apply Hk.
           apply list_elem_of_fmap. by exists (k, v').
        -- intros key value [[= -> ->] | Hin]%elem_of_cons; [done|].
           by apply Hall.
      * intros key. cbn [dict_get].
        destruct (String.eqb k key) eqn:Hkk.
        -- apply String.eqb_eq in Hkk as <-. by rewrite Hpk.
        -- apply Hget.
    + split; [done|]. intros key. rewrite Hget. cbn [dict_get].
      destruct (String.eqb k key) eqn:Hkk; [|done].
      apply String.eqb_eq in Hkk as <-. by rewrite Hpk.
Qed.

Lemma has_key_cons (l : string) (lines : list string) (key : string) :
  has_key (l :: lines) key
  = (match assignment_of l with
     | Some (k, _) => String.eqb k key
     | None => false
     end || has_key lines key).
Proof.
  unfold has_key. cbn [existsb]. rewrite key_of_assignment.
  by destruct (assignment_of l) as [[k v]|].
Qed.

Lemma has_key_last (lines : list string) (key : string) :
  has_key lines key = true ↔ is_Some (last_value key lines).
Proof.
  induction lines as [|l lines IH]; [by split; [|intros []]|].
  rewrite has_key_cons. cbn [last_value].
  destruct (last_value key lines) as [v|].
  - rewrite (proj2 IH) by done. rewrite orb_true_r. done.
  - destruct (has_key lines key) eqn:Hhas.
    + by destruct (proj1 IH eq_refl).
    + rewrite orb_false_r. destruct (assignment_of l) as [[k v]|].
      * by destruct (String.eqb k key).
      * by split; [|intros []].
Qed.

Lemma rewritten_assignment (U : dict) (l : string) :
  well_formed U →
  assignment_of (rewritten U l)
  = match assignment_of l with
    | Some (k, v) =>
        match dict_get k U with
        | Some v' => Some (k, v')
        | None => Some (k, v)
        end
    | None => None
    end.
Proof.
  intros [_ Hall]. unfold rewritten. rewrite key_of_assignment.
  destruct (assignment_of l) as [[k v]|] eqn:Hl; cbn [fmap option_fmap option_map fst].
  - destruct (dict_get k U) as [v'|] eqn:Hget; [|done].
    destruct (Hall k v' (dict_get_in _ _ _ Hget)) as [Hid Hplain].
    by apply format_line_assignment.
  - done.
Qed.

Lemma last_value_rewritten (U : dict) (lines : list string) (key : string) :
  well_formed U →
  last_value key (rewritten U <$> lines)
  = match dict_get key U with
    | Some value => if has_key lines key then Some value else None
    | None => last_value key lines
    end.
Proof.
  intros HU. induction lines as [|l lines IH].
  - by destruct (dict_get key U).
  - cbn [fmap list_fmap last_value].
    change (list_fmap _ _ ?f lines) with (f <$> lines).
    rewrite IH, has_key_cons, rewritten_assignment by done.
    destruct (dict_get key U) as [value|] eqn:Hget.
    + destruct (has_key lines key); [by rewrite orb_true_r|].
      rewrite orb_false_r.
      destruct (assignment_of l) as [[k v]|]; [|done].
      destruct (String.eqb k key) eqn:Hk.
      * apply String.eqb_eq in Hk as ->. by rewrite Hget, String.eqb_refl.
      * destruct (dict_get k U); by rewrite Hk.
    + destruct (last_value key lines); [done|].
      destruct (assignment_of l) as [[k v]|]; [|done].
      destruct (dict_get k U) as [v'|] eqn:Hk; [|done].
      destruct (String.eqb k key) eqn:Hkk; [|done].
      apply String.eqb_eq in Hkk as ->. congruence.
Qed.

(** What the lines [set_env_values] returns hold under every key. *)
Lemma last_value_set (U : dict) (lines : list string) (key : string) :
  well_formed U →
  last_value key ((rewritten U <$> lines) ++ appended U lines)
  = match dict_get key U with
    | Some value => Some value
    | None => last_value key lines
    end.
Proof.
  intros HU. rewrite last_value_app, last_value_rewritten by done.
  unfold appended.
  destruct (well_formed_filter (λ k, negb (has_key lines k)) U HU)
    as [Hfiltered Hget].
  rewrite last_value_formatted, Hget by done.
  destruct (has_key lines key); cbn [negb]; by destruct (dict_get key U).
Qed.

Lemma set_lines_whole (U : dict) (lines : list string) :
  well_formed U →
  Forall (λ l, whole_line l = true) lines →
  Forall (λ l, whole_line l = true)
    ((rewritten U <$> lines) ++ appended U lines).
Proof.
  intros [_ Hall] Hlines. apply Forall_app. split.
  - rewrite Forall_fmap. eapply Forall_impl; [exact Hlines|].
    intros l Hl. cbn. unfold rewritten.
    destruct (key_of l) as [k|]; [|done].
    destruct (dict_get k U) as [v|] eqn:Hget; [|done].
    destruct (Hall k v (dict_get_in _ _ _ Hget)). by apply format_line_whole.
  - unfold appended. rewrite Forall_fmap, Forall_forall.
    intros [k v] Hin%list_elem_of_In. apply List.filter_In in Hin as [Hin _].
    cbn. destruct (Hall k v); [by apply list_elem_of_In|].
    by apply format_line_whole.
Qed.

Lemma lines_of_written {Ext : Type} (w : World Ext) (filepath : string)
    (lines : list string) :
  files w !! filepath = Some (Str.writelines lines) →
  Forall (λ l, whole_line l = true) lines →
  lines_of filepath w = lines.
Proof.
  intros Hfile Hlines. unfold lines_of. rewrite Hfile.
  apply read_back; [by apply whole_lines_canonical | by apply whole_lines_plain].
Qed.

Lemma filter_none {A : Type} (p : A → bool) (l : list A) :
  (∀ x, x ∈ l → p x = false) → List.filter p l = [].
Proof.
  induction l as [|x l IH]; intros Hl; [done|]. cbn [List.filter].
  rewrite (Hl x) by by left. apply IH. intros y Hy. apply Hl. by right.
Qed.

Section SetThenGet.

Context {Ext : Type} (w : World Ext) (filepath content : string) (U : dict).
Hypothesis Hfile : files w !! filepath = Some content.
Hypothesis Hnl :
  Forall (λ l, ends_with_newline l = true)
    (Str.readlines (Str.universal_newlines content)).
Hypothesis HU : well_formed U.

Let lines := Str.readlines (Str.universal_newlines content).
Let env_lines := (rewritten U <$> lines) ++ appended U lines.

Lemma set_lines_read_back :
  lines_of filepath (snd (set_env_values filepath U w)) = env_lines.
Proof.
  rewrite (set_env_values_run w _ _ U Hfile). cbn [snd].
  apply lines_of_written.
  - cbn. apply lookup_insert_eq.
  - apply set_lines_whole; [done|]. by apply lines_read_whole.
Qed.

Lemma rewritten_fixed (l : string) : l ∈ env_lines → rewritten U l = l.
Proof.
  destruct HU as [Hnodup Hall].
  assert (∀ k v, (k, v) ∈ U → rewritten U (format_line k v) = format_line k v)
    as Hformatted.
  { intros k v Hin. destruct (Hall k v Hin) as [Hid Hplain].
    unfold rewritten.
    rewrite key_of_assignment, format_line_assignment by done. cbn.
    by rewrite (dict_get_of_in _ _ _ Hnodup Hin). }
  unfold env_lines. rewrite elem_of_app. intros [Hl | Hl].
  - apply list_elem_of_fmap in Hl as (l0 & -> & _).
    assert (rewritten U l0 = l0
            ∨ ∃ k v, (k, v) ∈ U ∧ rewritten U l0 = format_line k v)
      as [Heq | (k & v & Hin & Heq)].
    { unfold rewritten. destruct (key_of l0) as [k|]; [|by left].
      destruct (dict_get k U) as [v|] eqn:Hget; [|by left].
      right. exists k, v. split; [by apply dict_get_in | done]. }
    + rewrite Heq. exact Heq.
    + rewrite Heq. by apply Hformatted.
  - unfold appended in Hl. apply list_elem_of_fmap in Hl as ([k v] & -> & Hin).
    apply list_elem_of_In, List.filter_In in Hin as [Hin _].
    apply Hformatted. by apply list_elem_of_In.
Qed.

Lemma set_twice_lines :
  (rewritten U <$> env_lines) ++ appended U env_lines = env_lines.
Proof.
  assert (appended U env_lines = []) as ->.
  { unfold appended.
    assert (List.filter (λ '(key, _), negb (has_key env_lines key)) U = [])
      as ->; [|done].
    apply filter_none. intros [k v] Hin.
    assert (has_key env_lines k = true) as ->; [|done].
    apply has_key_last. unfold env_lines. rewrite last_value_set by done.
    destruct HU as [Hnodup _]. by rewrite (dict_get_of_in _ _ _ Hnodup Hin). }
  rewrite app_nil_r. rewrite <- (list_fmap_id env_lines) at 2.
  apply list_fmap_ext. intros _ l Hl%list_elem_of_lookup_2.
  by apply rewritten_fixed.
Qed.

End SetThenGet.

(** X4: after [set_env_values] on a file whose lines all end with a
    newline, with a mapping of distinct identifiers to plain values,
    [get_env] finds under every key of the mapping the value given, and
    under every other key what it found before. *)
Theorem set_then_get {Ext : Type} (w : World Ext) (filepath content : string)
    (U : dict) :
  files w !! filepath = Some content →
  Forall (λ l, ends_with_newline l = true)
    (Str.readlines (Str.universal_newlines content)) →
  well_formed U →
  ∀ key,
    stored_value filepath key (snd (set_env_values filepath U w))
    = match dict_get key U with
      | Some value => Some value
      | None => stored_value filepath key w
      end.
Proof.
  intros Hfile Hnl HU key.
  rewrite !stored_value_last, (set_lines_read_back w _ _ U) by done.
  rewrite last_value_set by done.
  unfold lines_of. by rewrite Hfile.
Qed.

(** X5: under the same conditions [set_env_values] is idempotent: applied
    again with the same mapping it returns the same lines and leaves the
    file as the first call wrote it. *)
Theorem set_env_values_idempotent {Ext : Type} (w : World Ext)
    (filepath content : string) (U : dict) :
  files w !! filepath = Some content →
  Forall (λ l, ends_with_newline l = true)
    (Str.readlines (Str.universal_newlines content)) →
  well_formed U →
  let w1 := snd (set_env_values filepath U w) in
  fst (set_env_values filepath U w1) = fst (set_env_values filepath U w)
  ∧ files (snd (set_env_values filepath U w1)) = files w1.
Proof.
  intros Hfile Hnl HU w1.
  pose proof (set_lines_read_back w _ _ U Hfile Hnl HU) as Hback.
  fold w1 in Hback.
  pose proof (set_env_values_run w _ _ U Hfile) as Hrun. cbv zeta in Hrun.
  assert (files w1 !! filepath
          = Some (Str.writelines
                    ((rewritten U <$> Str.readlines (Str.universal_newlines content))
                     ++ appended U (Str.readlines (Str.universal_newlines content)))))
    as Hfile1.
  { unfold w1. rewrite Hrun. cbn. apply lookup_insert_eq. }
  pose proof (set_env_values_run w1 _ _ U Hfile1) as Hrun1. cbv zeta in Hrun1.
  unfold lines_of in Hback. rewrite Hfile1 in Hback.
  rewrite Hback, (set_twice_lines content U HU) in Hrun1.
  rewrite Hrun1, Hrun. cbn [fst snd files]. split; [done|].
  apply insert_id. exact Hfile1.
Qed.

Lemma well_formed_example :
  well_formed [("WORKERS", "4"); ("DEBUG", "false")].
Proof.
  split.
  - cbn [fmap list_fmap fst]. apply NoDup_cons. split.
    + rewrite list_elem_of_singleton. discriminate.
    + apply NoDup_singleton.
  - intros key value Hin.
    apply elem_of_cons in Hin as [[= -> ->] | Hin]; [done|].
    apply elem_of_cons in Hin as [[= -> ->] | Hin]; [done|].
    by apply elem_of_nil in Hin.
Qed.

Lemma set_then_get_witness :
  let w := Example.example_world
             ("DEBUG=true" +:+ Str.lf +:+ "PATH=/usr/bin" +:+ Str.lf) in
  let w' := snd (set_env_values env_file
                   [("WORKERS", "4"); ("DEBUG", "false")] w) in
  stored_value env_file "DEBUG" w' = Some "false"
  ∧ stored_value env_file "WORKERS" w' = Some "4"
  ∧ stored_value env_file "PATH" w' = Some "/usr/bin".
Proof.
  intros w w'.
  assert (files w !! env_file
          = Some ("DEBUG=true" +:+ Str.lf +:+ "PATH=/usr/bin" +:+ Str.lf))
    as Hfile by (vm_compute; reflexivity).
  assert (Forall (λ l, ends_with_newline l = true)
            (Str.readlines
               (Str.universal_newlines
                  ("DEBUG=true" +:+ Str.lf +:+ "PATH=/usr/bin" +:+ Str.lf))))
    as Hnl by (vm_compute; repeat constructor).
  pose proof (set_then_get w env_file _ _ Hfile Hnl well_formed_example)
    as Hget.
  fold w' in Hget. by rewrite !Hget.
Defined.

Lemma set_env_values_idempotent_witness :
  let w := Example.example_world
             ("DEBUG=true" +:+ Str.lf +:+ "PATH=/usr/bin" +:+ Str.lf) in
  let U := [("WORKERS", "4"); ("DEBUG", "false")] in
  let w1 := snd (set_env_values env_file U w) in
  fst (set_env_values env_file U w1) = fst (set_env_values env_file U w)
  ∧ files (snd (set_env_values env_file U w1)) = files w1.
Proof.
  intros w U w1.
  apply (set_env_values_idempotent w env_file
           ("DEBUG=true" +:+ Str.lf +:+ "PATH=/usr/bin" +:+ Str.lf) U).
  - vm_compute. reflexivity.
  - vm_compute. repeat constructor.
  - exact well_formed_example.
Defined.

(** ** Deleting a variable *)

Lemma startswith_inv (p s : string) :
  Str.startswith p s = true → ∃ t, s = p +:+ t.
Proof.
  revert s. induction p as [|a p IH]; intros s.
  - intros _. by exists s.
  - destruct s as [|b s]; [done|]. cbn [Str.startswith].
    intros [Hab Hp]%andb_true_iff. apply Ascii.eqb_eq in Hab as ->.
    destruct (IH _ Hp) as [t ->]. by exists t.
Qed.

(** A line that starts with a key and [=] assigns that key, if it assigns
    any. *)
Lemma startswith_assignment (target_key l k v : string) :
  Str.count Str.equals target_key = 0 →
  Str.startswith (target_key +:+ "=") l = true →
  assignment_of l = Some (k, v) → k = target_key.
Proof.
  intros Htarget [t ->]%startswith_inv Hassign.
  apply assignment_of_assigns in Hassign as [Hm Hsplit].
  destruct (matches_identifier _ Hm) as (k' & rest & Heq & Hid).
  destruct (identifier_all_chars _ Hid) as [Hne Hall].
  rewrite Heq in Hsplit.
  change ("=" +:+ rest) with (String Str.equals rest) in Hsplit.
  rewrite split_assignment_shape in Hsplit by done.
  injection Hsplit as <- _.
  rewrite app_assoc_s in Heq.
  change ("=" +:+ t) with (String Str.equals t) in Heq.
  change ("=" +:+ rest) with (String Str.equals rest) in Heq.
  symmetry.
  by apply (cut_unique Str.equals target_key k' t rest Heq);
    [|apply ident_count_equals].
Qed.

Lemma last_value_kept (target_key key : string) (lines : list string) :
  Str.count Str.equals target_key = 0 →
  last_value key (kept target_key lines)
  = if String.eqb key target_key then None else last_value key lines.
Proof.
  intros Htarget. induction lines as [|l lines IH].
  - by destruct (String.eqb key target_key).
  - cbn [kept List.filter last_value]. fold (kept target_key lines).
    destruct (Str.startswith (target_key +:+ "=") l) eqn:Hstart; cbn [negb].
    + rewrite IH. destruct (String.eqb key target_key) eqn:Hk; [done|].
      destruct (last_value key lines); [done|].
      destruct (assignment_of l) as [[k v]|] eqn:Hl; [|done].
      rewrite (startswith_assignment _ _ _ _ Htarget Hstart Hl).
      by rewrite String.eqb_sym, Hk.
    + cbn [last_value]. rewrite IH.
      destruct (String.eqb key target_key) eqn:Hk; [|done].
      apply String.eqb_eq in Hk as ->.
      destruct (assignment_of l) as [[k v]|] eqn:Hl; [|done].
      destruct (String.eqb k target_key) eqn:Hkk; [|done].
      apply String.eqb_eq in Hkk as ->.
      apply assignment_of_assigns in Hl.
      assert (key_of l = Some target_key) as Hkey
        by (apply key_of_assigns; by exists v).
      apply key_of_startswith in Hkey. congruence.
Qed.

Lemma kept_kept (target_key : string) (lines : list string) :
  kept target_key (kept target_key lines) = kept target_key lines.
Proof.
  unfold kept. induction lines as [|l lines IH]; [done|].
  cbn [List.filter].
  destruct (negb (Str.startswith (target_key +:+ "=") l)) eqn:Hl; [|done].
  cbn [List.filter]. by rewrite Hl, IH.
Qed.

Lemma lines_of_kept {Ext : Type} (w : World Ext)
    (filepath content target_key : string) :
  files w !! filepath
  = Some (Str.writelines
            (kept target_key (Str.readlines (Str.universal_newlines content)))) →
  lines_of filepath w
  = kept target_key (Str.readlines (Str.universal_newlines content)).
Proof.
  intros Hfile. unfold lines_of. rewrite Hfile. apply read_back.
  - apply canonical_filter, readlines_canonical.
  - pose proof (lines_read_plain content) as Hplain.
    rewrite Forall_forall in *. intros l Hl. apply Hplain.
    unfold kept in Hl. rewrite list_elem_of_In, List.filter_In in Hl.
    apply list_elem_of_In. tauto.
Qed.

(** X6: [delete_env_value] with a key that has no [=] in it removes that
    key only: afterwards [get_env] finds nothing under the key and, under
    every other key, what it found before; deleting the same key again
    returns the same lines and leaves the file as it is. *)
Theorem delete_only_target {Ext : Type} (w : World Ext)
    (filepath content target_key : string) :
  files w !! filepath = Some content →
  Str.count Str.equals target_key = 0 →
  let w1 := snd (delete_env_value filepath target_key w) in
  (∀ key,
      stored_value filepath key w1
      = if String.eqb key target_key then None
        else stored_value filepath key w)
  ∧ fst (delete_env_value filepath target_key w1)
    = fst (delete_env_value filepath target_key w)
  ∧ files (snd (delete_env_value filepath target_key w1)) = files w1.
Proof.
  intros Hfile Htarget w1.
  pose proof (delete_env_value_run w _ _ target_key Hfile) as Hrun.
  cbv zeta in Hrun.
  set (lines := Str.readlines (Str.universal_newlines content)) in *.
  assert (files w1 !! filepath = Some (Str.writelines (kept target_key lines)))
    as Hfile1.
  { unfold w1. rewrite Hrun. cbn. apply lookup_insert_eq. }
  pose proof (lines_of_kept w1 _ _ _ Hfile1) as Hlines1. fold lines in Hlines1.
  split; [|split].
  - intros key. rewrite !stored_value_last, Hlines1.
    rewrite last_value_kept by done.
    unfold lines_of. by rewrite Hfile.
  - pose proof (delete_env_value_run w1 _ _ target_key Hfile1) as Hrun1.
    cbv zeta in Hrun1. unfold lines_of in Hlines1. rewrite Hfile1 in Hlines1.
    rewrite Hlines1, kept_kept in Hrun1. by rewrite Hrun1, Hrun.
  - pose proof (delete_env_value_run w1 _ _ target_key Hfile1) as Hrun1.
    cbv zeta in Hrun1. unfold lines_of in Hlines1. rewrite Hfile1 in Hlines1.
    rewrite Hlines1, kept_kept in Hrun1. rewrite Hrun1. cbn [snd files].
    apply insert_id. exact Hfile1.
Qed.

Lemma delete_only_target_witness :
  let w := Example.example_world
             ("DATABASE_URL=postgresql://old" +:+ Str.lf
              +:+ "DATABASE_URL_RO=postgresql://replica" +:+ Str.lf
              +:+ "PATH=/usr/bin") in
  let w1 := snd (delete_env_value env_file "DATABASE_URL" w) in
  stored_value env_file "DATABASE_URL" w1 = None
  ∧ stored_value env_file "DATABASE_URL_RO" w1 = Some "postgresql://replica"
  ∧ stored_value env_file "PATH" w1 = Some "/usr/bin".
Proof.
  intros w w1.
  assert (files w !! env_file
          = Some ("DATABASE_URL=postgresql://old" +:+ Str.lf
                  +:+ "DATABASE_URL_RO=postgresql://replica" +:+ Str.lf
                  +:+ "PATH=/usr/bin")) as Hfile by (vm_compute; reflexivity).
  destruct (delete_only_target w env_file _ "DATABASE_URL" Hfile eq_refl)
    as [Hget _].
  fold w1 in Hget. by rewrite !Hget.
Defined.

(** ** The user of the service *)

Section User.

Context {Ext : Type} (H : Host Ext).
Implicit Types (w : World Ext).

(** The four ways [get_user] can go. *)
Lemma get_user_run w (username : string) :
  let e := machine w in
  let w1 := apply_event H w (Act (Subprocess (useradd username))) in
  get_user H (VStr username) w
  = match getpwnam H username e with
    | Some user => (Ok user, w)
    | None =>
        if exits_zero H (useradd username) e then
          match getpwnam H username (machine w1) with
          | Some user => (Ok user, w1)
          | None => (Raise KeyError, w1)
          end
        else (Raise (CalledProcessError [VStr "useradd"; VStr username]), w1)
    end.
Proof.
  unfold get_user, check_call, useradd, mbind, M_bind, lift, observe, act,
    mret, M_ret, raise.
  cbn. destruct (getpwnam H username (machine w)); [done|].
  destruct (exits_zero H _ (machine w)); [|done]. cbn.
  by destruct (getpwnam H username _).
Qed.

(** X7: [get_user] gets or creates: the record it returns is the one the
    machine has for the name when it returns; a name the machine knows
    costs no command and changes nothing; [useradd] runs at most once,
    and only for a name the machine does not know; and
    [CalledProcessError] is raised exactly when the name is not known and
    [useradd] exits with a status other than zero. *)
Theorem get_user_gets_or_creates w (username : string) :
  (∀ user w',
      get_user H (VStr username) w = (Ok user, w') →
      getpwnam H username (machine w') = Some user)
  ∧ (∀ user,
       getpwnam H username (machine w) = Some user →
       get_user H (VStr username) w = (Ok user, w))
  ∧ (events_of (get_user H (VStr username)) w
     = match getpwnam H username (machine w) with
       | Some _ => []
       | None => [Act (Subprocess (useradd username))]
       end)
  ∧ (∀ w' command,
       get_user H (VStr username) w = (Raise (CalledProcessError command), w')
       ↔ getpwnam H username (machine w) = None
         ∧ exits_zero H (useradd username) (machine w) = false
         ∧ command = [VStr "useradd"; VStr username]
         ∧ w' = apply_event H w (Act (Subprocess (useradd username)))).
Proof.
  pose proof (get_user_run w username) as Hrun. cbv zeta in Hrun.
  unfold events_of. rewrite Hrun. clear Hrun.
  destruct (getpwnam H username (machine w)) as [user|] eqn:Hknown.
  - split; [by intros ? ? [= <- <-]|]. split; [by intros ? [= <-]|].
    split; [by rewrite drop_all|].
    intros w' command. split; [done | by intros [? _]].
  - destruct (exits_zero H (useradd username) (machine w)) eqn:Hexit.
    + destruct (getpwnam H username
                  (machine (apply_event H w
                              (Act (Subprocess (useradd username))))))
        as [user|] eqn:Hcreated.
      * split.
        { intros user0 w' [Huser Hw']%pair_equal_spec.
          injection Huser as <-. by rewrite <- Hw'. }
        split; [done|].
        split; [cbn; by rewrite drop_app_length|].
        intros w' command. split; [done | by intros (_ & ? & _)].
      * split; [done|]. split; [done|].
        split; [cbn; by rewrite drop_app_length|].
        intros w' command. split; [done | by intros (_ & ? & _)].
    + split; [done|]. split; [done|].
      split; [cbn; by rewrite drop_app_length|].
      intros w' command. split.
      * intros [Hcommand Hw']%pair_equal_spec.
        by injection Hcommand as <-.
      * by intros (_ & _ & -> & ->).
Qed.

Lemma layer_config_default (key : string) (value : PyVal) :
  (<["application_root" := VStr "/srv"]> (<["username" := VStr "wsgi"]> ∅)
     : gmap string PyVal) !! key = Some value →
  ∃ v, layer_config H !! key = Some v.
Proof.
  intros Hdefault. unfold layer_config.
  destruct (default ∅ (wsgi_yaml H) !! key) as [v|] eqn:Hyaml.
  - exists v. by apply lookup_union_Some_l.
  - exists value. rewrite lookup_union_r; done.
Qed.

(** X8: [system_dependencies] returns normally only with
    [wsgi.system.ready] set and the configured user known to the machine;
    when it raises, the flags are as they were. *)
Theorem system_dependencies_ready w w' (r : Result unit) :
  system_dependencies H w = (r, w') →
  match r with
  | Ok _ =>
      system_ready ∈ states w'
      ∧ ∃ username user,
          layer_config H !! "username" = Some (VStr username)
          ∧ getpwnam H username (machine w') = Some user
  | Raise _ => states w' = states w
  end.
Proof.
  destruct (layer_config_default "username" (VStr "wsgi") eq_refl)
    as [username Husername].
  unfold system_dependencies, layer_config_item. rewrite Husername.
  rewrite (bind_ok (status_set _ _) _ () w _ eq_refl).
  rewrite (bind_ok (log _) _ () _ _ eq_refl).
  rewrite (bind_ok (apt_install H _) _ () _ _ eq_refl).
  rewrite (bind_ok (mret username) _ username _ _ eq_refl).
  rewrite (bind_ok (log _) _ () _ _ eq_refl).
  rewrite (bind_ok (mret username) _ username _ _ eq_refl).
  match goal with |- context [mbind _ _ ?w0] => set (w1 := w0) end.
  assert (states w1 = states w) as Hstates by reflexivity.
  clearbody w1. unfold mbind, M_bind.
  destruct username as [|username|z];
    try (unfold get_user, lift, mbind, M_bind; cbn;
         intros [Hr Hw']%pair_equal_spec; by subst).
  pose proof (get_user_run w1 username) as Hrun. cbv zeta in Hrun.
  rewrite Hrun. clear Hrun.
  destruct (getpwnam H username (machine w1)) as [user|] eqn:Hknown.
  - unfold set_state. intros [Hr Hw']%pair_equal_spec. subst r w'. cbn.
    split.
    + apply elem_of_union. right. by apply elem_of_singleton.
    + by exists username, user.
  - destruct (exits_zero H (useradd username) (machine w1)).
    2: { intros [Hr Hw']%pair_equal_spec. by subst. }
    destruct (getpwnam H username
                (machine (apply_event H w1
                            (Act (Subprocess (useradd username))))))
      as [user|] eqn:Hcreated.
    2: { intros [Hr Hw']%pair_equal_spec. by subst. }
    unfold set_state. intros [Hr Hw']%pair_equal_spec. subst r w'. cbn.
    split.
    + apply elem_of_union. right. by apply elem_of_singleton.
    + by exists username, user.
Qed.

End User.

Lemma get_user_gets_or_creates_witness :
  let host := Example.example_host None [] [] in
  let w := Example.example_world "" in
  get_user host (VStr "wsgi") w
  = (Ok {| pw_name := "wsgi"; pw_uid := 1001; pw_gid := 1002 |}, w).
Proof.
  intros host w.
  by apply (proj1 (proj2 (get_user_gets_or_creates host w "wsgi"))).
Defined.

Lemma system_dependencies_ready_witness :
  let host := Example.example_host None [] [] in
  let w := Example.example_world "" in
  system_ready ∈ states (snd (system_dependencies host w))
  ∧ ∃ username user,
      layer_config host !! "username" = Some (VStr username)
      ∧ getpwnam host username (machine (snd (system_dependencies host w)))
        = Some user.
Proof.
  intros host w.
  exact (system_dependencies_ready host w (snd (system_dependencies host w))
           (Ok ()) eq_refl).
Defined.

(** ** How a pass ends *)

Section Outcome.

Context {Ext : Type} (H : Host Ext).
Implicit Types (w : World Ext) (evs : list Event).

Lemma replay_leaves_source_unavailable evs w :
  Forall leaves_source_unavailable evs →
  source_available ∉ states w → source_available ∉ states (replay H evs w).
Proof.
  intros Hevs. revert w.
  induction Hevs as [|ev evs Hev _ IH]; intros w Hin; [done|].
  apply IH. destruct ev; cbn in *; try done.
  - rewrite elem_of_union, elem_of_singleton. by intros [? | ?].
  - rewrite elem_of_difference. by intros [? _].
Qed.

Lemma pass_leaves_source_unavailable w :
  source_available ∉ states (snd (start_application_service H w)).
Proof.
  unfold start_application_service.
  rewrite (bind_ok (remove_state source_available) _ () w
             (apply_event H w (RemoveState source_available)) eq_refl).
  match goal with
  | |- context [snd ((?m ≫= ?k) ?w2)] =>
      assert (emits H leaves_source_unavailable (m ≫= k)) as Hrest
        by emits_handler;
      destruct (Hrest w2) as (evs & -> & Hevs)
  end.
  apply replay_leaves_source_unavailable; [done|]. cbn.
  rewrite elem_of_difference, elem_of_singleton. by intros [_ ?].
Qed.

Lemma pass_raise_unavailable w w' (e : Exception) :
  start_application_service H w = (Raise e, w') → available ∉ states w'.
Proof.
  rewrite pass_split. unfold mbind, M_bind.
  pose proof (provision_unavailable H w) as Hw1.
  destruct (provision H w) as [[[]|e1] w1]; cbn in Hw1.
  - intros Hcheck. by apply (check_service_started_raises H _ _ _ Hcheck).
  - intros [He Hw']%pair_equal_spec. by subst.
Qed.

Lemma check_service_started_ok w w' :
  check_service_started H w = (Ok (), w') →
  available ∈ states w' ∧ (ready ∈ states w → ready ∈ states w').
Proof.
  unfold check_service_started, mbind, M_bind.
  assert (emits H clears_only_availability
            (wait_for_service H (seq 0 max_attempts))) as Hwait
    by emits_handler.
  destruct (Hwait w) as (evs & Hw2 & Hevs).
  destruct (wait_for_service H (seq 0 max_attempts) w) as [[[]|e] w2];
    cbn in Hw2; subst w2; [|done..].
  unfold log, status_set, emit, set_state. cbn.
  intros [_ <-]%pair_equal_spec. cbn. split.
  - apply elem_of_union. right. by apply elem_of_singleton.
  - intros Hready. apply elem_of_union. left.
    by apply replay_keeps_flag.
Qed.

Lemma before_database_ok w w1 :
  before_database H w = (Ok (), w1) → ready ∈ states w1.
Proof.
  unfold before_database.
  rewrite (bind_ok (remove_state source_available) _ () w _ eq_refl).
  rewrite (bind_ok (remove_state available) _ () _ _ eq_refl).
  unfold mbind, M_bind.
  match goal with
  | |- context [install_application_dependencies H ?w0] =>
      destruct (install_application_dependencies H w0) as [[[]|e] w2]
  end; [|done].
  unfold set_state. intros [_ <-]%pair_equal_spec. cbn.
  apply elem_of_union. right. by apply elem_of_singleton.
Qed.

Lemma provision_ok w w1 :
  provision H w = (Ok (), w1) → ready ∈ states w1.
Proof.
  intros Hprovision.
  assert (provision H w
          = (before_database H ≫= λ _,
             check_for_database_connection H ≫= λ _,
             open_the_port H ≫= λ _, configure_daemon H) w) as Hsplit.
  { unfold provision, before_database, mbind, M_bind.
    repeat match goal with
           | |- context [match ?m ?w0 with _ => _ end] =>
               destruct (m w0) as [[[]|?] ?]
           end; reflexivity. }
  rewrite Hsplit in Hprovision. unfold mbind at 1, M_bind at 1 in Hprovision.
  destruct (before_database H w) as [[[]|e] w0] eqn:Hbefore; [|done].
  apply before_database_ok in Hbefore.
  match type of Hprovision with
  | ?m w0 = _ =>
      assert (emits H clears_only_availability m) as Hrest by emits_handler;
      destruct (Hrest w0) as (evs & Hevs & HQ)
  end.
  rewrite Hprovision in Hevs. cbn in Hevs. subst w1.
  by apply replay_keeps_flag.
Qed.

(** X9: a pass returns normally exactly when it ends with
    [wsgi.available] set; it then ends with [wsgi.ready] set as well;
    and however it ends, [wsgi.source.available] is unset. *)
Theorem pass_outcome w w' (r : Result unit) :
  start_application_service H w = (r, w') →
  (r = Ok () ↔ available ∈ states w')
  ∧ (r = Ok () → ready ∈ states w')
  ∧ source_available ∉ states w'.
Proof.
  intros Hrun.
  assert (r = Ok () → available ∈ states w' ∧ ready ∈ states w') as Hok.
  { intros ->. rewrite pass_split in Hrun.
    unfold mbind, M_bind in Hrun.
    destruct (provision H w) as [[[]|e] w1] eqn:Hprovision; [|done].
    destruct (check_service_started_ok _ _ Hrun) as [Havailable Hready].
    split; [done|]. by apply Hready, (provision_ok w). }
  split; [|split].
  - split; [by intros Hr; apply Hok|].
    destruct r as [[]|e]; [done|]. intros Havailable.
    by destruct (pass_raise_unavailable _ _ _ Hrun).
  - by intros Hr; apply Hok.
  - pose proof (pass_leaves_source_unavailable w) as Hsource.
    by rewrite Hrun in Hsource.
Qed.

(** X10: a relation event with one of [wsgi.configured],
    [wsgi.source.available] and [wsgi.system.ready] unset does nothing at
    all; with the three set it is a provisioning pass; and as a pass
    leaves [wsgi.source.available] unset, a relation event that follows
    a pass, before the source is made available again, does nothing. *)
Theorem database_attached_guard w :
  (¬ (configured ∈ states w ∧ source_available ∈ states w
      ∧ system_ready ∈ states w) →
   database_attached H w = (Ok (), w))
  ∧ (configured ∈ states w → source_available ∈ states w →
     system_ready ∈ states w →
     database_attached H w = start_application_service H w)
  ∧ (let w' := snd (start_application_service H w) in
     database_attached H w' = (Ok (), w')).
Proof.
  assert (∀ w0 : World Ext,
            ¬ (configured ∈ states w0 ∧ source_available ∈ states w0
               ∧ system_ready ∈ states w0) →
            database_attached H w0 = (Ok (), w0)) as Hguard.
  { intros w0 Hflags. unfold database_attached, all_states, mbind, M_bind.
    cbn [forallb].
    destruct (bool_decide (configured ∈ states w0)) eqn:Hc; [|done].
    destruct (bool_decide (source_available ∈ states w0)) eqn:Hs; [|done].
    destruct (bool_decide (system_ready ∈ states w0)) eqn:Hr; [|done].
    apply bool_decide_eq_true in Hc, Hs, Hr. by destruct Hflags. }
  split; [apply Hguard|]. split.
  - intros Hc Hs Hr. unfold database_attached, all_states, mbind, M_bind.
    cbn [forallb]. by rewrite !bool_decide_eq_true_2.
  - intros w'. apply Hguard. intros (_ & Hsource & _).
    by apply (pass_leaves_source_unavailable w).
Qed.

End Outcome.

Lemma pass_outcome_witness :
  let host := Example.example_host (Some 12) [] [] in
  let w := Example.example_world "" in
  let w' := snd (start_application_service host w) in
  (Ok () = Ok () ↔ available ∈ states w')
  ∧ (Ok () = Ok () → ready ∈ states w')
  ∧ source_available ∉ states w'.
Proof.
  intros host w w'.
  apply (pass_outcome host w w' (Ok ())).
  rewrite (surjective_pairing (start_application_service host w)).
  f_equal; vm_compute; reflexivity.
Defined.

Lemma database_attached_guard_witness :
  let host := Example.example_host (Some 12) [] [] in
  let w := {| states := {[configured; system_ready]};
              files := {[env_file := ""]}; machine := 0; trace := [] |} in
  database_attached host w = (Ok (), w).
Proof.
  intros host w.
  apply (proj1 (database_attached_guard host w)).
  intros (_ & Hsource & _). cbn in Hsource.
  rewrite elem_of_union, !elem_of_singleton in Hsource.
  by destruct Hsource.
Defined.

(** ** The cost of the health check *)

Lemma sleeps_never (evs : list Event) :
  Forall never_sleeps evs → sleeps evs = [].
Proof.
  induction 1 as [|ev evs Hev _ IH]; [done|].
  change (ev :: evs) with ([ev] ++ evs). rewrite sleeps_app, IH, app_nil_r.
  by destruct ev as [[]| | | | | | |].
Qed.

Lemma probes_app (evs1 evs2 : list Event) :
  probes (evs1 ++ evs2) = probes evs1 + probes evs2.
Proof. unfold probes. by rewrite List.filter_app, length_app. Qed.

Lemma reported_running_app (evs1 evs2 : list Event) :
  reported_running (evs1 ++ evs2)
  = reported_running evs1 + reported_running evs2.
Proof. unfold reported_running. by rewrite List.filter_app, length_app. Qed.

Section Cost.

Context {Ext : Type} (H : Host Ext).
Implicit Types (w : World Ext) (evs : list Event).

Lemma wait_sleeps_bounded (n : nat) :
  ∀ (first : nat) w,
    ∃ evs j,
      snd (wait_for_service H (seq first n) w) = replay H evs w
      ∧ j ≤ n ∧ sleeps evs = replicate j 6.
Proof.
  induction n as [|n IH]; intros first w.
  - by exists [], 0.
  - cbn [seq]. destruct (responding_after H w 0) eqn:Hfirst.
    + destruct (successful_attempt H first (seq (S first) n) w Hfirst)
        as (evs & Hrun & Hsleeps & _).
      exists evs, 0. rewrite Hrun. split; [done|]. split; [lia | done].
    + destruct (failed_attempt H first (seq (S first) n) w Hfirst)
        as (evs1 & Hrun1 & Hsleeps1 & _).
      destruct (IH (S first) (replay H evs1 w)) as (evs2 & j & Hrun2 & Hj & Hsleeps2).
      exists (evs1 ++ evs2), (S j).
      rewrite Hrun1, Hrun2, replay_app, sleeps_app, Hsleeps1, Hsleeps2.
      split; [done|]. split; [lia | done].
Qed.

Lemma check_service_started_sleeps w :
  ∃ evs j,
    snd (check_service_started H w) = replay H evs w
    ∧ j ≤ max_attempts ∧ sleeps evs = replicate j 6.
Proof.
  destruct (wait_sleeps_bounded max_attempts 0 w)
    as (evs & j & Hwait & Hj & Hsleeps).
  unfold check_service_started, mbind, M_bind.
  destruct (wait_for_service H (seq 0 max_attempts) w) as [[[]|e] w1];
    cbn in Hwait; subst w1.
  - eexists (evs ++ [Log _; StatusSet _ _; SetState available]), j.
    split; [by rewrite replay_app|]. split; [done|].
    by rewrite sleeps_app, Hsleeps, app_nil_r.
  - by exists evs, j.
  - by exists evs, j.
Qed.

(** X11: a pass sleeps only in the health check, six seconds at a time
    and at most ten times: it never blocks in [sleep] for more than sixty
    seconds. *)
Theorem pass_sleeps_bounded w :
  ∃ j, j ≤ max_attempts
       ∧ sleeps (events_of (start_application_service H) w) = replicate j 6
       ∧ sum_list (sleeps (events_of (start_application_service H) w)) ≤ 60.
Proof.
  assert (emits H never_sleeps (provision H)) as Hprovision
    by (unfold provision; emits_handler).
  destruct (Hprovision w) as (evs1 & Hw1 & Hnever).
  assert (∃ evs j, snd (start_application_service H w) = replay H evs w
                   ∧ j ≤ max_attempts ∧ sleeps evs = replicate j 6)
    as (evs & j & Hrun & Hj & Hsleeps).
  { rewrite pass_split. unfold mbind, M_bind.
    destruct (provision H w) as [[[]|e] w1]; cbn in Hw1; subst w1.
    - destruct (check_service_started_sleeps (replay H evs1 w))
        as (evs2 & j & Hrun2 & Hj & Hsleeps2).
      exists (evs1 ++ evs2), j. rewrite Hrun2, replay_app.
      split; [done|]. split; [done|].
      by rewrite sleeps_app, (sleeps_never _ Hnever).
    - exists evs1, 0. split; [done|]. split; [lia|].
      by apply sleeps_never. }
  exists j. rewrite (events_of_replay H _ evs w Hrun), Hsleeps.
  split; [done|]. split; [done|].
  rewrite sum_list_replicate. unfold max_attempts in Hj. lia.
Qed.

Lemma service_is_responding_probes w :
  ∃ evs,
    snd (service_is_responding H w) = replay H evs w
    ∧ probes evs = reported_running evs
    ∧ probes evs ≤ 1.
Proof.
  unfold service_is_responding, service_running, is_port_open.
  unfold mbind, M_bind, mret, M_ret, observe, emit. cbn.
  destruct (is_active H service_name (machine w)) eqn:Hactive; cbn.
  - eexists [ServiceRunning _ true; ConnectEx _ _ _].
    split; [reflexivity|]. split; [reflexivity | cbn; lia].
  - eexists [ServiceRunning _ false].
    split; [reflexivity|]. split; [reflexivity | cbn; lia].
Qed.

Lemma wait_probes (attempts : list nat) :
  ∀ w, ∃ evs,
    snd (wait_for_service H attempts w) = replay H evs w
    ∧ probes evs = reported_running evs.
Proof.
  induction attempts as [|attempt rest IH]; intros w.
  - by exists [].
  - cbn [wait_for_service].
    set (msg := "[wsgi] Waiting for service on port " +:+ _).
    rewrite (bind_ok (log msg) _ () w (apply_event H w (Log msg)) eq_refl).
    destruct (service_is_responding_probes (apply_event H w (Log msg)))
      as (evs1 & Hrun1 & Hprobes1 & _).
    unfold mbind at 1, M_bind at 1.
    destruct (service_is_responding H (apply_event H w (Log msg)))
      as [[[]|e] w1]; cbn in Hrun1; subst w1.
    + exists (Log msg :: evs1). split; [done|].
      change (Log msg :: evs1) with ([Log msg] ++ evs1).
      by rewrite probes_app, reported_running_app, Hprobes1.
    + rewrite (bind_ok (sleep H 6) _ () _
                 (apply_event H (replay H evs1 (apply_event H w (Log msg)))
                    (Act (Sleep 6))) eq_refl).
      destruct (IH (apply_event H (replay H evs1 (apply_event H w (Log msg)))
                      (Act (Sleep 6)))) as (evs2 & Hrun2 & Hprobes2).
      exists ([Log msg] ++ evs1 ++ [Act (Sleep 6)] ++ evs2).
      split.
      * rewrite Hrun2. by rewrite !replay_app.
      * rewrite !probes_app, !reported_running_app, Hprobes1, Hprobes2.
        done.
    + exists (Log msg :: evs1). split; [done|].
      change (Log msg :: evs1) with ([Log msg] ++ evs1).
      by rewrite probes_app, reported_running_app, Hprobes1.
Qed.

(** X12: the health check probes the port only after the service was
    reported running: in any run of the loop there are as many probes
    as reports that the service runs, so a service that is never
    running is never probed. *)
Theorem port_probed_when_running w (attempts : list nat) :
  probes (events_of (wait_for_service H attempts) w)
  = reported_running (events_of (wait_for_service H attempts) w).
Proof.
  destruct (wait_probes attempts w) as (evs & Hrun & Hprobes).
  by rewrite (events_of_replay H _ evs w Hrun).
Qed.

End Cost.

(** ** The environment of pip *)

Section Install.

Context {Ext : Type} (H : Host Ext).
Implicit Types (w : World Ext).

Lemma get_env_has w (filepath content key value : string) :
  files w !! filepath = Some content →
  last_value key (Str.readlines (Str.universal_newlines content)) = Some value →
  ∃ d, get_env filepath w = (Ok d, w) ∧ dict_in key d = true.
Proof.
  intros Hfile Hlast.
  destruct (get_env_run w _ _ _ Hfile eq_refl) as (d & Hrun & Hd).
  exists d. split; [done|]. unfold dict_in.
  by rewrite (get_env_lines_last _ _ _ key Hd), Hlast.
Qed.

Lemma install_raises_on_LC_ALL w (content value : string) :
  isfile H "requirements.txt" (machine w) = true →
  files w !! env_file = Some content →
  last_value "LC_ALL" (Str.readlines (Str.universal_newlines content))
  = Some value →
  ∃ msg,
    install_application_dependencies H w
    = (Raise TypeError,
       replay H [StatusSet "maintenance"
                   "[wsgi] Installing application dependencies";
                 Log msg] w).
Proof.
  intros Hisfile Hfile Hlast.
  destruct (layer_config_default H "application_root" (VStr "/srv") eq_refl)
    as [application_root Hroot].
  unfold install_application_dependencies, layer_config_item.
  rewrite Hroot.
  rewrite (bind_ok (status_set _ _) _ () w _ eq_refl).
  erewrite (bind_ok (observe _) _ true);
    [|unfold observe; cbn; by rewrite Hisfile].
  destruct (truthy (config H "pip_cache_dir")).
  - rewrite (bind_ok (log _) _ () _ _ eq_refl).
    rewrite (bind_ok (mret _) _ application_root _ _ eq_refl).
    match goal with
    | |- context [(get_env env_file ≫= _) ?w0] =>
        destruct (get_env_has w0 env_file content "LC_ALL" value Hfile Hlast)
          as (d & Hget & Hin)
    end.
    rewrite (bind_ok _ _ _ _ _ Hget).
    unfold with_LC_ALL. rewrite Hin. by eexists.
  - rewrite (bind_ok (log _) _ () _ _ eq_refl).
    rewrite (bind_ok (mret _) _ application_root _ _ eq_refl).
    match goal with
    | |- context [(get_env env_file ≫= _) ?w0] =>
        destruct (get_env_has w0 env_file content "LC_ALL" value Hfile Hlast)
          as (d & Hget & Hin)
    end.
    rewrite (bind_ok _ _ _ _ _ Hget).
    unfold with_LC_ALL. rewrite Hin. by eexists.
Qed.

(** X13: when there is a requirements.txt and the environment file
    assigns [LC_ALL], building the environment of pip repeats the
    keyword [LC_ALL]: the pass raises [TypeError] before any command has
    run, with no file written and no flag set by it. *)
Theorem lc_all_in_environment_file w (content value : string) :
  isfile H "requirements.txt" (machine w) = true →
  files w !! env_file = Some content →
  last_value "LC_ALL" (Str.readlines (Str.universal_newlines content))
  = Some value →
  ∃ w',
    start_application_service H w = (Raise TypeError, w')
    ∧ Forall runs_no_command (events_of (start_application_service H) w)
    ∧ Forall sets_no_flag (events_of (start_application_service H) w)
    ∧ files w' = files w.
Proof.
  intros Hisfile Hfile Hlast.
  assert (∃ msg,
            start_application_service H w
            = (Raise TypeError,
               replay H [RemoveState source_available; RemoveState available;
                         StatusSet "maintenance"
                           "[wsgi] Installing application dependencies";
                         Log msg] w)) as [msg Hrun].
  { unfold start_application_service.
    rewrite (bind_ok (remove_state source_available) _ () w _ eq_refl).
    rewrite (bind_ok (remove_state available) _ () _ _ eq_refl).
    match goal with
    | |- context [(install_application_dependencies H ≫= _) ?w0] =>
        destruct (install_raises_on_LC_ALL w0 content value Hisfile Hfile Hlast)
          as [msg Hinstall]
    end.
    exists msg. by rewrite (bind_raise _ _ _ _ _ Hinstall). }
  eexists. split; [exact Hrun|].
  rewrite (events_of_replay H _ _ w (f_equal snd Hrun)).
  split; [by repeat constructor|]. split; [|done].
  repeat constructor.
Qed.

End Install.

Lemma lc_all_in_environment_file_witness :
  let host := Example.example_host (Some 0) [] [] in
  let w := Example.example_world ("LC_ALL=en_US.UTF-8" +:+ Str.lf) in
  ∃ w',
    start_application_service host w = (Raise TypeError, w')
    ∧ Forall runs_no_command (events_of (start_application_service host) w)
    ∧ Forall sets_no_flag (events_of (start_application_service host) w)
    ∧ files w' = files w.
Proof.
  intros host w.
  apply (lc_all_in_environment_file host w ("LC_ALL=en_US.UTF-8" +:+ Str.lf)
           "en_US.UTF-8").
  - reflexivity.
  - vm_compute. reflexivity.
  - vm_compute. reflexivity.
Defined.

(** ** The URL of the database *)

Lemma app_nonempty_r (a b : string) : b ≠ "" → a +:+ b ≠ "".
Proof. destruct a; [done|]. by rewrite app_cons_s. Qed.

Lemma truthy_str (s : string) : s ≠ "" → truthy (VStr s) = true.
Proof. intros Hs. cbn. by destruct s. Qed.

Lemma build_url_host_str (h : string) (port username password : PyVal) :
  h ≠ "" →
  ∃ n, build_url_host (VStr h) port username password = VStr n ∧ n ≠ "".
Proof.
  intros Hh. unfold build_url_host.
  destruct (truthy port), (truthy username), (truthy password);
    eexists; (split; [reflexivity|]); cbn [py_str];
    try done; apply app_nonempty_r; by rewrite app_cons_s.
Qed.

Lemma urlunparse_netloc (scheme n db : string) :
  scheme ≠ "" → n ≠ "" →
  urlunparse scheme (VStr n) (VStr db) VNone VNone VNone
  = Ok (scheme +:+ "://" +:+ n +:+ url_path db).
Proof.
  intros Hscheme Hn.
  unfold urlunparse, urlunsplit, coerce_args, url_path, py_or.
  cbn [forallb is_str truthy negb orb andb].
  rewrite !orb_true_r. cbn [mbind Result_bind andb].
  assert (String.eqb scheme "" = false) as -> by by apply String.eqb_neq.
  assert (String.eqb n "" = false) as -> by by apply String.eqb_neq.
  cbn [negb mbind Result_bind py_str].
  unfold slice_differs, str_add.
  destruct (String.eqb db "") eqn:Hdb;
    cbn [negb mbind Result_bind fmap Result_fmap as_str].
  - apply String.eqb_eq in Hdb as ->. by rewrite !app_assoc_s.
  - destruct (Str.startswith "/" db);
      cbn [negb mbind Result_bind fmap Result_fmap as_str];
      by rewrite !app_assoc_s.
Qed.

Lemma stored_value_files {Ext : Type} (w1 w2 : World Ext)
    (filepath key : string) :
  files w1 = files w2 →
  stored_value filepath key w1 = stored_value filepath key w2.
Proof.
  intros Hfiles. rewrite !stored_value_last. unfold lines_of.
  by rewrite Hfiles.
Qed.

Lemma lines_of_files {Ext : Type} (w1 w2 : World Ext) (filepath : string) :
  files w1 = files w2 → lines_of filepath w1 = lines_of filepath w2.
Proof. intros Hfiles. unfold lines_of. by rewrite Hfiles. Qed.

Lemma well_formed_one (key value : string) :
  is_identifier key = true → is_plain_value value = true →
  well_formed [(key, value)].
Proof.
  intros Hkey Hvalue. split.
  - apply NoDup_singleton.
  - by intros k v [= -> ->]%list_elem_of_singleton.
Qed.

Section DatabaseUrl.

Context {Ext : Type} (H : Host Ext).
Implicit Types (w : World Ext).

(** The database step with a URL that can be built leaves the files as
    [set_env_values] with that URL leaves them. *)
Lemma attached_step_files w (relation : gmap string PyVal)
    (scheme url : string) :
  choose_db_relation (relations_of_type H "postgres")
    (relations_of_type H "mongo") = Some (relation, scheme) →
  relation ≠ ∅ →
  database_url scheme relation = Ok url →
  files (snd (check_for_database_connection H w))
  = files (snd (set_env_values env_file [("DATABASE_URL", url)] w)).
Proof.
  intros Hchoose Hrelation Hurl.
  unfold check_for_database_connection. rewrite Hchoose.
  rewrite bool_decide_eq_false_2 by done.
  unfold database_attached_branch.
  change (urlunparse scheme _ _ VNone VNone VNone)
    with (database_url scheme relation).
  rewrite Hurl.
  rewrite (bind_ok (log _) _ () w _ eq_refl).
  rewrite (bind_ok (log _) _ () _ _ eq_refl).
  rewrite (bind_ok (lift _) _ url _ _ eq_refl).
  match goal with |- context [mbind _ _ ?w0] => set (w2 := w0) end.
  assert (files w2 = files w) as Hfiles2 by done. clearbody w2.
  transitivity (files (snd (set_env_values env_file
                              [("DATABASE_URL", url)] w2))).
  - unfold mbind at 1, M_bind at 1.
    destruct (set_env_values env_file [("DATABASE_URL", url)] w2)
      as [[env_lines|e] w3]; [|done].
    cbn [snd]. rewrite (emits_files H) by emits_handler. done.
  - unfold set_env_values, mbind, M_bind, open_readlines, lift,
      open_writelines.
    rewrite Hfiles2. destruct (files w !! env_file); [|done].
    destruct (set_env_lines _ _); cbn; by rewrite ?Hfiles2.
Qed.

(** X14: for the relation and scheme a pass chooses, when the relation
    names a host (under [host], or else [hostname]) and its database
    name, if any, is a string, the URL is
    [scheme://[user[:password]@]host[:port][/database]], the part before
    the path being what [build_url_host] returns, and the database step
    writes the line [DATABASE_URL=] that URL. When moreover every line
    of the environment file ends with a newline and the URL has no line
    break in it and no whitespace at its end, that line is a line of the
    file as it reads afterwards, [get_env] finds the URL under
    [DATABASE_URL], and under every other key what it found before. *)
Theorem database_url_written w (content : string)
    (relation : gmap string PyVal) (scheme host database : string) :
  choose_db_relation (relations_of_type H "postgres")
    (relations_of_type H "mongo") = Some (relation, scheme) →
  py_or (dict_get_or relation "host" VNone)
        (dict_get_or relation "hostname" VNone) = VStr host →
  host ≠ "" →
  dict_get_or relation "database" (VStr "") = VStr database →
  files w !! env_file = Some content →
  let netloc :=
    py_str (build_url_host (VStr host) (dict_get_or relation "port" VNone)
              (dict_get_or relation "user" VNone)
              (dict_get_or relation "password" VNone)) in
  let url := scheme +:+ "://" +:+ netloc +:+ url_path database in
  let w' := snd (check_for_database_connection H w) in
  database_url scheme relation = Ok url
  ∧ (∃ env_lines,
       files w' !! env_file = Some (Str.writelines env_lines)
       ∧ format_line "DATABASE_URL" url ∈ env_lines)
  ∧ (Forall (λ l, ends_with_newline l = true)
       (Str.readlines (Str.universal_newlines content)) →
     is_plain_value url = true →
     format_line "DATABASE_URL" url ∈ lines_of env_file w'
     ∧ stored_value env_file "DATABASE_URL" w' = Some url
     ∧ ∀ key, key ≠ "DATABASE_URL" →
         stored_value env_file key w' = stored_value env_file key w).
Proof.
  intros Hchoose Hhost Hne Hdatabase Hfile netloc url w'.
  assert (scheme ≠ "") as Hscheme.
  { unfold choose_db_relation in Hchoose.
    destruct (relations_of_type H "postgres"); [|by injection Hchoose as _ <-].
    destruct (relations_of_type H "mongo"); [done|].
    by injection Hchoose as _ <-. }
  assert (relation ≠ ∅) as Hrelation.
  { intros ->. unfold dict_get_or, py_or in Hhost.
    rewrite !lookup_empty in Hhost. cbn in Hhost. done. }
  destruct (build_url_host_str host (dict_get_or relation "port" VNone)
              (dict_get_or relation "user" VNone)
              (dict_get_or relation "password" VNone) Hne)
    as (n & Hn & Hnne).
  assert (database_url scheme relation = Ok url) as Hurl.
  { unfold database_url. rewrite Hhost, Hdatabase, Hn.
    unfold url, netloc. rewrite Hn. by apply urlunparse_netloc. }
  pose proof (attached_step_files w relation scheme url Hchoose Hrelation
                Hurl) as Hfiles.
  fold w' in Hfiles.
  set (lines := Str.readlines (Str.universal_newlines content)).
  set (U := [("DATABASE_URL", url)]) in *.
  assert (format_line "DATABASE_URL" url
          ∈ (rewritten U <$> lines) ++ appended U lines) as Hwritten
    by apply one_variable_written.
  split; [done|]. split.
  - exists ((rewritten U <$> lines) ++ appended U lines).
    split; [|done].
    rewrite Hfiles, (set_env_values_run w _ _ U Hfile). cbn.
    apply lookup_insert_eq.
  - intros Hnl Hplain.
    assert (well_formed U) as HU by by apply well_formed_one.
    assert (lines_of env_file w'
            = (rewritten U <$> lines) ++ appended U lines) as Hlines.
    { rewrite (lines_of_files w' _ env_file Hfiles).
      by apply set_lines_read_back. }
    split; [by rewrite Hlines|].
    assert (∀ key,
              stored_value env_file key w'
              = match dict_get key U with
                | Some value => Some value
                | None => stored_value env_file key w
                end) as Hstored.
    { intros key. rewrite stored_value_last, Hlines, last_value_set by done.
      rewrite (stored_value_last w). unfold lines_of. by rewrite Hfile. }
    split.
    + by rewrite Hstored.
    + intros key Hkey. rewrite Hstored. cbn [U dict_get].
      destruct (String.eqb "DATABASE_URL" key) eqn:Heq; [|done].
      by apply String.eqb_eq in Heq.
Qed.

End DatabaseUrl.

Lemma database_url_written_witness :
  let host := Example.example_host (Some 0) [] [Example.mongo_relation] in
  let w := Example.example_world ("PATH=/usr/bin" +:+ Str.lf) in
  let w' := snd (check_for_database_connection host w) in
  database_url "mongodb" Example.mongo_relation = Ok "mongodb://mongo1:27017"
  ∧ files w' !! env_file
    = Some ("PATH=/usr/bin" +:+ Str.lf
            +:+ "DATABASE_URL=mongodb://mongo1:27017" +:+ Str.lf)
  ∧ format_line "DATABASE_URL" "mongodb://mongo1:27017" ∈ lines_of env_file w'
  ∧ stored_value env_file "DATABASE_URL" w' = Some "mongodb://mongo1:27017"
  ∧ stored_value env_file "PATH" w' = Some "/usr/bin".
Proof.
  intros host w w'.
  destruct (database_url_written host w ("PATH=/usr/bin" +:+ Str.lf)
              Example.mongo_relation "mongodb" "mongo1" "")
    as (Hurl & _ & Hfile).
  - reflexivity.
  - vm_compute. reflexivity.
  - discriminate.
  - vm_compute. reflexivity.
  - vm_compute. reflexivity.
  - destruct Hfile as (Hline & Hstored & Hother).
    + vm_compute. repeat constructor.
    + vm_compute. reflexivity.
    + split; [exact Hurl|]. split; [by vm_compute|].
      split; [exact Hline|]. split; [exact Hstored|].
      etransitivity; [apply (Hother "PATH"); discriminate|].
      vm_compute. reflexivity.
Defined.

(** ** The configuration declared and stored *)

Lemma split_cons (c : ascii) (s : string) :
  Str.split (String c s)
  = if Str.isspace c then Str.split s
    else match s with
         | EmptyString => [String c EmptyString]
         | String c' _ =>
             if Str.isspace c' then String c EmptyString :: Str.split s
             else match Str.split s with
                  | t :: ts => String c t :: ts
                  | [] => [String c EmptyString]
                  end
         end.
Proof. by destruct s. Qed.

(** The pieces [s.split()] returns have no whitespace in them. *)
Lemma split_nonspace (s : string) :
  Forall (λ t, Str.all_chars (λ c, negb (Str.isspace c)) t = true)
    (Str.split s).
Proof.
  induction s as [|c s IH]; [constructor|]. rewrite split_cons.
  destruct (Str.isspace c) eqn:Hc; [done|].
  assert (Str.all_chars (λ c, negb (Str.isspace c)) (String c "") = true)
    as Hone by (cbn; by rewrite Hc).
  destruct s as [|c' s']; [by repeat constructor|].
  destruct (Str.isspace c'); [by constructor|].
  destruct (Str.split (String c' s')) as [|t ts]; [by repeat constructor|].
  apply Forall_cons in IH as [Ht Hts]. constructor; [|done].
  cbn [Str.all_chars]. by rewrite Hc, Ht.
Qed.

Lemma nonspace_count (c : ascii) (v : string) :
  Str.isspace c = true →
  Str.all_chars (λ c, negb (Str.isspace c)) v = true → Str.count c v = 0.
Proof.
  intros Hc. induction v as [|x v IH]; [done|].
  cbn [Str.all_chars Str.count]. intros [Hx Hv]%andb_true_iff.
  rewrite (IH Hv). destruct (Ascii.eqb x c) eqn:Hxc; [|done].
  apply Ascii.eqb_eq in Hxc as ->. by rewrite Hc in Hx.
Qed.

Lemma nonspace_plain (v : string) :
  Str.all_chars (λ c, negb (Str.isspace c)) v = true →
  is_plain_value v = true.
Proof.
  intros Hv. unfold is_plain_value.
  rewrite !nonspace_count by done.
  pose proof (rstrip_app v "" Hv) as Hstrip.
  rewrite app_nil_r_s in Hstrip. cbn [Str.rstrip] in Hstrip.
  rewrite app_nil_r_s in Hstrip. rewrite Hstrip. cbn.
  apply String.eqb_refl.
Qed.

Lemma declaration_parts (t : string) :
  is_declaration t = true →
  Str.all_chars (λ c, negb (Str.isspace c)) t = true →
  ∃ name value,
    Str.split_on Str.equals t = [name; value]
    ∧ Str.count Str.equals t = 1
    ∧ is_identifier name = true ∧ is_plain_value value = true.
Proof.
  unfold is_declaration. intros Ht Hnonspace.
  pose proof (split_on_length Str.equals t) as Hlen.
  destruct (Str.split_on Str.equals t) as [|name [|value [|]]] eqn:Hsplit;
    try done.
  cbn in Hlen. assert (Str.count Str.equals t = 1) as Hcount by lia.
  destruct (declaration_shape t Hcount) as (k & v & -> & _ & _ & Hkv).
  rewrite Hkv in Hsplit. injection Hsplit as -> ->.
  exists name, value. repeat split; try done.
  apply nonspace_plain. rewrite !all_chars_app in Hnonspace.
  by apply andb_true_iff in Hnonspace as [_ [_ ?]%andb_true_iff].
Qed.

Lemma dict_set_keys (k v : string) (d : dict) :
  fst <$> dict_set k v d
  = if dict_in k d then fst <$> d else (fst <$> d) ++ [k].
Proof.
  unfold dict_in. induction d as [|[k' v'] d IH]; [done|].
  cbn [dict_set dict_get]. destruct (String.eqb k' k) eqn:Hk.
  - apply String.eqb_eq in Hk as ->. done.
  - cbn [fmap list_fmap fst] in *. change (list_fmap _ _ fst ?l) with (fst <$> l).
    rewrite IH. by destruct (dict_get k d).
Qed.

Lemma dict_set_in (k v k' v' : string) (d : dict) :
  (k', v') ∈ dict_set k v d → (k', v') = (k, v) ∨ (k', v') ∈ d.
Proof.
  induction d as [|[k0 v0] d IH]; cbn [dict_set].
  - intros ->%list_elem_of_singleton. by left.
  - destruct (String.eqb k0 k).
    + intros [-> | Hin]%elem_of_cons; [by left|]. right. by right.
    + intros [-> | Hin]%elem_of_cons; [right; by left|].
      destruct (IH Hin) as [? | ?]; [by left|]. right. by right.
Qed.

Lemma well_formed_set (k v : string) (d : dict) :
  well_formed d → is_identifier k = true → is_plain_value v = true →
  well_formed (dict_set k v d).
Proof.
  intros [Hnodup Hall] Hk Hv. split.
  - rewrite dict_set_keys. destruct (dict_in k d) eqn:Hin; [done|].
    apply NoDup_app. split; [done|]. split; [|apply NoDup_singleton].
    intros k' Hk' Heq%list_elem_of_singleton. subst k'.
    apply list_elem_of_fmap in Hk' as ([k0 v0] & Hfst & Hin0).
    cbn in Hfst. subst k0.
    apply dict_in_item in Hin0. congruence.
  - intros k' v' [[= -> ->] | Hin]%dict_set_in; [done|]. by apply Hall.
Qed.

Lemma variables_well_formed (declarations : list string) :
  (∀ t, t ∈ declarations →
        is_declaration t = true
        ∧ Str.all_chars (λ c, negb (Str.isspace c)) t = true) →
  ∀ variables d,
    well_formed variables →
    variables_from_declarations declarations variables = Ok d →
    well_formed d.
Proof.
  induction declarations as [|t declarations IH]; intros Hall d0 d Hd0 Hrun.
  - by injection Hrun as <-.
  - destruct (Hall t) as [Ht Hnonspace]; [by left|].
    destruct (declaration_parts t Ht Hnonspace)
      as (name & value & Hsplit & _ & Hname & Hvalue).
    cbn [variables_from_declarations] in Hrun. rewrite Hsplit in Hrun.
    cbn in Hrun. apply (IH (λ t Ht, Hall t (list_elem_of_further _ _ _ Ht))
                          _ _ (well_formed_set _ _ _ Hd0 Hname Hvalue) Hrun).
Qed.

Section ConfigStored.

Context {Ext : Type} (H : Host Ext).
Implicit Types (w : World Ext).

(** X15: when the packages configured are a string or nothing, every
    declaration of the environment string is [name=value] with an
    identifier for name, and every line of the environment file ends with
    a newline, the config-changed handler returns normally with
    [wsgi.configured] set and the environment file holding, under every
    name declared, the value of its last declaration, and under every
    other key what it held before. *)
Theorem config_changed_stores w (content variables_string : string)
    (packages : list string) :
  split_value (py_or (config H "apt_dependencies") (VStr "")) = Ok packages →
  config H "environment_variables" = VStr variables_string →
  (∀ t, t ∈ Str.split variables_string → is_declaration t = true) →
  files w !! env_file = Some content →
  Forall (λ l, ends_with_newline l = true)
    (Str.readlines (Str.universal_newlines content)) →
  ∃ w',
    configure_dependencies H w = (Ok (), w')
    ∧ configured ∈ states w'
    ∧ (∀ name value,
         declared_last (Str.split variables_string) name value →
         stored_value env_file name w' = Some value)
    ∧ (∀ key,
         (∀ value, ¬ declared_last (Str.split variables_string) key value) →
         stored_value env_file key w' = stored_value env_file key w).
Proof.
  intros Hpackages Hconfig Hdeclarations Hfile Hnl.
  assert (∀ t, t ∈ Str.split variables_string →
            is_declaration t = true
            ∧ Str.all_chars (λ c, negb (Str.isspace c)) t = true) as Hall.
  { intros t Ht. split; [by apply Hdeclarations|].
    pose proof (split_nonspace variables_string) as Hnonspace.
    rewrite Forall_forall in Hnonspace. by apply Hnonspace. }
  assert (∀ t, t ∈ Str.split variables_string →
            Str.count Str.equals t = 1) as Hone.
  { intros t Ht. destruct (Hall t Ht) as [Hdecl Hnonspace].
    by destruct (declaration_parts t Hdecl Hnonspace) as (? & ? & _ & ? & _). }
  destruct (variables_from_declarations_spec _ Hone []) as (d & Hd & Hget).
  assert (well_formed d) as Hwf.
  { apply (variables_well_formed _ Hall [] d); [|done].
    split; [constructor|]. intros ? ? Hin. by apply elem_of_nil in Hin. }
  unfold configure_dependencies. rewrite Hconfig, Hpackages.
  unfold variables_from_string. cbn [split_value mbind Result_bind].
  rewrite Hd.
  rewrite (bind_ok (status_set _ _) _ () w _ eq_refl).
  rewrite (bind_ok (lift _) _ packages _ _ eq_refl).
  rewrite (bind_ok (apt_install H _) _ () _ _ eq_refl).
  rewrite (bind_ok (log _) _ () _ _ eq_refl).
  rewrite (bind_ok (lift _) _ d _ _ eq_refl).
  match goal with |- context [mbind _ _ ?w0] => set (w3 := w0) end.
  assert (files w3 = files w) as Hfiles3 by reflexivity.
  assert (files w3 !! env_file = Some content) as Hfile3
    by by rewrite Hfiles3.
  clearbody w3.
  pose proof (set_lines_read_back w3 env_file content d Hfile3 Hnl Hwf)
    as Hback.
  pose proof (set_env_values_run w3 env_file content d Hfile3) as Hrun.
  cbv zeta in Hrun.
  rewrite (bind_ok _ _ _ _ _ Hrun).
  eexists. split; [reflexivity|]. split.
  { cbn. apply elem_of_union. right. by apply elem_of_singleton. }
  assert (∀ key,
            stored_value env_file key (snd (set_env_values env_file d w3))
            = match dict_get key d with
              | Some value => Some value
              | None => stored_value env_file key w
              end) as Hstored.
  { intros key. rewrite stored_value_last, Hback, last_value_set by done.
    rewrite (stored_value_files w w3) by done.
    rewrite stored_value_last. unfold lines_of. by rewrite Hfile3. }
  rewrite Hrun in Hstored. cbn [snd] in Hstored.
  split.
  - intros name value Hlast.
    erewrite stored_value_files; [rewrite Hstored|reflexivity].
    by rewrite (proj2 (Hget name value) (or_introl Hlast)).
  - intros key Hnone.
    erewrite stored_value_files; [rewrite Hstored|reflexivity].
    destruct (dict_get key d) as [value|] eqn:Hkey; [|done].
    apply Hget in Hkey as [Hlast | [? _]]; [|done].
    by destruct (Hnone value).
Qed.

End ConfigStored.

Lemma config_changed_stores_witness :
  let host :=
    {| config := λ key,
         if String.eqb key "environment_variables"
         then VStr "WORKERS=2  DEBUG=false WORKERS=4" else VNone;
       wsgi_yaml := None;
       relations_of_type := λ _, [];
       isfile := λ _ (_ : nat), false;
       getpwnam := λ _ _, None;
       exits_zero := λ _ _, true;
       is_active := λ _ _, true;
       connect_ex := λ _ _ _, 0%Z;
       after := λ _ e, e |} in
  let w := Example.example_world ("PATH=/usr/bin" +:+ Str.lf) in
  ∃ w',
    configure_dependencies host w = (Ok (), w')
    ∧ configured ∈ states w'
    ∧ stored_value env_file "WORKERS" w' = Some "4"
    ∧ stored_value env_file "PATH" w' = Some "/usr/bin".
Proof.
  intros host w.
  destruct (config_changed_stores host w ("PATH=/usr/bin" +:+ Str.lf)
              "WORKERS=2  DEBUG=false WORKERS=4" [])
    as (w' & Hrun & Hconfigured & Hdeclared & Hother).
  - reflexivity.
  - reflexivity.
  - intros t Ht. vm_compute in Ht.
    repeat (apply elem_of_cons in Ht as [-> | Ht]; [reflexivity|]).
    by apply elem_of_nil in Ht.
  - vm_compute. reflexivity.
  - vm_compute. repeat constructor.
  - exists w'. split; [exact Hrun|]. split; [exact Hconfigured|]. split.
    + apply Hdeclared. exists ["WORKERS=2"; "DEBUG=false"], [].
      split; [reflexivity|]. intros ? ? Hin. by apply elem_of_nil in Hin.
    + rewrite Hother; [vm_compute; reflexivity|].
      intros value (earlier & later & Heq & _). vm_compute in Heq.
      assert ("PATH=" +:+ value ∈ ["WORKERS=2"; "DEBUG=false"; "WORKERS=4"])
        as Hin by (rewrite Heq; apply elem_of_app; right; by left).
      repeat (apply elem_of_cons in Hin as [Hin | Hin]; [discriminate|]).
      by apply elem_of_nil in Hin.
Defined.

(** ** A relation that names no host *)

Lemma build_url_host_none (port : PyVal) :
  build_url_host VNone port VNone VNone
  = if truthy port then VStr ("None:" +:+ py_str port) else VNone.
Proof. unfold build_url_host. cbn [truthy py_str]. by destruct (truthy port). Qed.

Lemma urlunparse_no_netloc (scheme db : string) :
  scheme = "postgresql" ∨ scheme = "mongodb" →
  urlunparse scheme VNone (VStr db) VNone VNone VNone
  = Ok (scheme +:+ ":" +:+ db).
Proof.
  assert (bool_decide ("postgresql" ∈ uses_netloc) = false) as Hpostgres
    by by vm_compute.
  assert (bool_decide ("mongodb" ∈ uses_netloc) = false) as Hmongo
    by by vm_compute.
  intros [-> | ->];
    unfold urlunparse, urlunsplit, coerce_args;
    cbn [forallb is_str truthy negb orb andb];
    rewrite !orb_true_r; cbn [mbind Result_bind andb];
    rewrite ?Hpostgres, ?Hmongo;
    cbn [String.eqb Ascii.eqb Bool.eqb negb andb mbind Result_bind fmap
           Result_fmap as_str str_add];
    reflexivity.
Qed.

(** X16: for a relation with no [host], no [hostname] and no [user], whose
    database name is a string, no error is raised: with a port the URL
    carries the text [None] where the host belongs,
    [scheme://None:port[/database]], and without a port it is
    [scheme:database], with no [//] at all. *)
Theorem database_url_without_host (relation : gmap string PyVal)
    (scheme database : string) :
  scheme = "postgresql" ∨ scheme = "mongodb" →
  relation !! "host" = None →
  relation !! "hostname" = None →
  relation !! "user" = None →
  dict_get_or relation "database" (VStr "") = VStr database →
  let port := dict_get_or relation "port" VNone in
  database_url scheme relation
  = Ok (if truthy port
        then scheme +:+ "://" +:+ "None:" +:+ py_str port
             +:+ url_path database
        else scheme +:+ ":" +:+ database).
Proof.
  intros Hscheme Hhost Hhostname Huser Hdatabase port.
  unfold database_url. rewrite Hdatabase. fold port.
  unfold dict_get_or at 1 2 3. rewrite Hhost, Hhostname, Huser.
  cbn [default py_or truthy].
  unfold build_url_host. cbn [truthy py_str].
  destruct (truthy port) eqn:Hport.
  - rewrite urlunparse_netloc.
    + by rewrite !app_assoc_s, !app_cons_s, !app_nil_l_s.
    + by destruct Hscheme as [-> | ->].
    + by rewrite app_cons_s.
  - by apply urlunparse_no_netloc.
Qed.

Lemma database_url_without_host_witness :
  database_url "postgresql"
    {[ "port" := VStr "5432"; "database" := VStr "app" ]}
  = Ok "postgresql://None:5432/app"
  ∧ database_url "mongodb" {[ "password" := VStr "secret" ]}
    = Ok "mongodb:".
Proof.
  split.
  - etransitivity.
    { apply (database_url_without_host
               {[ "port" := VStr "5432"; "database" := VStr "app" ]}
               "postgresql" "app");
        [by left|vm_compute; reflexivity..]. }
    vm_compute. reflexivity.
  - etransitivity.
    { apply (database_url_without_host {[ "password" := VStr "secret" ]}
               "mongodb" "");
        [by right|vm_compute; reflexivity..]. }
    vm_compute. reflexivity.
Defined.

(** ** The handlers when something is missing *)

Lemma get_env_missing {Ext : Type} (w : World Ext) (filepath : string) :
  files w !! filepath = None →
  get_env filepath w = (Raise (FileNotFoundError filepath), w).
Proof.
  intros Hfile. unfold get_env, mbind, M_bind, open_readlines.
  by rewrite Hfile.
Qed.

Lemma set_env_values_missing {Ext : Type} (w : World Ext)
    (filepath : string) (U : dict) :
  files w !! filepath = None →
  set_env_values filepath U w = (Raise (FileNotFoundError filepath), w).
Proof.
  intros Hfile. unfold set_env_values, mbind, M_bind, open_readlines.
  by rewrite Hfile.
Qed.

Lemma delete_env_value_missing {Ext : Type} (w : World Ext)
    (filepath target_key : string) :
  files w !! filepath = None →
  delete_env_value filepath target_key w
  = (Raise (FileNotFoundError filepath), w).
Proof.
  intros Hfile. unfold delete_env_value, mbind, M_bind, open_readlines.
  by rewrite Hfile.
Qed.

(** Whatever [urlunparse] refuses, it refuses with a [TypeError]. *)
Lemma urlunparse_raises (scheme : string) (netloc url : PyVal)
    (e : Exception) :
  urlunparse scheme netloc url VNone VNone VNone = Raise e → e = TypeError.
Proof.
  unfold urlunparse, urlunsplit, coerce_args, slice_differs, str_add, as_str.
  cbn [truthy forallb negb orb andb is_str py_or].
  destruct netloc as [|n|n], url as [|u|u];
    cbn [truthy forallb negb orb andb is_str py_or mbind Result_bind fmap
           Result_fmap py_str];
    repeat match goal with
           | |- context [if ?b then _ else _] =>
               destruct b;
               cbn [truthy forallb negb orb andb is_str py_or mbind
                      Result_bind fmap Result_fmap py_str]
           end;
    congruence.
Qed.

Section Missing.

Context {Ext : Type} (H : Host Ext).
Implicit Types (w : World Ext).

(** X17: the config-changed handler either returns normally, with
    [wsgi.configured] added to the flags and the environment file
    found, or raises with the flags and the files as they were: packages
    that are not a string, a declaration that is not one [name=value],
    or no environment file leave [wsgi.configured] as it was. When the
    option [environment_variables] is not set at all it raises
    [AttributeError]. *)
Theorem config_changed_all_or_nothing w w' (r : Result unit) :
  configure_dependencies H w = (r, w') →
  ((r = Ok () ∧ states w' = states w ∪ {[configured]}
    ∧ is_Some (files w !! env_file))
   ∨ (∃ e, r = Raise e ∧ states w' = states w ∧ files w' = files w))
  ∧ (config H "environment_variables" = VNone → r = Raise AttributeError).
Proof.
  intros Hrun. unfold configure_dependencies in Hrun.
  rewrite (bind_ok (status_set _ _) _ () w _ eq_refl) in Hrun.
  destruct (split_value (py_or (config H "apt_dependencies") (VStr "")))
    as [packages|e] eqn:Hpackages.
  - rewrite (bind_ok (lift _) _ packages _ _ eq_refl) in Hrun.
    rewrite (bind_ok (apt_install H _) _ () _ _ eq_refl) in Hrun.
    rewrite (bind_ok (log _) _ () _ _ eq_refl) in Hrun.
    destruct (variables_from_string (config H "environment_variables"))
      as [d|e] eqn:Hvariables.
    + rewrite (bind_ok (lift _) _ d _ _ eq_refl) in Hrun.
      split; [|by intros Hnone; rewrite Hnone in Hvariables].
      match type of Hrun with
      | mbind _ _ ?w0 = _ => set (w3 := w0) in Hrun
      end.
      assert (files w3 = files w ∧ states w3 = states w)
        as [Hfiles3 Hstates3] by done.
      clearbody w3.
      destruct (files w !! env_file) as [content|] eqn:Hfile.
      * assert (files w3 !! env_file = Some content) as Hfile3
          by by rewrite Hfiles3.
        pose proof (set_env_values_run w3 env_file content d Hfile3) as Hset.
        cbv zeta in Hset. rewrite (bind_ok _ _ _ _ _ Hset) in Hrun.
        unfold set_state in Hrun.
        apply pair_equal_spec in Hrun as [<- <-]. left. cbn.
        rewrite Hstates3. by eauto.
      * assert (files w3 !! env_file = None) as Hfile3
          by by rewrite Hfiles3.
        rewrite (bind_raise _ _ _ _ _
                   (set_env_values_missing w3 env_file d Hfile3)) in Hrun.
        apply pair_equal_spec in Hrun as [<- <-]. right. by eauto.
    + rewrite (bind_raise (lift _) _ e _ _ eq_refl) in Hrun.
      apply pair_equal_spec in Hrun as [<- <-]. split.
      * right. by eauto.
      * intros Hnone. rewrite Hnone in Hvariables.
        by injection Hvariables as <-.
  - rewrite (bind_raise (lift _) _ e _ _ eq_refl) in Hrun.
    apply pair_equal_spec in Hrun as [<- <-]. split.
    + right. by eauto.
    + intros _. unfold split_value in Hpackages.
      destruct (py_or _ _); by simplify_eq.
Qed.

Lemma install_without_file w :
  files w !! env_file = None →
  ∃ r evs,
    install_application_dependencies H w = (r, replay H evs w)
    ∧ Forall touches_nothing evs
    ∧ (r = Ok () ∨ r = Raise (FileNotFoundError env_file)).
Proof.
  intros Hfile.
  destruct (layer_config_default H "application_root" (VStr "/srv") eq_refl)
    as [root Hroot].
  unfold install_application_dependencies.
  rewrite (bind_ok (status_set _ _) _ () w _ eq_refl).
  unfold observe. unfold mbind at 1, M_bind at 1.
  cbn [machine].
  destruct (isfile H "requirements.txt" (machine w)).
  - destruct (truthy (config H "pip_cache_dir"));
      rewrite (bind_ok (log _) _ () _ _ eq_refl);
      unfold layer_config_item; rewrite Hroot;
      rewrite (bind_ok (mret root) _ root _ _ eq_refl);
      (erewrite (bind_raise (get_env _)); [|by apply get_env_missing]);
      eexists _, [StatusSet _ _; Log _];
      (split; [reflexivity|]); (split; [by repeat constructor|]);
      by right.
  - eexists _, [StatusSet _ _]. split; [reflexivity|].
    split; [by repeat constructor|]. by left.
Qed.

Lemma database_step_without_file w :
  files w !! env_file = None →
  ∃ e evs,
    check_for_database_connection H w = (Raise e, replay H evs w)
    ∧ Forall touches_nothing evs
    ∧ (e = FileNotFoundError env_file ∨ e = TypeError).
Proof.
  intros Hfile.
  assert (∃ e evs,
            (log "[wsgi] Checking for database connection" ≫= λ _,
             no_database_branch) w = (Raise e, replay H evs w)
            ∧ Forall touches_nothing evs
            ∧ (e = FileNotFoundError env_file ∨ e = TypeError)) as Hnone.
  { rewrite (bind_ok (log _) _ () w _ eq_refl). unfold no_database_branch.
    rewrite (bind_ok (log _) _ () _ _ eq_refl).
    erewrite (bind_raise (delete_env_value _ _));
      [|by apply delete_env_value_missing].
    eexists _, [Log _; Log _]. split; [reflexivity|].
    split; [by repeat constructor|]. by left. }
  unfold check_for_database_connection.
  destruct (choose_db_relation _ _) as [[relation scheme]|]; [|done].
  destruct (bool_decide (relation = ∅)); [done|].
  rewrite (bind_ok (log _) _ () w _ eq_refl).
  unfold database_attached_branch.
  rewrite (bind_ok (log _) _ () _ _ eq_refl).
  destruct (urlunparse scheme
              (build_url_host
                 (py_or (dict_get_or relation "host" VNone)
                    (dict_get_or relation "hostname" VNone))
                 (dict_get_or relation "port" VNone)
                 (dict_get_or relation "user" VNone)
                 (dict_get_or relation "password" VNone))
              (dict_get_or relation "database" (VStr ""))
              VNone VNone VNone) as [url|e] eqn:Hurl.
  - rewrite (bind_ok (lift _) _ url _ _ eq_refl).
    erewrite (bind_raise (set_env_values _ _));
      [|by apply set_env_values_missing].
    eexists _, [Log _; Log _]. split; [reflexivity|].
    split; [by repeat constructor|]. by left.
  - rewrite (bind_raise (lift _) _ e _ _ eq_refl).
    apply urlunparse_raises in Hurl as ->.
    eexists _, [Log _; Log _]. split; [reflexivity|].
    split; [by repeat constructor|]. by right.
Qed.

Lemma touches_nothing_replay evs w :
  Forall touches_nothing evs →
  files (replay H evs w) = files w ∧ machine (replay H evs w) = machine w.
Proof.
  intros Hevs. split.
  - apply replay_keeps_files. eapply Forall_impl; [exact Hevs|].
    by intros [].
  - apply machine_replay_silent. eapply Forall_impl; [exact Hevs|].
    by intros [].
Qed.

(** X18: on a machine without the environment file a pass raises, with
    [FileNotFoundError] for that file or with the [TypeError] of a
    database URL that cannot be built, before it does anything to the
    machine: no package is installed, no command run, no port opened, no
    unit rendered, no service touched and no file written, so that the
    file is not created; [wsgi.available] and [wsgi.source.available]
    end unset. *)
Theorem pass_without_environment_file w :
  files w !! env_file = None →
  ∃ e w',
    start_application_service H w = (Raise e, w')
    ∧ (e = FileNotFoundError env_file ∨ e = TypeError)
    ∧ Forall touches_nothing (events_of (start_application_service H) w)
    ∧ files w' = files w
    ∧ machine w' = machine w
    ∧ (available ∉ states w')
    ∧ (source_available ∉ states w').
Proof.
  intros Hfile.
  assert (∃ e evs,
            start_application_service H w = (Raise e, replay H evs w)
            ∧ (e = FileNotFoundError env_file ∨ e = TypeError)
            ∧ Forall touches_nothing evs) as (e & evs & Hrun & He & Hevs).
  { unfold start_application_service.
    rewrite (bind_ok (remove_state _) _ () w _ eq_refl).
    rewrite (bind_ok (remove_state _) _ () _ _ eq_refl).
    match goal with |- context [mbind _ _ ?w0] => set (w2 := w0) end.
    assert (w2 = replay H [RemoveState source_available;
                           RemoveState available] w) as Hw2 by done.
    assert (files w2 !! env_file = None) as Hfile2 by done.
    clearbody w2.
    destruct (install_without_file w2 Hfile2)
      as (r & evs3 & Hinstall & Hevs3 & [-> | ->]).
    - rewrite (bind_ok _ _ _ _ _ Hinstall).
      rewrite (bind_ok (set_state _) _ () _ _ eq_refl).
      match goal with |- context [mbind _ _ ?w0] => set (w4 := w0) end.
      assert (w4 = replay H [SetState ready] (replay H evs3 w2)) as Hw4
        by done.
      assert (files w4 !! env_file = None) as Hfile4.
      { rewrite Hw4. cbn.
        by rewrite (proj1 (touches_nothing_replay evs3 w2 Hevs3)). }
      clearbody w4.
      destruct (database_step_without_file w4 Hfile4)
        as (e & evs5 & Hdatabase & Hevs5 & He).
      rewrite (bind_raise _ _ _ _ _ Hdatabase).
      exists e, ([RemoveState source_available; RemoveState available]
                 ++ evs3 ++ [SetState ready] ++ evs5).
      rewrite !replay_app, <- Hw2, <- Hw4. split; [done|]. split; [done|].
      repeat (apply Forall_app; split); try done; by repeat constructor.
    - rewrite (bind_raise _ _ _ _ _ Hinstall).
      eexists _, ([RemoveState source_available; RemoveState available]
                  ++ evs3).
      rewrite replay_app, <- Hw2. split; [done|]. split; [by left|].
      apply Forall_app. split; [by repeat constructor|done]. }
  exists e, (replay H evs w). split; [done|]. split; [done|].
  rewrite (events_of_replay H _ _ w (f_equal snd Hrun)).
  split; [done|].
  destruct (touches_nothing_replay evs w Hevs) as [Hfiles Hmachine].
  split; [done|]. split; [done|].
  pose proof (pass_raise_unavailable H _ _ _ Hrun) as Havailable.
  pose proof (pass_leaves_source_unavailable H w) as Hsource.
  rewrite Hrun in Hsource. done.
Qed.

End Missing.

Lemma config_changed_all_or_nothing_witness :
  let host := Example.example_host (Some 0) [] [] in
  let w := Example.example_world "" in
  let w' := snd (configure_dependencies host w) in
  (((Raise ValueError : Result unit) = Ok ()
    ∧ states w' = states w ∪ {[configured]}
    ∧ is_Some (files w !! env_file))
   ∨ (∃ e, (Raise ValueError : Result unit) = Raise e
           ∧ states w' = states w ∧ files w' = files w))
  ∧ (Example.example_config "environment_variables" = VNone →
     (Raise ValueError : Result unit) = Raise AttributeError).
Proof.
  intros host w w'.
  apply (config_changed_all_or_nothing host w w' (Raise ValueError)).
  rewrite (surjective_pairing (configure_dependencies host w)).
  f_equal; vm_compute; reflexivity.
Defined.

Lemma pass_without_environment_file_witness :
  let host := Example.example_host (Some 0) [Example.postgres_relation] [] in
  let w : World nat :=
    {| states := {[configured; system_ready; source_available]};
       files := ∅; machine := 0; trace := [] |} in
  ∃ e w',
    start_application_service host w = (Raise e, w')
    ∧ (e = FileNotFoundError env_file ∨ e = TypeError)
    ∧ Forall touches_nothing (events_of (start_application_service host) w)
    ∧ files w' = files w
    ∧ machine w' = machine w
    ∧ (available ∉ states w')
    ∧ (source_available ∉ states w').
Proof.
  intros host w.
  apply (pass_without_environment_file host w).
  reflexivity.
Defined.
